(** * Damage control: the policy matchers of opencode-damage-control

    A shallow embedding of [matchers/patterns.ts], [matchers/bash.ts],
    [matchers/file.ts] and of the hook of [index.ts].  Strings are
    sequences of 7-bit characters; the
    JavaScript runtime pieces the matchers call ([String.prototype] methods,
    [path.basename], [os.homedir], [RegExp]) are modelled in their own
    modules, the regular expression engine both as an interface (a [Host])
    and as a reference implementation ([JsRegExp]). *)

From Stdlib Require Import String Ascii List Bool Arith Lia.
Import ListNotations.
Open Scope string_scope.
Open Scope bool_scope.

(* ===================================================================== *)
(** ** JavaScript string primitives *)
(* ===================================================================== *)

Module JS.

(** [s.startsWith(p)] *)
Fixpoint startsWith (s p : string) : bool :=
  match p, s with
  | EmptyString, _ => true
  | String c p', String d s' => Ascii.eqb c d && startsWith s' p'
  | String _ _, EmptyString => false
  end.

(** [s.includes(sub)] *)
Fixpoint includes (s sub : string) : bool :=
  startsWith s sub ||
  match s with
  | EmptyString => false
  | String _ s' => includes s' sub
  end.

(** [set.includes(c)] for a single character [c] *)
Fixpoint includesChar (set : string) (c : ascii) : bool :=
  match set with
  | EmptyString => false
  | String d set' => Ascii.eqb c d || includesChar set' c
  end.

Definition isUpper (c : ascii) : bool :=
  Nat.leb 65 (nat_of_ascii c) && Nat.leb (nat_of_ascii c) 90.

Definition isLower (c : ascii) : bool :=
  Nat.leb 97 (nat_of_ascii c) && Nat.leb (nat_of_ascii c) 122.

Definition lowerChar (c : ascii) : ascii :=
  if isUpper c then ascii_of_nat (nat_of_ascii c + 32) else c.

Definition upperChar (c : ascii) : ascii :=
  if isLower c then ascii_of_nat (nat_of_ascii c - 32) else c.

(** [s.toLowerCase()] *)
Fixpoint toLowerCase (s : string) : string :=
  match s with
  | EmptyString => EmptyString
  | String c s' => String (lowerChar c) (toLowerCase s')
  end.

Fixpoint drop (n : nat) (s : string) : string :=
  match n, s with
  | O, _ => s
  | S _, EmptyString => EmptyString
  | S n', String _ s' => drop n' s'
  end.

(** GetSubstitution of ECMA-262 for a match without capture groups: in the
    replacement template [$$] is a dollar sign, [$&] the matched text,
    [$`] the text before the match and [$'] the text after it; every other
    character, a lone dollar sign included, stands for itself. *)
Fixpoint getSubstitution (matched before after template : string) : string :=
  match template with
  | EmptyString => EmptyString
  | String c t =>
      if Ascii.eqb c "$" then
        match t with
        | EmptyString => String c EmptyString
        | String d t' =>
            if Ascii.eqb d "$" then
              String "$" (getSubstitution matched before after t')
            else if Ascii.eqb d "&" then
              matched ++ getSubstitution matched before after t'
            else if Ascii.eqb d "`" then
              before ++ getSubstitution matched before after t'
            else if Ascii.eqb d "'" then
              after ++ getSubstitution matched before after t'
            else String c (getSubstitution matched before after t)
        end
      else String c (getSubstitution matched before after t)
  end.

(** The first occurrence of [pat] in [s]: the text before it and after it. *)
Fixpoint splitFirst (s pat : string) : option (string * string) :=
  if startsWith s pat then Some (EmptyString, drop (String.length pat) s)
  else
    match s with
    | EmptyString => None
    | String c s' =>
        match splitFirst s' pat with
        | Some (b, a) => Some (String c b, a)
        | None => None
        end
    end.

(** [s.replace(pat, template)] with a string pattern: the first occurrence *)
Definition replace (s pat template : string) : string :=
  match splitFirst s pat with
  | Some (b, a) => b ++ getSubstitution pat b a template ++ a
  | None => s
  end.

(** [s.replace(/^~/, template)] *)
Definition replaceLeadingTilde (s template : string) : string :=
  match s with
  | String c rest =>
      if Ascii.eqb c "~" then getSubstitution "~" "" rest template ++ rest
      else s
  | EmptyString => s
  end.

(** [s.replace(/\/$/, "")] *)
Fixpoint stripTrailingSlash (s : string) : string :=
  match s with
  | EmptyString => EmptyString
  | String c EmptyString => if Ascii.eqb c "/" then EmptyString else s
  | String c s' => String c (stripTrailingSlash s')
  end.

(** [s.replace(/[set]/g, "\\$&")]: every character of the class is
    rewritten as a backslash followed by itself. *)
Fixpoint escapeChars (set : string) (s : string) : string :=
  match s with
  | EmptyString => EmptyString
  | String c s' =>
      if includesChar set c then String "\" (String c (escapeChars set s'))
      else String c (escapeChars set s')
  end.

(** [s.replace(/c/g, by)] for a single character [c] and a replacement
    text without dollar signs *)
Fixpoint replaceAllChar (c : ascii) (by_ : string) (s : string) : string :=
  match s with
  | EmptyString => EmptyString
  | String d s' =>
      if Ascii.eqb d c then by_ ++ replaceAllChar c by_ s'
      else String d (replaceAllChar c by_ s')
  end.

(** Truthiness of a string: only the empty string is falsy. *)
Definition truthy (s : string) : bool :=
  match s with
  | EmptyString => false
  | String _ _ => true
  end.

End JS.

(* ===================================================================== *)
(** ** Completions: a call returns normally or throws *)
(* ===================================================================== *)

Inductive completion (A : Type) : Type :=
| Normal (a : A)
| Throw (error : string).

Arguments Normal {A} a.
Arguments Throw {A} error.

Definition bind {A B : Type} (c : completion A) (k : A -> completion B)
  : completion B :=
  match c with
  | Normal a => k a
  | Throw e => Throw e
  end.

Notation "x <- c ;; k" := (bind c (fun x => k))
  (at level 61, c at next level, right associativity).

(** [try { body } catch { handler }] *)
Definition try_catch {A : Type} (body : completion A) (handler : A) : A :=
  match body with
  | Normal a => a
  | Throw _ => handler
  end.

(* ===================================================================== *)
(** ** Node's [path.basename] (POSIX) *)
(* ===================================================================== *)

Module Path.

Fixpoint dropSlashes (l : list ascii) : list ascii :=
  match l with
  | c :: l' => if Ascii.eqb c "/" then dropSlashes l' else l
  | [] => []
  end.

Fixpoint takeComponent (l : list ascii) : list ascii :=
  match l with
  | c :: l' => if Ascii.eqb c "/" then [] else c :: takeComponent l'
  | [] => []
  end.

(** The last component of a path: trailing separators are ignored, then
    everything after the last remaining separator is kept. *)
Definition basename (p : string) : string :=
  string_of_list_ascii
    (rev (takeComponent (dropSlashes (rev (list_ascii_of_string p))))).

End Path.

(* ===================================================================== *)
(** ** The host: home directory and regular expression engine *)
(* ===================================================================== *)

Record Host : Type := {
  (** [os.homedir()] *)
  homedir : string;
  (** compiled regular expressions *)
  RegExp : Type;
  (** [new RegExp(source, flags)]: throws a SyntaxError on a bad pattern *)
  RegExp_new : string -> string -> completion RegExp;
  (** [regex.test(str)] for a regex without the [g] and [y] flags *)
  RegExp_test : RegExp -> string -> bool
}.

(* ===================================================================== *)
(** ** Types of [patterns.ts] and [bash.ts] *)
(* ===================================================================== *)

Module BashPattern.
Record t : Type := {
  pattern : string;
  reason : string;
  ask : option bool
}.
End BashPattern.

Record Config : Type := {
  bashToolPatterns : list BashPattern.t;
  zeroAccessPaths : list string;
  readOnlyPaths : list string;
  noDeletePaths : list string
}.

Module CheckResult.
Record t : Type := {
  blocked : bool;
  reason : string
}.
End CheckResult.

Module BashCheckResult.
Record t : Type := {
  blocked : bool;
  reason : string;
  wasAskPattern : option bool
}.
(** A [CheckResult] used where a [BashCheckResult] is expected: the
    optional field is absent. *)
Definition ofCheckResult (r : CheckResult.t) : t :=
  {| blocked := CheckResult.blocked r;
     reason := CheckResult.reason r;
     wasAskPattern := None |}.
End BashCheckResult.

(** [shouldAsk === true] *)
Definition isTrue (v : option bool) : bool :=
  match v with
  | Some true => true
  | _ => false
  end.

(** [[pattern, operation]] *)
Definition PatternTuple : Type := (string * string)%type.

(* ===================================================================== *)
(** ** Operation patterns *)
(* ===================================================================== *)

Definition WRITE_PATTERNS : list PatternTuple :=
  [ (">\s*{path}", "write");
    ("\btee\s+(?!.*-a).*{path}", "write") ].

Definition APPEND_PATTERNS : list PatternTuple :=
  [ (">>\s*{path}", "append");
    ("\btee\s+-a\s+.*{path}", "append");
    ("\btee\s+.*-a.*{path}", "append") ].

Definition EDIT_PATTERNS : list PatternTuple :=
  [ ("\bsed\s+-i.*{path}", "edit");
    ("\bperl\s+-[^\s]*i.*{path}", "edit");
    ("\bawk\s+-i\s+inplace.*{path}", "edit") ].

Definition MOVE_COPY_PATTERNS : list PatternTuple :=
  [ ("\bmv\s+.*\s+{path}", "move");
    ("\bcp\s+.*\s+{path}", "copy") ].

Definition DELETE_PATTERNS : list PatternTuple :=
  [ ("\brm\s+.*{path}", "delete");
    ("\bunlink\s+.*{path}", "delete");
    ("\brmdir\s+.*{path}", "delete");
    ("\bshred\s+.*{path}", "delete") ].

Definition PERMISSION_PATTERNS : list PatternTuple :=
  [ ("\bchmod\s+.*{path}", "chmod");
    ("\bchown\s+.*{path}", "chown");
    ("\bchgrp\s+.*{path}", "chgrp") ].

Definition TRUNCATE_PATTERNS : list PatternTuple :=
  [ ("\btruncate\s+.*{path}", "truncate");
    (":\s*>\s*{path}", "truncate") ].

Definition READ_ONLY_BLOCKED : list PatternTuple :=
  WRITE_PATTERNS ++ APPEND_PATTERNS ++ EDIT_PATTERNS ++ MOVE_COPY_PATTERNS
  ++ DELETE_PATTERNS ++ PERMISSION_PATTERNS ++ TRUNCATE_PATTERNS.

Definition NO_DELETE_BLOCKED : list PatternTuple := DELETE_PATTERNS.

(* ===================================================================== *)
(** ** The matchers *)
(* ===================================================================== *)

Section Matchers.

Variable host : Host.

(** *** Glob pattern utilities *)

Definition isGlobPattern (pattern : string) : bool :=
  JS.includes pattern "*" || JS.includes pattern "?" || JS.includes pattern "[".

(** Glob to regex source, for searching inside a command string. *)
Fixpoint globToRegex (globPattern : string) : string :=
  match globPattern with
  | EmptyString => EmptyString
  | String char rest =>
      (if Ascii.eqb char "*" then "[^\s/]*"
       else if Ascii.eqb char "?" then "[^\s/]"
       else if JS.includesChar ".+^${}()|[]\" char then
         String "\" (String char EmptyString)
       else String char EmptyString)
      ++ globToRegex rest
  end.

(** Match a whole string against a glob pattern. *)
Definition matchGlob (str pattern : string) : bool :=
  let regexPattern :=
    JS.replaceAllChar "?" "."
      (JS.replaceAllChar "*" ".*"
         (JS.escapeChars ".+^${}()|[]\" (JS.toLowerCase pattern))) in
  try_catch
    (regex <- RegExp_new host ("^" ++ regexPattern ++ "$") "i" ;;
     Normal (RegExp_test host regex (JS.toLowerCase str)))
    false.

(** Match a file path against a literal path or a glob. *)
Definition matchPath (filePath pattern : string) : bool :=
  let expandedPattern := JS.replaceLeadingTilde pattern (homedir host) in
  let normalized := JS.replaceLeadingTilde filePath (homedir host) in
  if isGlobPattern pattern then
    let fileBasename := Path.basename normalized in
    if matchGlob fileBasename expandedPattern || matchGlob fileBasename pattern
    then true
    else if matchGlob normalized expandedPattern then true
    else false
  else
    if JS.startsWith normalized expandedPattern
       || String.eqb normalized (JS.stripTrailingSlash expandedPattern)
    then true
    else false.

(** *** Path pattern checking, for bash commands *)

Definition blockedOperation (operation pathType path : string)
  : CheckResult.t :=
  {| CheckResult.blocked := true;
     CheckResult.reason :=
       "Blocked: " ++ operation ++ " operation on " ++ pathType ++ " " ++ path |}.

Definition notBlocked : CheckResult.t :=
  {| CheckResult.blocked := false; CheckResult.reason := "" |}.

(** The loop of the glob branch; [Some r] is an early [return r]. *)
Fixpoint checkGlobTemplates (command path pathType globRegex : string)
  (patterns : list PatternTuple) : option CheckResult.t :=
  match patterns with
  | [] => None
  | (patternTemplate, operation) :: rest =>
      match
        try_catch
          (let cmdPrefix := JS.replace patternTemplate "{path}" "" in
           if JS.truthy cmdPrefix then
             regex <- RegExp_new host (cmdPrefix ++ globRegex) "i" ;;
             if RegExp_test host regex command
             then Normal (Some (blockedOperation operation pathType path))
             else Normal None
           else Normal None)
          None
      with
      | Some r => Some r
      | None => checkGlobTemplates command path pathType globRegex rest
      end
  end.

(** The loop of the literal branch. *)
Fixpoint checkLiteralTemplates
  (command path pathType escapedExpanded escapedOriginal : string)
  (patterns : list PatternTuple) : option CheckResult.t :=
  match patterns with
  | [] => None
  | (patternTemplate, operation) :: rest =>
      let patternExpanded := JS.replace patternTemplate "{path}" escapedExpanded in
      let patternOriginal := JS.replace patternTemplate "{path}" escapedOriginal in
      match
        try_catch
          (regexExpanded <- RegExp_new host patternExpanded "" ;;
           regexOriginal <- RegExp_new host patternOriginal "" ;;
           if RegExp_test host regexExpanded command
              || RegExp_test host regexOriginal command
           then Normal (Some (blockedOperation operation pathType path))
           else Normal None)
          None
      with
      | Some r => Some r
      | None =>
          checkLiteralTemplates command path pathType
            escapedExpanded escapedOriginal rest
      end
  end.

Definition checkPathPatterns (command path : string)
  (patterns : list PatternTuple) (pathType : string) : CheckResult.t :=
  match
    if isGlobPattern path then
      let globRegex := globToRegex path in
      checkGlobTemplates command path pathType globRegex patterns
    else
      let expanded := JS.replaceLeadingTilde path (homedir host) in
      let escapedExpanded := JS.escapeChars ".*+?^${}()|[]\" expanded in
      let escapedOriginal := JS.escapeChars ".*+?^${}()|[]\" path in
      checkLiteralTemplates command path pathType
        escapedExpanded escapedOriginal patterns
  with
  | Some r => r
  | None => notBlocked
  end.

(** *** [checkBashCommand] *)

(** 1. the explicit patterns of the configuration *)
Fixpoint checkBashToolPatterns (command : string)
  (patterns : list BashPattern.t) : option BashCheckResult.t :=
  match patterns with
  | [] => None
  | p :: rest =>
      match
        try_catch
          (regex <- RegExp_new host (BashPattern.pattern p) "i" ;;
           if RegExp_test host regex command
           then Normal (Some
                  {| BashCheckResult.blocked := true;
                     BashCheckResult.reason := "Blocked: " ++ BashPattern.reason p;
                     BashCheckResult.wasAskPattern :=
                       Some (isTrue (BashPattern.ask p)) |})
           else Normal None)
          None
      with
      | Some r => Some r
      | None => checkBashToolPatterns command rest
      end
  end.

Definition zeroAccessBlocked (kind zeroPath : string) : BashCheckResult.t :=
  {| BashCheckResult.blocked := true;
     BashCheckResult.reason :=
       "Blocked: zero-access " ++ kind ++ " " ++ zeroPath
       ++ " (no operations allowed)";
     BashCheckResult.wasAskPattern := None |}.

(** 2. any access to a zero-access path *)
Fixpoint checkZeroAccessCommand (command : string)
  (paths : list string) : option BashCheckResult.t :=
  match paths with
  | [] => None
  | zeroPath :: rest =>
      match
        if isGlobPattern zeroPath then
          let globRegex := globToRegex zeroPath in
          try_catch
            (regex <- RegExp_new host globRegex "i" ;;
             if RegExp_test host regex command
             then Normal (Some (zeroAccessBlocked "pattern" zeroPath))
             else Normal None)
            None
        else
          let expanded := JS.replaceLeadingTilde zeroPath (homedir host) in
          if JS.includes command expanded || JS.includes command zeroPath
          then Some (zeroAccessBlocked "path" zeroPath)
          else None
      with
      | Some r => Some r
      | None => checkZeroAccessCommand command rest
      end
  end.

(** 3. and 4. the loops over [checkPathPatterns] *)
Fixpoint checkOperationPaths (command : string)
  (patterns : list PatternTuple) (pathType : string)
  (paths : list string) : option BashCheckResult.t :=
  match paths with
  | [] => None
  | p :: rest =>
      let result := checkPathPatterns command p patterns pathType in
      if CheckResult.blocked result
      then Some (BashCheckResult.ofCheckResult result)
      else checkOperationPaths command patterns pathType rest
  end.

Definition allowed : BashCheckResult.t :=
  {| BashCheckResult.blocked := false;
     BashCheckResult.reason := "";
     BashCheckResult.wasAskPattern := None |}.

Definition checkBashCommand (command : string) (config : Config)
  : BashCheckResult.t :=
  match checkBashToolPatterns command (bashToolPatterns config) with
  | Some r => r
  | None =>
  match checkZeroAccessCommand command (zeroAccessPaths config) with
  | Some r => r
  | None =>
  match checkOperationPaths command READ_ONLY_BLOCKED "read-only path"
          (readOnlyPaths config) with
  | Some r => r
  | None =>
  match checkOperationPaths command NO_DELETE_BLOCKED "no-delete path"
          (noDeletePaths config) with
  | Some r => r
  | None => allowed
  end end end end.

(** *** [file.ts] *)

Fixpoint checkZeroAccessFile (filePath : string) (paths : list string)
  : option CheckResult.t :=
  match paths with
  | [] => None
  | zeroPath :: rest =>
      if matchPath filePath zeroPath then
        Some {| CheckResult.blocked := true;
                CheckResult.reason :=
                  "zero-access path " ++ zeroPath ++ " (no operations allowed)" |}
      else checkZeroAccessFile filePath rest
  end.

Fixpoint checkReadOnlyFile (filePath : string) (paths : list string)
  : option CheckResult.t :=
  match paths with
  | [] => None
  | readonlyPath :: rest =>
      if matchPath filePath readonlyPath then
        Some {| CheckResult.blocked := true;
                CheckResult.reason := "read-only path " ++ readonlyPath |}
      else checkReadOnlyFile filePath rest
  end.

Definition checkFilePath (filePath : string) (config : Config)
  : CheckResult.t :=
  match checkZeroAccessFile filePath (zeroAccessPaths config) with
  | Some r => r
  | None =>
  match checkReadOnlyFile filePath (readOnlyPaths config) with
  | Some r => r
  | None => notBlocked
  end end.

Definition checkFilePathZeroAccessOnly (filePath : string) (config : Config)
  : CheckResult.t :=
  match checkZeroAccessFile filePath (zeroAccessPaths config) with
  | Some r => r
  | None => notBlocked
  end.

End Matchers.

(* ===================================================================== *)
(** ** A reference regular expression engine

    The fragment of ECMAScript regular expressions that the operation
    patterns and the glob translations produce: characters, [.], classes,
    the escapes [\d \w \s \b] and their complements, groups, lookahead,
    alternation and the quantifiers [* + ?] (greedy or lazy).  [test]
    answers whether some match exists, which for this fragment (no
    back-references) does not depend on the order of backtracking. *)
(* ===================================================================== *)

Module JsRegExp.

Inductive escClass : Type := Digit | Space | Word.

Inductive classItem : Type :=
| ItemChar (c : ascii)
| ItemRange (lo hi : ascii)
| ItemClass (invert : bool) (k : escClass).

Inductive regex : Type :=
| Empty
| Char (c : ascii)
| AnyChar
| CharSet (invert : bool) (items : list classItem)
| Seq (a b : regex)
| Alt (a b : regex)
| Star (a : regex)
| LineStart
| LineEnd
| WordBoundary (invert : bool)
| Lookahead (invert : bool) (a : regex).

(** *** Matching *)

Definition inRange (lo hi c : ascii) : bool :=
  Nat.leb (nat_of_ascii lo) (nat_of_ascii c)
  && Nat.leb (nat_of_ascii c) (nat_of_ascii hi).

Definition isDigit (c : ascii) : bool := inRange "0" "9" c.

Definition isWordChar (c : ascii) : bool :=
  JS.isLower c || JS.isUpper c || isDigit c || Ascii.eqb c "_".

Definition isSpace (c : ascii) : bool :=
  inRange (ascii_of_nat 9) (ascii_of_nat 13) c || Ascii.eqb c " ".

Definition isLineTerminator (c : ascii) : bool :=
  Ascii.eqb c (ascii_of_nat 10) || Ascii.eqb c (ascii_of_nat 13).

Definition inClass (k : escClass) (c : ascii) : bool :=
  match k with
  | Digit => isDigit c
  | Space => isSpace c
  | Word => isWordChar c
  end.

(** Canonicalize: under the [i] flag characters are compared in upper case *)
Definition canonicalize (ignoreCase : bool) (c : ascii) : ascii :=
  if ignoreCase then JS.upperChar c else c.

Definition itemMatches (ignoreCase : bool) (item : classItem) (c : ascii)
  : bool :=
  match item with
  | ItemChar d =>
      Ascii.eqb (canonicalize ignoreCase d) (canonicalize ignoreCase c)
  | ItemRange lo hi =>
      inRange lo hi c
      || (ignoreCase
          && (inRange lo hi (JS.upperChar c) || inRange lo hi (JS.lowerChar c)))
  | ItemClass invert k => xorb invert (inClass k c)
  end.

(** A position in the input: the character before it and the rest. *)
Record position : Type := {
  before : option ascii;
  rest : list ascii
}.

Definition advance (c : ascii) (l : list ascii) : position :=
  {| before := Some c; rest := l |}.

Definition wordBefore (p : position) : bool :=
  match before p with
  | Some c => isWordChar c
  | None => false
  end.

Definition wordAfter (p : position) : bool :=
  match rest p with
  | c :: _ => isWordChar c
  | [] => false
  end.

(** [run ic r p k]: [r] matches at [p] and the continuation [k] accepts
    the position after the match.  An iteration of a star must consume
    input, so the length of the rest bounds the number of iterations. *)
Fixpoint run (ignoreCase : bool) (r : regex) (p : position)
  (k : position -> bool) {struct r} : bool :=
  match r with
  | Empty => k p
  | Char c =>
      match rest p with
      | d :: l =>
          Ascii.eqb (canonicalize ignoreCase c) (canonicalize ignoreCase d)
          && k (advance d l)
      | [] => false
      end
  | AnyChar =>
      match rest p with
      | d :: l => negb (isLineTerminator d) && k (advance d l)
      | [] => false
      end
  | CharSet invert items =>
      match rest p with
      | d :: l =>
          xorb invert (existsb (fun i => itemMatches ignoreCase i d) items)
          && k (advance d l)
      | [] => false
      end
  | Seq a b => run ignoreCase a p (fun q => run ignoreCase b q k)
  | Alt a b => run ignoreCase a p k || run ignoreCase b p k
  | Star a =>
      (fix iterate (n : nat) (p : position) {struct n} : bool :=
         match n with
         | O => k p
         | S n' =>
             run ignoreCase a p
               (fun q =>
                  if Nat.ltb (List.length (rest q)) (List.length (rest p))
                  then iterate n' q
                  else false)
             || k p
         end) (S (List.length (rest p))) p
  | LineStart =>
      match before p with
      | None => k p
      | Some _ => false
      end
  | LineEnd =>
      match rest p with
      | [] => k p
      | _ :: _ => false
      end
  | WordBoundary invert =>
      xorb invert (xorb (wordBefore p) (wordAfter p)) && k p
  | Lookahead invert a =>
      xorb invert (run ignoreCase a p (fun _ => true)) && k p
  end.

(** An unanchored search: a match starting at some position of the input *)
Fixpoint searchFrom (ignoreCase : bool) (r : regex)
  (prev : option ascii) (l : list ascii) : bool :=
  run ignoreCase r {| before := prev; rest := l |} (fun _ => true)
  ||
  match l with
  | [] => false
  | c :: l' => searchFrom ignoreCase r (Some c) l'
  end.

Definition exec (ignoreCase : bool) (r : regex) (s : string) : bool :=
  searchFrom ignoreCase r None (list_ascii_of_string s).

(** *** Parsing a pattern source *)

Definition isAlnum (c : ascii) : bool :=
  JS.isLower c || JS.isUpper c || isDigit c.

Definition isQuantifierStart (c : ascii) : bool :=
  Ascii.eqb c "*" || Ascii.eqb c "+" || Ascii.eqb c "?" || Ascii.eqb c "{".

(** The control character a letter escape stands for *)
Definition controlEscape (e : ascii) : option ascii :=
  if Ascii.eqb e "t" then Some (ascii_of_nat 9)
  else if Ascii.eqb e "n" then Some (ascii_of_nat 10)
  else if Ascii.eqb e "v" then Some (ascii_of_nat 11)
  else if Ascii.eqb e "f" then Some (ascii_of_nat 12)
  else if Ascii.eqb e "r" then Some (ascii_of_nat 13)
  else None.

Definition classEscape (e : ascii) : option classItem :=
  if Ascii.eqb e "d" then Some (ItemClass false Digit)
  else if Ascii.eqb e "D" then Some (ItemClass true Digit)
  else if Ascii.eqb e "s" then Some (ItemClass false Space)
  else if Ascii.eqb e "S" then Some (ItemClass true Space)
  else if Ascii.eqb e "w" then Some (ItemClass false Word)
  else if Ascii.eqb e "W" then Some (ItemClass true Word)
  else None.

(** The character after a backslash, as a class item: a class escape, a
    control escape or, for a character that is neither letter nor digit,
    the character itself.  [insideClass] tells whether the escape stands inside
    a bracketed class, where [\b] is a backspace. *)
Definition escapeItem (insideClass : bool) (e : ascii) : option classItem :=
  match classEscape e with
  | Some i => Some i
  | None =>
      match controlEscape e with
      | Some c => Some (ItemChar c)
      | None =>
          if insideClass && Ascii.eqb e "b" then Some (ItemChar (ascii_of_nat 8))
          else if isAlnum e then None
          else Some (ItemChar e)
      end
  end.

Definition itemRegex (i : classItem) : regex :=
  match i with
  | ItemChar c => Char c
  | _ => CharSet false [i]
  end.

(** One atom of a bracketed class and the input after it *)
Definition parseClassAtom (l : list ascii)
  : option (classItem * list ascii) :=
  match l with
  | [] => None
  | c :: l' =>
      if Ascii.eqb c "\" then
        match l' with
        | [] => None
        | e :: l'' =>
            match escapeItem true e with
            | Some i => Some (i, l'')
            | None => None
            end
        end
      else Some (ItemChar c, l')
  end.

(** The items of a bracketed class up to the closing bracket *)
Fixpoint parseClassItems (fuel : nat) (l : list ascii)
  : option (list classItem * list ascii) :=
  match fuel with
  | O => None
  | S fuel' =>
      match l with
      | [] => None
      | c :: l0 =>
          if Ascii.eqb c "]" then Some ([], l0)
          else
            match parseClassAtom l with
            | None => None
            | Some (i, l1) =>
                let single :=
                  match parseClassItems fuel' l1 with
                  | Some (is_, l2) => Some (i :: is_, l2)
                  | None => None
                  end in
                match l1 with
                | d :: l2 =>
                    if Ascii.eqb d "-" then
                      match l2 with
                      | [] => None
                      | e :: _ =>
                          if Ascii.eqb e "]" then single
                          else
                            match i, parseClassAtom l2 with
                            | ItemChar lo, Some (ItemChar hi, l3) =>
                                if Nat.leb (nat_of_ascii lo) (nat_of_ascii hi)
                                then
                                  match parseClassItems fuel' l3 with
                                  | Some (is_, l4) =>
                                      Some (ItemRange lo hi :: is_, l4)
                                  | None => None
                                  end
                                else None
                            | _, _ => None
                            end
                      end
                    else single
                | [] => None
                end
            end
      end
  end.

Definition parseClass (l : list ascii) : option (regex * list ascii) :=
  let '(invert, l') :=
    match l with
    | c :: l' => if Ascii.eqb c "^" then (true, l') else (false, l)
    | [] => (false, l)
    end in
  match parseClassItems (S (List.length l')) l' with
  | Some (items, l'') => Some (CharSet invert items, l'')
  | None => None
  end.

(** An optional quantifier after an atom; a lazy mark changes nothing for
    [test].  Braced quantifiers are outside the fragment. *)
Definition quantified (a : regex) (l : list ascii)
  : option (regex * list ascii) :=
  let lazy (l : list ascii) :=
    match l with
    | c :: l' => if Ascii.eqb c "?" then l' else l
    | [] => l
    end in
  match l with
  | c :: l' =>
      if Ascii.eqb c "*" then Some (Star a, lazy l')
      else if Ascii.eqb c "+" then Some (Seq a (Star a), lazy l')
      else if Ascii.eqb c "?" then Some (Alt a Empty, lazy l')
      else if Ascii.eqb c "{" then None
      else Some (a, l)
  | [] => Some (a, l)
  end.

(** An assertion takes no quantifier. *)
Definition unquantified (a : regex) (l : list ascii)
  : option (regex * list ascii) :=
  match l with
  | c :: _ => if isQuantifierStart c then None else Some (a, l)
  | [] => Some (a, l)
  end.

Fixpoint parseDisjunction (fuel : nat) (l : list ascii)
  : option (regex * list ascii) :=
  match fuel with
  | O => None
  | S fuel' =>
      match parseAlternative fuel' l with
      | Some (a, c :: l') =>
          if Ascii.eqb c "|" then
            match parseDisjunction fuel' l' with
            | Some (b, l'') => Some (Alt a b, l'')
            | None => None
            end
          else Some (a, c :: l')
      | other => other
      end
  end

with parseAlternative (fuel : nat) (l : list ascii)
  : option (regex * list ascii) :=
  match fuel with
  | O => None
  | S fuel' =>
      match l with
      | [] => Some (Empty, [])
      | c :: l' =>
          if Ascii.eqb c "|" || Ascii.eqb c ")" then Some (Empty, l)
          else
            match parseTerm fuel' c l' with
            | Some (t, l'') =>
                match parseAlternative fuel' l'' with
                | Some (r, l3) => Some (Seq t r, l3)
                | None => None
                end
            | None => None
            end
      end
  end

with parseTerm (fuel : nat) (c : ascii) (l : list ascii)
  : option (regex * list ascii) :=
  match fuel with
  | O => None
  | S fuel' =>
      let group (wrap : regex -> regex) (l : list ascii) :=
        match parseDisjunction fuel' l with
        | Some (a, d :: l') =>
            if Ascii.eqb d ")" then quantified (wrap a) l' else None
        | _ => None
        end in
      if Ascii.eqb c "^" then unquantified LineStart l
      else if Ascii.eqb c "$" then unquantified LineEnd l
      else if Ascii.eqb c "." then quantified AnyChar l
      else if Ascii.eqb c "[" then
        match parseClass l with
        | Some (cs, l') => quantified cs l'
        | None => None
        end
      else if Ascii.eqb c "(" then
        match l with
        | q :: l' =>
            if Ascii.eqb q "?" then
              match l' with
              | m :: l'' =>
                  if Ascii.eqb m "=" then group (Lookahead false) l''
                  else if Ascii.eqb m "!" then group (Lookahead true) l''
                  else if Ascii.eqb m ":" then group (fun a => a) l''
                  else None
              | [] => None
              end
            else group (fun a => a) l
        | [] => None
        end
      else if Ascii.eqb c "\" then
        match l with
        | e :: l' =>
            if Ascii.eqb e "b" then unquantified (WordBoundary false) l'
            else if Ascii.eqb e "B" then unquantified (WordBoundary true) l'
            else
              match escapeItem false e with
              | Some i => quantified (itemRegex i) l'
              | None => None
              end
        | [] => None
        end
      else if isQuantifierStart c then None
      else quantified (Char c) l
  end.

(** A whole pattern: nothing may be left over (an unmatched parenthesis). *)
Definition parse (source : string) : option regex :=
  let l := list_ascii_of_string source in
  match parseDisjunction (4 * S (List.length l)) l with
  | Some (r, []) => Some r
  | _ => None
  end.

(** The flags the matchers use: none, or [i]. *)
Definition parseFlags (flags : string) : option bool :=
  if String.eqb flags "" then Some false
  else if String.eqb flags "i" then Some true
  else None.

Record compiled : Type := {
  ignoreCase : bool;
  program : regex
}.

Definition create (source flags : string) : completion compiled :=
  match parseFlags flags, parse source with
  | Some ic, Some r => Normal {| ignoreCase := ic; program := r |}
  | _, _ => Throw "SyntaxError"
  end.

Definition test (rx : compiled) (s : string) : bool :=
  exec (ignoreCase rx) (program rx) s.

End JsRegExp.

(** The host whose engine is the reference engine *)
Definition referenceHost (home : string) : Host :=
  {| homedir := home;
     RegExp := JsRegExp.compiled;
     RegExp_new := JsRegExp.create;
     RegExp_test := JsRegExp.test |}.

(** The host [h] in which the reference engine answers for every pattern
    of its fragment, and the engine of [h] for the others. *)
Definition withReference (h : Host) : Host :=
  {| homedir := homedir h;
     RegExp := (JsRegExp.compiled + RegExp h)%type;
     RegExp_new := fun source flags =>
       match JsRegExp.create source flags with
       | Normal rx => Normal (inl rx)
       | Throw _ => rx <- RegExp_new h source flags ;; Normal (inr rx)
       end;
     RegExp_test := fun rx s =>
       match rx with
       | inl rx => JsRegExp.test rx s
       | inr rx => RegExp_test h rx s
       end |}.

(* ===================================================================== *)
(** ** Notions used by the statements *)
(* ===================================================================== *)

(** Two hosts construct the same regular expression from [source] and
    [flags]: both throw, or both succeed with regexes that test alike. *)
Definition sameRegExp (h1 h2 : Host) (source flags : string) : Prop :=
  match RegExp_new h1 source flags, RegExp_new h2 source flags with
  | Normal r1, Normal r2 =>
      forall s, RegExp_test h1 r1 s = RegExp_test h2 r2 s
  | Throw _, Throw _ => True
  | _, _ => False
  end.

(** Hosts that cannot be told apart: same home directory, same behaviour
    of the regular expression engine. *)
Definition host_equiv (h1 h2 : Host) : Prop :=
  homedir h1 = homedir h2
  /\ forall source flags, sameRegExp h1 h2 source flags.

(** The engine of [h] agrees with the reference engine on its fragment:
    a pattern the reference engine compiles is compiled by [h] too, and
    tests the same on every input. *)
Definition Faithful (h : Host) : Prop :=
  forall source flags rx,
    JsRegExp.create source flags = Normal rx ->
    exists rx',
      RegExp_new h source flags = Normal rx'
      /\ forall s, RegExp_test h rx' s = JsRegExp.test rx s.

(** [e] is the first entry of [l] that satisfies [f]. *)
Definition firstIn {A : Type} (f : A -> bool) (l : list A) (e : A) : Prop :=
  exists pre post,
    l = (pre ++ e :: post)%list
    /\ (forall q, In q pre -> f q = false)
    /\ f e = true.

(** No entry of [l] satisfies [f]. *)
Definition noneIn {A : Type} (f : A -> bool) (l : list A) : Prop :=
  forall q, In q l -> f q = false.

(** The command matches an entry of [bashToolPatterns]: the pattern
    compiles, with the [i] flag, and is found somewhere in the command. *)
Definition bashPatternMatches (host : Host) (command : string)
  (p : BashPattern.t) : bool :=
  try_catch
    (regex <- RegExp_new host (BashPattern.pattern p) "i" ;;
     Normal (RegExp_test host regex command))
    false.

(** The verdict of a matching [bashToolPatterns] entry *)
Definition commandPatternBlocked (p : BashPattern.t) : BashCheckResult.t :=
  {| BashCheckResult.blocked := true;
     BashCheckResult.reason := "Blocked: " ++ BashPattern.reason p;
     BashCheckResult.wasAskPattern := Some (isTrue (BashPattern.ask p)) |}.

(** The command matches a zero-access entry. *)
Definition zeroAccessMatches (host : Host) (command zeroPath : string)
  : bool :=
  if isGlobPattern zeroPath then
    try_catch
      (regex <- RegExp_new host (globToRegex zeroPath) "i" ;;
       Normal (RegExp_test host regex command))
      false
  else
    JS.includes command (JS.replaceLeadingTilde zeroPath (homedir host))
    || JS.includes command zeroPath.

(** The verdict of a matching zero-access entry, for a command *)
Definition zeroAccessVerdict (zeroPath : string) : BashCheckResult.t :=
  zeroAccessBlocked (if isGlobPattern zeroPath then "pattern" else "path")
    zeroPath.

(** An operation of the template set is detected on the path. *)
Definition operationDetected (host : Host) (command : string)
  (patterns : list PatternTuple) (pathType path : string) : bool :=
  CheckResult.blocked (checkPathPatterns host command path patterns pathType).

(** Two entries that differ at most in the [ask] flag *)
Definition sameButAsk (p q : BashPattern.t) : Prop :=
  BashPattern.pattern p = BashPattern.pattern q
  /\ BashPattern.reason p = BashPattern.reason q.

Module Spec.

(** The evaluation of a command in the words of the specification: the
    command patterns in order, then the zero-access entries, then the
    read-only entries with every modification template, then the no-delete
    entries with the delete templates; the first match of the first tier
    that has one decides, and no match allows. *)
Definition evaluateCommand (host : Host) (commandText : string)
  (config : Config) : BashCheckResult.t :=
  match find (bashPatternMatches host commandText) (bashToolPatterns config) with
  | Some entry => commandPatternBlocked entry
  | None =>
  match find (zeroAccessMatches host commandText) (zeroAccessPaths config) with
  | Some entry => zeroAccessVerdict entry
  | None =>
  match find (operationDetected host commandText READ_ONLY_BLOCKED "read-only path")
          (readOnlyPaths config) with
  | Some entry =>
      BashCheckResult.ofCheckResult
        (checkPathPatterns host commandText entry READ_ONLY_BLOCKED "read-only path")
  | None =>
  match find (operationDetected host commandText NO_DELETE_BLOCKED "no-delete path")
          (noDeletePaths config) with
  | Some entry =>
      BashCheckResult.ofCheckResult
        (checkPathPatterns host commandText entry NO_DELETE_BLOCKED "no-delete path")
  | None => allowed
  end end end end.

End Spec.

(* ===================================================================== *)
(** ** Sample policies *)
(* ===================================================================== *)

Module Example.

Definition host : Host := referenceHost "/home/dev".

Definition rmRecursive : BashPattern.t :=
  {| BashPattern.pattern := "\brm\s+-[rR]f";
     BashPattern.reason := "rm with recursive force";
     BashPattern.ask := None |}.

Definition gitPush (ask : option bool) : BashPattern.t :=
  {| BashPattern.pattern := "git\s+push";
     BashPattern.reason := "git push needs a review";
     BashPattern.ask := ask |}.

(** An entry whose pattern is not a regular expression *)
Definition unbalanced : BashPattern.t :=
  {| BashPattern.pattern := "rm (";
     BashPattern.reason := "unbalanced";
     BashPattern.ask := None |}.

Definition policy (patterns : list BashPattern.t) : Config :=
  {| bashToolPatterns := patterns;
     zeroAccessPaths := [".env"; "*.pem"; "~/.ssh/"];
     readOnlyPaths := ["/etc/"; "*.lock"];
     noDeletePaths := ["LICENSE"; ".git/"] |}.

End Example.

(* ===================================================================== *)
(** ** Configuration loading ([patterns.ts]) *)
(* ===================================================================== *)

(** [Partial<Config>]: what the parsed document holds; an absent key is
    [None]. *)
Module PartialConfig.
Record t : Type := {
  bashToolPatterns : option (list BashPattern.t);
  zeroAccessPaths : option (list string);
  readOnlyPaths : option (list string);
  noDeletePaths : option (list string)
}.
End PartialConfig.

(** What [loadConfig] calls outside the matchers: [path.join],
    [fs.existsSync], [fs.readFileSync] and the YAML parser, whose result is
    [None] for a document that is [null]. *)
Record Env : Type := {
  join : string -> string -> string;
  existsSync : string -> bool;
  readFileSync : string -> completion string;
  parseYaml : string -> completion (option PartialConfig.t)
}.

(** [v || []] *)
Definition orEmpty {A : Type} (v : option (list A)) : list A :=
  match v with
  | Some l => l
  | None => []
  end.

Definition emptyConfig : Config :=
  {| bashToolPatterns := [];
     zeroAccessPaths := [];
     readOnlyPaths := [];
     noDeletePaths := [] |}.

(** The outcome of a call of [loadConfig]: what it returns or throws, the
    module variable [cachedConfig] after the call, and what it wrote with
    [console.error]. *)
Record Loaded : Type := {
  returned : completion Config;
  cachedConfig : option Config;
  stderr : list string
}.

Definition loadConfig (env : Env) (pluginDir : string)
  (cached : option Config) : Loaded :=
  match cached with
  | Some config =>
      {| returned := Normal config; cachedConfig := cached; stderr := [] |}
  | None =>
      let configPath := join env pluginDir "patterns.yaml" in
      if negb (existsSync env configPath) then
        {| returned := Normal emptyConfig;
           cachedConfig := None;
           stderr :=
             ["[damage-control] Warning: Config not found at " ++ configPath] |}
      else
        match readFileSync env configPath with
        | Throw e => {| returned := Throw e; cachedConfig := None; stderr := [] |}
        | Normal content =>
            match parseYaml env content with
            | Throw e =>
                {| returned := Throw e; cachedConfig := None; stderr := [] |}
            | Normal None =>
                {| returned := Throw "TypeError";
                   cachedConfig := None; stderr := [] |}
            | Normal (Some config) =>
                let loaded :=
                  {| bashToolPatterns :=
                       orEmpty (PartialConfig.bashToolPatterns config);
                     zeroAccessPaths :=
                       orEmpty (PartialConfig.zeroAccessPaths config);
                     readOnlyPaths :=
                       orEmpty (PartialConfig.readOnlyPaths config);
                     noDeletePaths :=
                       orEmpty (PartialConfig.noDeletePaths config) |} in
                {| returned := Normal loaded;
                   cachedConfig := Some loaded;
                   stderr := [] |}
            end
        end
  end.

(** [reloadConfig]: the module variable after the call *)
Definition reloadConfig (cached : option Config) : option Config := None.

(* ===================================================================== *)
(** ** The plugin hook ([index.ts]) *)
(* ===================================================================== *)

Module Plugin.

Record LogEntry : Type := {
  service : string;
  level : string;
  message : string
}.

(** [output.args]: absent, or an object whose properties are strings *)
Definition Args : Type := option (string -> option string).

(** [output.args?.key] *)
Definition property (args : Args) (key : string) : option string :=
  match args with
  | Some object => object key
  | None => None
  end.

(** [a || b] on values that are a string or [undefined] *)
Definition orElse (a b : option string) : option string :=
  match a with
  | Some s => if JS.truthy s then a else b
  | None => b
  end.

(** [s.slice(0, n)] *)
Fixpoint slice0 (n : nat) (s : string) : string :=
  match n, s with
  | S n', String c s' => String c (slice0 n' s')
  | _, _ => EmptyString
  end.

(** An asynchronous step of the hook: the entries it logged, and whether
    it went on or threw. *)
Definition effect (A : Type) : Type := (list LogEntry * completion A)%type.

Definition ret {A : Type} (a : A) : effect A := ([], Normal a).

Definition andThen {A B : Type} (e : effect A) (k : A -> effect B)
  : effect B :=
  match e with
  | (logs, Normal a) => let '(logs', r) := k a in ((logs ++ logs')%list, r)
  | (logs, Throw err) => (logs, Throw err)
  end.

(** [await ctx.client.app.log(entry)] *)
Definition log (entry : LogEntry) : effect unit := ([entry], Normal tt).

(** [throw new Error(msg)] *)
Definition throwError {A : Type} (msg : string) : effect A := ([], Throw msg).

Definition warn (msg : string) : LogEntry :=
  {| service := "damage-control"; level := "warn"; message := msg |}.

Section Hook.

Variable host : Host.
Variable config : Config.

(** The bash tool: shell command protection *)
Definition bashTool (tool : string) (args : Args) : effect unit :=
  if String.eqb tool "bash" then
    match property args "command" with
    | Some command =>
        if JS.truthy command then
          let result := checkBashCommand host command config in
          if BashCheckResult.blocked result then
            andThen
              (log (warn ("BLOCKED bash: " ++ BashCheckResult.reason result
                          ++ " | cmd: " ++ slice0 80 command
                          ++ (if Nat.ltb 80 (String.length command)
                              then "..." else ""))))
              (fun _ =>
                 throwError ("SECURITY: " ++ BashCheckResult.reason result))
          else ret tt
        else ret tt
    | None => ret tt
    end
  else ret tt.

(** The write, edit and patch tools: file modification protection *)
Definition writeTools (tool : string) (args : Args) : effect unit :=
  if String.eqb tool "write" || String.eqb tool "edit"
     || String.eqb tool "patch" then
    match orElse (orElse (property args "filePath")
                    (property args "file_path")) (property args "path") with
    | Some filePath =>
        if JS.truthy filePath then
          let result := checkFilePath host filePath config in
          if CheckResult.blocked result then
            andThen
              (log (warn ("BLOCKED " ++ tool ++ ": " ++ CheckResult.reason result
                          ++ " | path: " ++ filePath)))
              (fun _ =>
                 throwError ("SECURITY: Blocked " ++ tool ++ " to "
                             ++ CheckResult.reason result ++ ": " ++ filePath))
          else ret tt
        else ret tt
    | None => ret tt
    end
  else ret tt.

(** The read tool: only the zero-access tier *)
Definition readTool (tool : string) (args : Args) : effect unit :=
  if String.eqb tool "read" then
    match orElse (orElse (property args "filePath")
                    (property args "file_path")) (property args "path") with
    | Some filePath =>
        if JS.truthy filePath then
          let result := checkFilePathZeroAccessOnly host filePath config in
          if CheckResult.blocked result then
            andThen
              (log (warn ("BLOCKED read: " ++ CheckResult.reason result
                          ++ " | path: " ++ filePath)))
              (fun _ =>
                 throwError ("SECURITY: Blocked read of "
                             ++ CheckResult.reason result ++ ": " ++ filePath))
          else ret tt
        else ret tt
    | None => ret tt
    end
  else ret tt.

(** The glob, grep and list tools: directory enumeration *)
Definition listTools (tool : string) (args : Args) : effect unit :=
  if String.eqb tool "glob" || String.eqb tool "grep"
     || String.eqb tool "list" then
    match orElse (orElse (property args "path")
                    (property args "directory")) (property args "dir") with
    | Some targetPath =>
        if JS.truthy targetPath then
          let result := checkFilePathZeroAccessOnly host targetPath config in
          if CheckResult.blocked result then
            andThen
              (log (warn ("BLOCKED " ++ tool ++ ": " ++ CheckResult.reason result
                          ++ " | path: " ++ targetPath)))
              (fun _ =>
                 throwError ("SECURITY: Blocked " ++ tool ++ " on "
                             ++ CheckResult.reason result ++ ": " ++ targetPath))
          else ret tt
        else ret tt
    | None => ret tt
    end
  else ret tt.

(** The hook ["tool.execute.before"]: the four blocks in their order *)
Definition tool_execute_before (tool : string) (args : Args) : effect unit :=
  andThen (bashTool tool args) (fun _ =>
  andThen (writeTools tool args) (fun _ =>
  andThen (readTool tool args) (fun _ =>
  listTools tool args))).

End Hook.

(** The tools the hook looks at *)
Definition guardedTools : list string :=
  ["bash"; "write"; "edit"; "patch"; "read"; "glob"; "grep"; "list"].

(** The hook threw. *)
Definition threw {A : Type} (e : effect A) : bool :=
  match snd e with
  | Throw _ => true
  | Normal _ => false
  end.

End Plugin.

(* ===================================================================== *)
(** ** More notions used by the statements *)
(* ===================================================================== *)

(** Some entry of some tier matches the command. *)
Definition anyTierMatches (host : Host) (command : string) (config : Config)
  : bool :=
  existsb (bashPatternMatches host command) (bashToolPatterns config)
  || existsb (zeroAccessMatches host command) (zeroAccessPaths config)
  || existsb (operationDetected host command READ_ONLY_BLOCKED "read-only path")
       (readOnlyPaths config)
  || existsb (operationDetected host command NO_DELETE_BLOCKED "no-delete path")
       (noDeletePaths config).

(** Every entry of every tier of [c1] is an entry of the same tier of [c2]. *)
Definition policyIncluded (c1 c2 : Config) : Prop :=
  incl (bashToolPatterns c1) (bashToolPatterns c2)
  /\ incl (zeroAccessPaths c1) (zeroAccessPaths c2)
  /\ incl (readOnlyPaths c1) (readOnlyPaths c2)
  /\ incl (noDeletePaths c1) (noDeletePaths c2).

(** A template of the glob branch detects its operation in the command. *)
Definition globTemplateFires (host : Host) (command globRegex : string)
  (t : PatternTuple) : bool :=
  let cmdPrefix := JS.replace (fst t) "{path}" "" in
  JS.truthy cmdPrefix
  && try_catch
       (regex <- RegExp_new host (cmdPrefix ++ globRegex) "i" ;;
        Normal (RegExp_test host regex command))
       false.

(** A template of the literal branch detects its operation in the command. *)
Definition literalTemplateFires (host : Host)
  (command escapedExpanded escapedOriginal : string) (t : PatternTuple)
  : bool :=
  try_catch
    (regexExpanded <-
       RegExp_new host (JS.replace (fst t) "{path}" escapedExpanded) "" ;;
     regexOriginal <-
       RegExp_new host (JS.replace (fst t) "{path}" escapedOriginal) "" ;;
     Normal (RegExp_test host regexExpanded command
             || RegExp_test host regexOriginal command))
    false.

(** A template detects its operation on the path in the command. *)
Definition templateFires (host : Host) (command path : string)
  (t : PatternTuple) : bool :=
  if isGlobPattern path then
    globTemplateFires host command (globToRegex path) t
  else
    literalTemplateFires host command
      (JS.escapeChars ".*+?^${}()|[]\"
         (JS.replaceLeadingTilde path (homedir host)))
      (JS.escapeChars ".*+?^${}()|[]\" path) t.

(** The operation names of the templates *)
Definition operationNames : list string :=
  ["write"; "append"; "edit"; "move"; "copy"; "delete";
   "chmod"; "chown"; "chgrp"; "truncate"].

(** The string has no dollar sign: as a replacement text it stands for
    itself. *)
Definition noDollar (s : string) : bool := negb (JS.includesChar s "$").

(** The string does not begin with a tilde. *)
Definition noTilde (s : string) : bool :=
  match s with
  | String c _ => negb (Ascii.eqb c "~")
  | EmptyString => true
  end.

(** The string has no path separator. *)
Definition noSlash (s : string) : bool := negb (JS.includesChar s "/").

(** The characters [checkPathPatterns] escapes in a literal path *)
Definition metaChars : string := ".*+?^${}()|[]\".

(** The regex of a literal text followed by [tail] *)
Definition literalRegex (l : list ascii) (tail : JsRegExp.regex)
  : JsRegExp.regex :=
  fold_right (fun c r => JsRegExp.Seq (JsRegExp.Char c) r) tail l.

(** The regex of [\s] and of [\s*] *)
Definition spaceClass : JsRegExp.regex :=
  JsRegExp.CharSet false [JsRegExp.ItemClass false JsRegExp.Space].

Definition spaceStar : JsRegExp.regex := JsRegExp.Star spaceClass.

(** The input does not begin with a quantifier. *)
Definition unquantifiedHead (l : list ascii) : bool :=
  match l with
  | c :: _ => negb (JsRegExp.isQuantifierStart c)
  | [] => true
  end.

(** The character before a position that lies [l] after a position whose
    character before is [b] *)
Definition lastOr (l : list ascii) (b : option ascii) : option ascii :=
  fold_left (fun _ c => Some c) l b.

(** The text has no line terminator. *)
Definition noLineTerminator (s : string) : bool :=
  forallb (fun c => negb (JsRegExp.isLineTerminator c))
    (list_ascii_of_string s).

(** The text is made of white space. *)
Definition allSpace (s : string) : bool :=
  forallb JsRegExp.isSpace (list_ascii_of_string s).

(** The text is empty or ends outside a word. *)
Definition endsOutsideWord (s : string) : bool :=
  match lastOr (list_ascii_of_string s) None with
  | Some c => negb (JsRegExp.isWordChar c)
  | None => true
  end.

(** The text has neither [*] nor [?]. *)
Definition noWildcard (s : string) : bool :=
  negb (JS.includesChar s "*") && negb (JS.includesChar s "?").

(** The commands of the delete templates *)
Definition deleteCommands : list string := ["rm"; "unlink"; "rmdir"; "shred"].

(** The commands of the permission templates and of the first truncate
    template *)
Definition permissionCommands : list string :=
  ["chmod"; "chown"; "chgrp"; "truncate"].

(** The shape of the templates of these commands *)
Definition commandTemplate (verb : string) : string :=
  "\b" ++ verb ++ "\s+.*{path}".

(** The target the file tools name: [filePath], else [file_path], else
    [path]. *)
Definition fileTarget (args : Plugin.Args) : option string :=
  Plugin.orElse
    (Plugin.orElse (Plugin.property args "filePath")
       (Plugin.property args "file_path"))
    (Plugin.property args "path").

(** The target the enumeration tools name: [path], else [directory], else
    [dir]. *)
Definition listTarget (args : Plugin.Args) : option string :=
  Plugin.orElse
    (Plugin.orElse (Plugin.property args "path")
       (Plugin.property args "directory"))
    (Plugin.property args "dir").

Definition isWriteTool (tool : string) : bool :=
  String.eqb tool "write" || String.eqb tool "edit" || String.eqb tool "patch".

Definition isListTool (tool : string) : bool :=
  String.eqb tool "glob" || String.eqb tool "grep" || String.eqb tool "list".

(** The argument of a tool call that the hook checks, if any *)
Definition checkedTarget (tool : string) (args : Plugin.Args)
  : option string :=
  if String.eqb tool "bash" then Plugin.property args "command"
  else if isWriteTool tool || String.eqb tool "read" then fileTarget args
  else if isListTool tool then listTarget args
  else None.

(** The checker of the tool's class blocks the target. *)
Definition targetBlocked (host : Host) (config : Config)
  (tool target : string) : bool :=
  if String.eqb tool "bash" then
    BashCheckResult.blocked (checkBashCommand host target config)
  else if isWriteTool tool then
    CheckResult.blocked (checkFilePath host target config)
  else
    CheckResult.blocked (checkFilePathZeroAccessOnly host target config).

(** The loaded configuration of a parsed document *)
Definition withDefaults (document : PartialConfig.t) : Config :=
  {| bashToolPatterns := orEmpty (PartialConfig.bashToolPatterns document);
     zeroAccessPaths := orEmpty (PartialConfig.zeroAccessPaths document);
     readOnlyPaths := orEmpty (PartialConfig.readOnlyPaths document);
     noDeletePaths := orEmpty (PartialConfig.noDeletePaths document) |}.

Module ExampleEnv.

(** A document with two of the four keys *)
Definition document : PartialConfig.t :=
  {| PartialConfig.bashToolPatterns := Some [Example.rmRecursive];
     PartialConfig.zeroAccessPaths := Some [".env"];
     PartialConfig.readOnlyPaths := None;
     PartialConfig.noDeletePaths := None |}.

(** A file system with [patterns.yaml] in the plugin directory, or
    without it *)
Definition env (present : bool) : Env :=
  {| join := fun a b => a ++ "/" ++ b;
     existsSync := fun p =>
       present && String.eqb p "/plugins/damage-control/patterns.yaml";
     readFileSync := fun _ => Normal "zeroAccessPaths: ['.env']";
     parseYaml := fun _ => Normal (Some document) |}.

(** The arguments of a tool call, from a list of properties *)
Fixpoint object (properties : list (string * string)) (key : string)
  : option string :=
  match properties with
  | [] => None
  | (k, v) :: rest => if String.eqb key k then Some v else object rest key
  end.

End ExampleEnv.

(* ===================================================================== *)
(** ** Lists: the first match *)
(* ===================================================================== *)

Section FirstMatch.

Context {A : Type} (f : A -> bool).

Lemma find_first_split (l : list A) (e : A) :
  find f l = Some e -> firstIn f l e.
Proof.
  unfold firstIn.
  induction l as [|a l IH]; simpl; [discriminate|].
  destruct (f a) eqn:Fa.
  - intros [= ->]. exists [], l. repeat split; auto. intros q [].
  - intros H. destruct (IH H) as (pre & post & -> & Hpre & He).
    exists (a :: pre), post. repeat split; auto.
    intros q [<-|Hq]; auto.
Qed.

Lemma find_split_first (pre post : list A) (e : A) :
  (forall q, In q pre -> f q = false) -> f e = true ->
  find f (pre ++ e :: post)%list = Some e.
Proof.
  induction pre as [|a pre IH]; simpl; intros Hpre He.
  - now rewrite He.
  - rewrite (Hpre a (or_introl eq_refl)). apply IH; auto.
Qed.

Lemma find_exists (l : list A) (x : A) :
  In x l -> f x = true -> exists e, find f l = Some e.
Proof.
  induction l as [|a l IH]; simpl; [intros []|].
  intros Hin Hx. destruct (f a) eqn:Fa; [eauto|].
  destruct Hin as [->|Hin]; [congruence|auto].
Qed.

Lemma find_skip (pre post : list A) (e : A) :
  f e = false -> find f (pre ++ e :: post)%list = find f (pre ++ post)%list.
Proof.
  intros He. induction pre as [|a pre IH]; simpl.
  - now rewrite He.
  - now rewrite IH.
Qed.

Lemma firstIn_find (l : list A) (e : A) :
  firstIn f l e -> find f l = Some e.
Proof.
  intros (pre & post & -> & Hpre & He). now apply find_split_first.
Qed.

Lemma noneIn_find (l : list A) : noneIn f l -> find f l = None.
Proof.
  intros H. induction l as [|a l IH]; simpl; [reflexivity|].
  rewrite (H a (or_introl eq_refl)). apply IH.
  intros q Hq. apply H. now right.
Qed.

End FirstMatch.

(* ===================================================================== *)
(** ** The loops of [checkBashCommand] as first matches *)
(* ===================================================================== *)

Section Loops.

Variable host : Host.
Variable command : string.

Lemma checkBashToolPatterns_find (patterns : list BashPattern.t) :
  checkBashToolPatterns host command patterns
  = option_map commandPatternBlocked
      (find (bashPatternMatches host command) patterns).
Proof.
  induction patterns as [|p rest IH]; simpl; [reflexivity|].
  unfold bashPatternMatches.
  destruct (RegExp_new host (BashPattern.pattern p) "i") as [regex|err]; simpl.
  - destruct (RegExp_test host regex command); simpl; [reflexivity|exact IH].
  - exact IH.
Qed.

Lemma checkZeroAccessCommand_find (paths : list string) :
  checkZeroAccessCommand host command paths
  = option_map zeroAccessVerdict
      (find (zeroAccessMatches host command) paths).
Proof.
  induction paths as [|z rest IH]; [reflexivity|].
  cbn [checkZeroAccessCommand find].
  unfold zeroAccessMatches.
  destruct (isGlobPattern z) eqn:G.
  - destruct (RegExp_new host (globToRegex z) "i") as [regex|err];
      cbn [bind try_catch].
    + destruct (RegExp_test host regex command); [|exact IH].
      cbn [option_map]. unfold zeroAccessVerdict. now rewrite G.
    + exact IH.
  - destruct (JS.includes command (JS.replaceLeadingTilde z (homedir host))
              || JS.includes command z); [|exact IH].
    cbn [option_map]. unfold zeroAccessVerdict. now rewrite G.
Qed.

Lemma checkOperationPaths_find (patterns : list PatternTuple)
  (pathType : string) (paths : list string) :
  checkOperationPaths host command patterns pathType paths
  = option_map
      (fun p => BashCheckResult.ofCheckResult
                  (checkPathPatterns host command p patterns pathType))
      (find (operationDetected host command patterns pathType) paths).
Proof.
  induction paths as [|p rest IH]; simpl; [reflexivity|].
  unfold operationDetected at 1.
  destruct (CheckResult.blocked
              (checkPathPatterns host command p patterns pathType));
    simpl; [reflexivity|exact IH].
Qed.

Lemma checkBashCommand_evaluateCommand (config : Config) :
  checkBashCommand host command config
  = Spec.evaluateCommand host command config.
Proof.
  unfold checkBashCommand, Spec.evaluateCommand.
  rewrite checkBashToolPatterns_find, checkZeroAccessCommand_find,
    !checkOperationPaths_find.
  destruct (find (bashPatternMatches host command) (bashToolPatterns config));
    simpl; [reflexivity|].
  destruct (find (zeroAccessMatches host command) (zeroAccessPaths config));
    simpl; [reflexivity|].
  destruct (find (operationDetected host command READ_ONLY_BLOCKED
                    "read-only path") (readOnlyPaths config));
    simpl; [reflexivity|].
  destruct (find (operationDetected host command NO_DELETE_BLOCKED
                    "no-delete path") (noDeletePaths config));
    reflexivity.
Qed.

(** Every early return of the four loops is a blocked verdict. *)
Lemma evaluateCommand_blocked_cases (config : Config) :
  BashCheckResult.blocked (Spec.evaluateCommand host command config) = true
  \/ (find (bashPatternMatches host command) (bashToolPatterns config) = None
      /\ find (zeroAccessMatches host command) (zeroAccessPaths config) = None
      /\ find (operationDetected host command READ_ONLY_BLOCKED "read-only path")
           (readOnlyPaths config) = None
      /\ find (operationDetected host command NO_DELETE_BLOCKED "no-delete path")
           (noDeletePaths config) = None).
Proof.
  unfold Spec.evaluateCommand.
  destruct (find (bashPatternMatches host command) (bashToolPatterns config));
    [left; reflexivity|].
  destruct (find (zeroAccessMatches host command) (zeroAccessPaths config));
    [left; reflexivity|].
  destruct (find (operationDetected host command READ_ONLY_BLOCKED
                    "read-only path") (readOnlyPaths config)) as [p|] eqn:Hro.
  { left. simpl. apply find_some in Hro. exact (proj2 Hro). }
  destruct (find (operationDetected host command NO_DELETE_BLOCKED
                    "no-delete path") (noDeletePaths config)) as [p|] eqn:Hnd.
  { left. simpl. apply find_some in Hnd. exact (proj2 Hnd). }
  right. auto.
Qed.

Lemma zero_access_entry_blocks (config : Config) (z : string) :
  In z (zeroAccessPaths config) ->
  zeroAccessMatches host command z = true ->
  BashCheckResult.blocked (checkBashCommand host command config) = true.
Proof.
  intros Hin Hz. rewrite checkBashCommand_evaluateCommand.
  destruct (evaluateCommand_blocked_cases config) as [H|(_ & H & _)]; [exact H|].
  destruct (find_exists _ _ _ Hin Hz) as [e He]. congruence.
Qed.

Lemma read_only_entry_blocks (config : Config) (p : string) :
  In p (readOnlyPaths config) ->
  operationDetected host command READ_ONLY_BLOCKED "read-only path" p = true ->
  BashCheckResult.blocked (checkBashCommand host command config) = true.
Proof.
  intros Hin Hp. rewrite checkBashCommand_evaluateCommand.
  destruct (evaluateCommand_blocked_cases config) as [H|(_ & _ & H & _)];
    [exact H|].
  destruct (find_exists _ _ _ Hin Hp) as [e He]. congruence.
Qed.

Lemma no_delete_entry_blocks (config : Config) (p : string) :
  In p (noDeletePaths config) ->
  operationDetected host command NO_DELETE_BLOCKED "no-delete path" p = true ->
  BashCheckResult.blocked (checkBashCommand host command config) = true.
Proof.
  intros Hin Hp. rewrite checkBashCommand_evaluateCommand.
  destruct (evaluateCommand_blocked_cases config) as [H|(_ & _ & _ & H)];
    [exact H|].
  destruct (find_exists _ _ _ Hin Hp) as [e He]. congruence.
Qed.

End Loops.

(* ===================================================================== *)
(** ** Indistinguishable hosts give the same verdicts *)
(* ===================================================================== *)

Section Equivalence.

Variables h1 h2 : Host.
Hypothesis Heq : host_equiv h1 h2.

Lemma try_new_equiv {A : Type} (source flags : string)
  (k1 : RegExp h1 -> A) (k2 : RegExp h2 -> A) (handler : A) :
  (forall r1 r2,
      (forall s, RegExp_test h1 r1 s = RegExp_test h2 r2 s) -> k1 r1 = k2 r2) ->
  try_catch (r <- RegExp_new h1 source flags ;; Normal (k1 r)) handler
  = try_catch (r <- RegExp_new h2 source flags ;; Normal (k2 r)) handler.
Proof.
  intros Hk. destruct Heq as [_ H]. specialize (H source flags).
  unfold sameRegExp in H.
  destruct (RegExp_new h1 source flags), (RegExp_new h2 source flags);
    simpl; auto; contradiction.
Qed.

Lemma matchGlob_equiv (str pattern : string) :
  matchGlob h1 str pattern = matchGlob h2 str pattern.
Proof.
  unfold matchGlob. apply try_new_equiv. intros r1 r2 H. apply H.
Qed.

Lemma matchPath_equiv (filePath pattern : string) :
  matchPath h1 filePath pattern = matchPath h2 filePath pattern.
Proof.
  unfold matchPath. destruct Heq as [<- _].
  now rewrite !matchGlob_equiv.
Qed.

Lemma checkGlobTemplates_equiv (command path pathType globRegex : string)
  (patterns : list PatternTuple) :
  checkGlobTemplates h1 command path pathType globRegex patterns
  = checkGlobTemplates h2 command path pathType globRegex patterns.
Proof.
  induction patterns as [|[template operation] rest IH]; [reflexivity|].
  cbn [checkGlobTemplates]. rewrite IH.
  destruct (JS.truthy (JS.replace template "{path}" "")); [|reflexivity].
  destruct Heq as [_ H].
  specialize (H (JS.replace template "{path}" "" ++ globRegex) "i").
  unfold sameRegExp in H.
  destruct (RegExp_new h1 _ "i") as [r1|], (RegExp_new h2 _ "i") as [r2|];
    cbn [bind try_catch]; try contradiction; [|reflexivity].
  now rewrite H.
Qed.

Lemma checkLiteralTemplates_equiv
  (command path pathType escapedExpanded escapedOriginal : string)
  (patterns : list PatternTuple) :
  checkLiteralTemplates h1 command path pathType
    escapedExpanded escapedOriginal patterns
  = checkLiteralTemplates h2 command path pathType
      escapedExpanded escapedOriginal patterns.
Proof.
  induction patterns as [|[template operation] rest IH]; [reflexivity|].
  cbn [checkLiteralTemplates]. rewrite IH.
  destruct Heq as [_ H].
  pose proof (H (JS.replace template "{path}" escapedExpanded) "") as He.
  pose proof (H (JS.replace template "{path}" escapedOriginal) "") as Ho.
  unfold sameRegExp in He, Ho.
  destruct (RegExp_new h1 (JS.replace template "{path}" escapedExpanded) "")
    as [e1|],
    (RegExp_new h2 (JS.replace template "{path}" escapedExpanded) "")
    as [e2|]; cbn [bind try_catch]; try contradiction.
  - destruct (RegExp_new h1 (JS.replace template "{path}" escapedOriginal) "")
      as [o1|],
      (RegExp_new h2 (JS.replace template "{path}" escapedOriginal) "")
      as [o2|]; cbn [bind try_catch]; try contradiction; [|reflexivity].
    now rewrite He, Ho.
  - reflexivity.
Qed.

Lemma checkPathPatterns_equiv (command path : string)
  (patterns : list PatternTuple) (pathType : string) :
  checkPathPatterns h1 command path patterns pathType
  = checkPathPatterns h2 command path patterns pathType.
Proof.
  unfold checkPathPatterns. destruct Heq as [<- _].
  now rewrite checkGlobTemplates_equiv, checkLiteralTemplates_equiv.
Qed.

Lemma bashPatternMatches_equiv (command : string) (p : BashPattern.t) :
  bashPatternMatches h1 command p = bashPatternMatches h2 command p.
Proof.
  unfold bashPatternMatches. apply try_new_equiv. intros r1 r2 H. apply H.
Qed.

Lemma zeroAccessMatches_equiv (command z : string) :
  zeroAccessMatches h1 command z = zeroAccessMatches h2 command z.
Proof.
  unfold zeroAccessMatches. destruct (isGlobPattern z).
  - apply try_new_equiv. intros r1 r2 H. apply H.
  - now destruct Heq as [<- _].
Qed.

Lemma find_ext_all {A : Type} (f g : A -> bool) (l : list A) :
  (forall x, f x = g x) -> find f l = find g l.
Proof.
  intros H. induction l as [|a l IH]; simpl; [reflexivity|].
  now rewrite H, IH.
Qed.

Lemma checkBashCommand_equiv (command : string) (config : Config) :
  checkBashCommand h1 command config = checkBashCommand h2 command config.
Proof.
  rewrite !checkBashCommand_evaluateCommand. unfold Spec.evaluateCommand.
  rewrite (find_ext_all (bashPatternMatches h1 command)
             (bashPatternMatches h2 command))
    by apply bashPatternMatches_equiv.
  rewrite (find_ext_all (zeroAccessMatches h1 command)
             (zeroAccessMatches h2 command))
    by apply zeroAccessMatches_equiv.
  rewrite (find_ext_all
             (operationDetected h1 command READ_ONLY_BLOCKED "read-only path")
             (operationDetected h2 command READ_ONLY_BLOCKED "read-only path"))
    by (intros x; unfold operationDetected; now rewrite checkPathPatterns_equiv).
  rewrite (find_ext_all
             (operationDetected h1 command NO_DELETE_BLOCKED "no-delete path")
             (operationDetected h2 command NO_DELETE_BLOCKED "no-delete path"))
    by (intros x; unfold operationDetected; now rewrite checkPathPatterns_equiv).
  repeat match goal with
         | |- context [match find ?f ?l with _ => _ end] =>
             destruct (find f l)
         end;
    try reflexivity; now rewrite checkPathPatterns_equiv.
Qed.

Lemma checkZeroAccessFile_equiv (filePath : string) (paths : list string) :
  checkZeroAccessFile h1 filePath paths = checkZeroAccessFile h2 filePath paths.
Proof.
  induction paths as [|z rest IH]; [reflexivity|].
  cbn [checkZeroAccessFile]. now rewrite matchPath_equiv, IH.
Qed.

Lemma checkReadOnlyFile_equiv (filePath : string) (paths : list string) :
  checkReadOnlyFile h1 filePath paths = checkReadOnlyFile h2 filePath paths.
Proof.
  induction paths as [|z rest IH]; [reflexivity|].
  cbn [checkReadOnlyFile]. now rewrite matchPath_equiv, IH.
Qed.

Lemma checkFilePath_equiv (filePath : string) (config : Config) :
  checkFilePath h1 filePath config = checkFilePath h2 filePath config.
Proof.
  unfold checkFilePath.
  now rewrite checkZeroAccessFile_equiv, checkReadOnlyFile_equiv.
Qed.

Lemma checkFilePathZeroAccessOnly_equiv (filePath : string) (config : Config) :
  checkFilePathZeroAccessOnly h1 filePath config
  = checkFilePathZeroAccessOnly h2 filePath config.
Proof.
  unfold checkFilePathZeroAccessOnly. now rewrite checkZeroAccessFile_equiv.
Qed.

End Equivalence.

(** A faithful host cannot be told apart from the same host with the
    reference engine in front. *)
Lemma faithful_withReference (h : Host) :
  Faithful h -> host_equiv h (withReference h).
Proof.
  intros Hf. split; [reflexivity|]. intros source flags.
  unfold sameRegExp. simpl.
  destruct (JsRegExp.create source flags) as [rx|err] eqn:Hc.
  - destruct (Hf source flags rx Hc) as (rx' & -> & Ht). exact Ht.
  - destruct (RegExp_new h source flags); simpl; auto.
Qed.

Lemma referenceHost_faithful (home : string) : Faithful (referenceHost home).
Proof.
  intros source flags rx Hc. exists rx. split; [exact Hc|reflexivity].
Qed.

(* ===================================================================== *)
(** ** Entries that do not match can be removed *)
(* ===================================================================== *)

Section Removal.

Variable host : Host.

Lemma bashPatternMatches_throw (command : string) (e : BashPattern.t)
  (err : string) :
  RegExp_new host (BashPattern.pattern e) "i" = Throw err ->
  bashPatternMatches host command e = false.
Proof.
  intros H. unfold bashPatternMatches. now rewrite H.
Qed.

Lemma remove_command_pattern (command : string)
  (pre post : list BashPattern.t) (e : BashPattern.t)
  (za ro nd : list string) :
  bashPatternMatches host command e = false ->
  checkBashCommand host command
    {| bashToolPatterns := pre ++ e :: post; zeroAccessPaths := za;
       readOnlyPaths := ro; noDeletePaths := nd |}
  = checkBashCommand host command
      {| bashToolPatterns := pre ++ post; zeroAccessPaths := za;
         readOnlyPaths := ro; noDeletePaths := nd |}.
Proof.
  intros H. rewrite !checkBashCommand_evaluateCommand.
  unfold Spec.evaluateCommand; cbn [bashToolPatterns].
  now rewrite (find_skip _ pre post e H).
Qed.

Lemma remove_read_only_path (command : string)
  (bp : list BashPattern.t) (za pre post nd : list string) (p : string) :
  operationDetected host command READ_ONLY_BLOCKED "read-only path" p = false ->
  checkBashCommand host command
    {| bashToolPatterns := bp; zeroAccessPaths := za;
       readOnlyPaths := pre ++ p :: post; noDeletePaths := nd |}
  = checkBashCommand host command
      {| bashToolPatterns := bp; zeroAccessPaths := za;
         readOnlyPaths := pre ++ post; noDeletePaths := nd |}.
Proof.
  intros H. rewrite !checkBashCommand_evaluateCommand.
  unfold Spec.evaluateCommand; cbn [readOnlyPaths].
  now rewrite (find_skip _ pre post p H).
Qed.

Lemma remove_no_delete_path (command : string)
  (bp : list BashPattern.t) (za ro pre post : list string) (p : string) :
  operationDetected host command NO_DELETE_BLOCKED "no-delete path" p = false ->
  checkBashCommand host command
    {| bashToolPatterns := bp; zeroAccessPaths := za;
       readOnlyPaths := ro; noDeletePaths := pre ++ p :: post |}
  = checkBashCommand host command
      {| bashToolPatterns := bp; zeroAccessPaths := za;
         readOnlyPaths := ro; noDeletePaths := pre ++ post |}.
Proof.
  intros H. rewrite !checkBashCommand_evaluateCommand.
  unfold Spec.evaluateCommand; cbn [noDeletePaths].
  now rewrite (find_skip _ pre post p H).
Qed.

Lemma remove_zero_access_file (filePath : string) (pre post : list string)
  (z : string) :
  matchPath host filePath z = false ->
  checkZeroAccessFile host filePath (pre ++ z :: post)
  = checkZeroAccessFile host filePath (pre ++ post).
Proof.
  intros H. induction pre as [|a pre IH]; cbn [app checkZeroAccessFile].
  - now rewrite H.
  - now rewrite IH.
Qed.

Lemma zero_access_file_blocks (filePath : string) (paths : list string)
  (z : string) :
  In z paths -> matchPath host filePath z = true ->
  exists r, checkZeroAccessFile host filePath paths = Some r
            /\ CheckResult.blocked r = true.
Proof.
  induction paths as [|a paths IH]; [intros []|].
  intros Hin Hz. cbn [checkZeroAccessFile].
  destruct (matchPath host filePath a) eqn:Ha; [eauto|].
  destruct Hin as [->|Hin]; [congruence|auto].
Qed.

End Removal.

(* ===================================================================== *)
(** ** Strings: the empty string *)
(* ===================================================================== *)

Lemma startsWith_empty (s : string) : JS.startsWith s "" = true.
Proof. destruct s; reflexivity. Qed.

Lemma includes_empty (s : string) : JS.includes s "" = true.
Proof. destruct s; simpl; now rewrite ?startsWith_empty. Qed.

(* ===================================================================== *)
(** ** Entries that differ in the [ask] flag *)
(* ===================================================================== *)

Lemma sameButAsk_matches (host : Host) (command : string)
  (p q : BashPattern.t) :
  sameButAsk p q ->
  bashPatternMatches host command p = bashPatternMatches host command q.
Proof.
  intros [Hp _]. unfold bashPatternMatches. now rewrite Hp.
Qed.

Lemma sameButAsk_find (host : Host) (command : string)
  (ps qs : list BashPattern.t) :
  Forall2 sameButAsk ps qs ->
  match find (bashPatternMatches host command) ps,
        find (bashPatternMatches host command) qs with
  | Some p, Some q => sameButAsk p q
  | None, None => True
  | _, _ => False
  end.
Proof.
  induction 1 as [|p q ps qs Hpq _ IH]; simpl; [exact I|].
  rewrite (sameButAsk_matches host command p q Hpq).
  destruct (bashPatternMatches host command q); [exact Hpq|exact IH].
Qed.

(* ===================================================================== *)
(** ** The properties of the specification *)
(* ===================================================================== *)

(** C1. Tier precedence.  When the command matches some [bashToolPatterns]
    entry and some [zeroAccessPaths] entry, the verdict of
    [checkBashCommand] is the blocked verdict of the first matching
    [bashToolPatterns] entry.  More generally the verdict is decided by the
    first tier, in the order command patterns, zero-access, read-only,
    no-delete, that has a matching entry, and in that tier by its first
    matching entry; with no match in any tier the command is allowed. *)
Theorem command_patterns_take_precedence
  (host : Host) (command : string) (config : Config) :
  (forall p z,
      In p (bashToolPatterns config) ->
      bashPatternMatches host command p = true ->
      In z (zeroAccessPaths config) ->
      zeroAccessMatches host command z = true ->
      exists e,
        firstIn (bashPatternMatches host command) (bashToolPatterns config) e
        /\ checkBashCommand host command config = commandPatternBlocked e)
  /\ (forall e,
         firstIn (bashPatternMatches host command) (bashToolPatterns config) e ->
         checkBashCommand host command config = commandPatternBlocked e)
  /\ (forall z,
         noneIn (bashPatternMatches host command) (bashToolPatterns config) ->
         firstIn (zeroAccessMatches host command) (zeroAccessPaths config) z ->
         checkBashCommand host command config = zeroAccessVerdict z)
  /\ (forall p,
         noneIn (bashPatternMatches host command) (bashToolPatterns config) ->
         noneIn (zeroAccessMatches host command) (zeroAccessPaths config) ->
         firstIn (operationDetected host command READ_ONLY_BLOCKED "read-only path")
           (readOnlyPaths config) p ->
         checkBashCommand host command config
         = BashCheckResult.ofCheckResult
             (checkPathPatterns host command p READ_ONLY_BLOCKED "read-only path"))
  /\ (forall p,
         noneIn (bashPatternMatches host command) (bashToolPatterns config) ->
         noneIn (zeroAccessMatches host command) (zeroAccessPaths config) ->
         noneIn (operationDetected host command READ_ONLY_BLOCKED "read-only path")
           (readOnlyPaths config) ->
         firstIn (operationDetected host command NO_DELETE_BLOCKED "no-delete path")
           (noDeletePaths config) p ->
         checkBashCommand host command config
         = BashCheckResult.ofCheckResult
             (checkPathPatterns host command p NO_DELETE_BLOCKED "no-delete path"))
  /\ (noneIn (bashPatternMatches host command) (bashToolPatterns config) ->
      noneIn (zeroAccessMatches host command) (zeroAccessPaths config) ->
      noneIn (operationDetected host command READ_ONLY_BLOCKED "read-only path")
        (readOnlyPaths config) ->
      noneIn (operationDetected host command NO_DELETE_BLOCKED "no-delete path")
        (noDeletePaths config) ->
      checkBashCommand host command config = allowed).
Proof.
  rewrite checkBashCommand_evaluateCommand. unfold Spec.evaluateCommand.
  repeat split.
  - intros p z Hp Mp _ _.
    destruct (find_exists _ _ _ Hp Mp) as [e He].
    exists e. split; [now apply find_first_split|]. now rewrite He.
  - intros e He. now rewrite (firstIn_find _ _ _ He).
  - intros z N1 Hz.
    now rewrite (noneIn_find _ _ N1), (firstIn_find _ _ _ Hz).
  - intros p N1 N2 Hp.
    now rewrite (noneIn_find _ _ N1), (noneIn_find _ _ N2),
      (firstIn_find _ _ _ Hp).
  - intros p N1 N2 N3 Hp.
    now rewrite (noneIn_find _ _ N1), (noneIn_find _ _ N2),
      (noneIn_find _ _ N3), (firstIn_find _ _ _ Hp).
  - intros N1 N2 N3 N4.
    now rewrite (noneIn_find _ _ N1), (noneIn_find _ _ N2),
      (noneIn_find _ _ N3), (noneIn_find _ _ N4).
Qed.

(** The command [rm -rf .env] matches the entry for recursive removal and
    the zero-access path [.env]; the reason is that of the entry. *)
Lemma command_patterns_take_precedence_witness :
  bashPatternMatches Example.host "rm -rf .env" Example.rmRecursive = true
  /\ zeroAccessMatches Example.host "rm -rf .env" ".env" = true
  /\ checkBashCommand Example.host "rm -rf .env"
       (Example.policy [Example.unbalanced; Example.rmRecursive])
     = {| BashCheckResult.blocked := true;
          BashCheckResult.reason := "Blocked: rm with recursive force";
          BashCheckResult.wasAskPattern := Some false |}.
Proof.
  split; [vm_compute; reflexivity|].
  split; [vm_compute; reflexivity|].
  apply (proj1 (proj2 (command_patterns_take_precedence Example.host
                         "rm -rf .env"
                         (Example.policy [Example.unbalanced; Example.rmRecursive])))
           Example.rmRecursive).
  exists [Example.unbalanced], [].
  split; [reflexivity|].
  split; [|vm_compute; reflexivity].
  intros q [<-|[]]. vm_compute; reflexivity.
Defined.

(** C2. Fail-open on the empty policy: with the four tiers empty, every
    command and every path is allowed, on the three query surfaces. *)
Theorem empty_policy_allows_everything (host : Host) (query : string) :
  checkBashCommand host query
    {| bashToolPatterns := []; zeroAccessPaths := [];
       readOnlyPaths := []; noDeletePaths := [] |}
  = {| BashCheckResult.blocked := false;
       BashCheckResult.reason := "";
       BashCheckResult.wasAskPattern := None |}
  /\ checkFilePath host query
       {| bashToolPatterns := []; zeroAccessPaths := [];
          readOnlyPaths := []; noDeletePaths := [] |}
     = {| CheckResult.blocked := false; CheckResult.reason := "" |}
  /\ checkFilePathZeroAccessOnly host query
       {| bashToolPatterns := []; zeroAccessPaths := [];
          readOnlyPaths := []; noDeletePaths := [] |}
     = {| CheckResult.blocked := false; CheckResult.reason := "" |}.
Proof.
  repeat split.
Qed.

(** C3. Fail-open on a bad pattern.  A [bashToolPatterns] entry whose
    pattern makes [new RegExp] throw is skipped: the verdict is the one of
    the configuration without the entry, wherever the entry stands; alone
    it blocks nothing, and the first matching entry after it still blocks.
    The thrown error is caught inside the loop, so the evaluator returns a
    verdict. *)
Theorem malformed_pattern_is_skipped
  (host : Host) (command : string) (e : BashPattern.t) (err : string)
  (pre post : list BashPattern.t) (za ro nd : list string) :
  RegExp_new host (BashPattern.pattern e) "i" = Throw err ->
  checkBashCommand host command
    {| bashToolPatterns := pre ++ e :: post; zeroAccessPaths := za;
       readOnlyPaths := ro; noDeletePaths := nd |}
  = checkBashCommand host command
      {| bashToolPatterns := pre ++ post; zeroAccessPaths := za;
         readOnlyPaths := ro; noDeletePaths := nd |}
  /\ checkBashToolPatterns host command [e] = None
  /\ checkBashCommand host command
       {| bashToolPatterns := [e]; zeroAccessPaths := [];
          readOnlyPaths := []; noDeletePaths := [] |}
     = allowed
  /\ (forall e',
         noneIn (bashPatternMatches host command) pre ->
         firstIn (bashPatternMatches host command) post e' ->
         checkBashCommand host command
           {| bashToolPatterns := pre ++ e :: post; zeroAccessPaths := za;
              readOnlyPaths := ro; noDeletePaths := nd |}
         = commandPatternBlocked e').
Proof.
  intros Hthrow.
  pose proof (bashPatternMatches_throw host command e err Hthrow) as He.
  split; [now apply remove_command_pattern|].
  split; [cbn [checkBashToolPatterns]; now rewrite Hthrow|].
  split.
  { unfold checkBashCommand; cbn [bashToolPatterns checkBashToolPatterns].
    now rewrite Hthrow. }
  intros e' Hpre (pre' & post' & -> & Hpre' & He').
  rewrite checkBashCommand_evaluateCommand.
  unfold Spec.evaluateCommand; cbn [bashToolPatterns].
  replace (pre ++ e :: pre' ++ e' :: post')%list
    with ((pre ++ e :: pre') ++ e' :: post')%list
    by (rewrite <- app_assoc; reflexivity).
  rewrite find_split_first; auto.
  intros q Hq. apply in_app_or in Hq.
  destruct Hq as [Hq|[<-|Hq]]; auto.
Qed.

(** The unbalanced pattern does not compile; the entry after it blocks
    [rm -rf build]. *)
Lemma malformed_pattern_is_skipped_witness :
  RegExp_new Example.host (BashPattern.pattern Example.unbalanced) "i"
  = Throw "SyntaxError"
  /\ checkBashCommand Example.host "rm -rf build"
       (Example.policy [Example.unbalanced; Example.rmRecursive])
     = checkBashCommand Example.host "rm -rf build"
         (Example.policy [Example.rmRecursive])
  /\ checkBashCommand Example.host "rm -rf build"
       (Example.policy [Example.unbalanced; Example.rmRecursive])
     = commandPatternBlocked Example.rmRecursive.
Proof.
  pose proof (malformed_pattern_is_skipped Example.host "rm -rf build"
                Example.unbalanced "SyntaxError" [] [Example.rmRecursive]
                [".env"; "*.pem"; "~/.ssh/"] ["/etc/"; "*.lock"]
                ["LICENSE"; ".git/"] eq_refl) as (H1 & _ & _ & H4).
  split; [reflexivity|].
  split; [exact H1|].
  apply H4.
  - intros q [].
  - exists [], []. split; [reflexivity|].
    split; [intros q []|vm_compute; reflexivity].
Defined.

(** C7. Advisory entries block like the others.  The first
    [bashToolPatterns] entry whose regex, compiled with the [i] flag, is
    found in the command gives a blocked verdict with the reason of that
    entry, whatever its [ask] flag; and two configurations whose entries
    differ at most in their [ask] flags give, for every command, the same
    [blocked] field and the same reason. *)
Theorem advisory_entries_block_like_others
  (host : Host) (command : string)
  (patterns patterns' : list BashPattern.t) (za ro nd : list string) :
  Forall2 sameButAsk patterns patterns' ->
  (forall e,
      firstIn (bashPatternMatches host command) patterns e ->
      BashCheckResult.blocked
        (checkBashCommand host command
           {| bashToolPatterns := patterns; zeroAccessPaths := za;
              readOnlyPaths := ro; noDeletePaths := nd |}) = true
      /\ BashCheckResult.reason
           (checkBashCommand host command
              {| bashToolPatterns := patterns; zeroAccessPaths := za;
                 readOnlyPaths := ro; noDeletePaths := nd |})
         = "Blocked: " ++ BashPattern.reason e)
  /\ BashCheckResult.blocked
       (checkBashCommand host command
          {| bashToolPatterns := patterns; zeroAccessPaths := za;
             readOnlyPaths := ro; noDeletePaths := nd |})
     = BashCheckResult.blocked
         (checkBashCommand host command
            {| bashToolPatterns := patterns'; zeroAccessPaths := za;
               readOnlyPaths := ro; noDeletePaths := nd |})
  /\ BashCheckResult.reason
       (checkBashCommand host command
          {| bashToolPatterns := patterns; zeroAccessPaths := za;
             readOnlyPaths := ro; noDeletePaths := nd |})
     = BashCheckResult.reason
         (checkBashCommand host command
            {| bashToolPatterns := patterns'; zeroAccessPaths := za;
               readOnlyPaths := ro; noDeletePaths := nd |}).
Proof.
  intros Hsame. rewrite !checkBashCommand_evaluateCommand.
  unfold Spec.evaluateCommand; cbn [bashToolPatterns].
  split.
  { intros e He. now rewrite (firstIn_find _ _ _ He). }
  pose proof (sameButAsk_find host command patterns patterns' Hsame) as H.
  destruct (find (bashPatternMatches host command) patterns) as [p|],
    (find (bashPatternMatches host command) patterns') as [q|];
    try contradiction.
  - destruct H as [_ Hr]. cbn. now rewrite Hr.
  - split; reflexivity.
Qed.

(** The push entry blocks [GIT  PUSH origin] with its reason, flagged
    advisory or not. *)
Lemma advisory_entries_block_like_others_witness :
  Forall2 sameButAsk [Example.gitPush (Some true)] [Example.gitPush None]
  /\ checkBashCommand Example.host "GIT  PUSH origin"
       (Example.policy [Example.gitPush (Some true)])
     = {| BashCheckResult.blocked := true;
          BashCheckResult.reason := "Blocked: git push needs a review";
          BashCheckResult.wasAskPattern := Some true |}
  /\ BashCheckResult.blocked
       (checkBashCommand Example.host "GIT  PUSH origin"
          (Example.policy [Example.gitPush (Some true)]))
     = BashCheckResult.blocked
         (checkBashCommand Example.host "GIT  PUSH origin"
            (Example.policy [Example.gitPush None])).
Proof.
  assert (Hsame : Forall2 sameButAsk
                    [Example.gitPush (Some true)] [Example.gitPush None]).
  { constructor; [split; reflexivity|constructor]. }
  split; [exact Hsame|].
  split; [vm_compute; reflexivity|].
  exact (proj1 (proj2 (advisory_entries_block_like_others Example.host
                         "GIT  PUSH origin"
                         [Example.gitPush (Some true)] [Example.gitPush None]
                         [".env"; "*.pem"; "~/.ssh/"] ["/etc/"; "*.lock"]
                         ["LICENSE"; ".git/"] Hsame))).
Defined.

(** C8. The path surfaces read two tiers at most.  [checkFilePath] gives
    the same verdict under any two configurations with the same
    [zeroAccessPaths] and [readOnlyPaths], and
    [checkFilePathZeroAccessOnly] under any two with the same
    [zeroAccessPaths]: [noDeletePaths] and [bashToolPatterns] are never
    consulted. *)
Theorem path_checks_ignore_other_tiers
  (host : Host) (filePath : string) (config config' : Config) :
  zeroAccessPaths config = zeroAccessPaths config' ->
  checkFilePathZeroAccessOnly host filePath config
  = checkFilePathZeroAccessOnly host filePath config'
  /\ (readOnlyPaths config = readOnlyPaths config' ->
      checkFilePath host filePath config = checkFilePath host filePath config').
Proof.
  intros Hz. unfold checkFilePathZeroAccessOnly, checkFilePath.
  rewrite Hz. split; [reflexivity|]. now intros ->.
Qed.

(** Two policies that differ in the command patterns and in the no-delete
    tier *)
Lemma path_checks_ignore_other_tiers_witness :
  checkFilePathZeroAccessOnly Example.host "/srv/app/.env"
    (Example.policy [Example.rmRecursive])
  = checkFilePathZeroAccessOnly Example.host "/srv/app/.env"
      {| bashToolPatterns := [];
         zeroAccessPaths := [".env"; "*.pem"; "~/.ssh/"];
         readOnlyPaths := ["/etc/"; "*.lock"];
         noDeletePaths := ["/srv/"] |}
  /\ checkFilePath Example.host "/etc/passwd"
       (Example.policy [Example.rmRecursive])
     = checkFilePath Example.host "/etc/passwd"
         {| bashToolPatterns := [];
            zeroAccessPaths := [".env"; "*.pem"; "~/.ssh/"];
            readOnlyPaths := ["/etc/"; "*.lock"];
            noDeletePaths := ["/srv/"] |}.
Proof.
  split.
  - exact (proj1 (path_checks_ignore_other_tiers Example.host "/srv/app/.env"
                    (Example.policy [Example.rmRecursive])
                    {| bashToolPatterns := [];
                       zeroAccessPaths := [".env"; "*.pem"; "~/.ssh/"];
                       readOnlyPaths := ["/etc/"; "*.lock"];
                       noDeletePaths := ["/srv/"] |} eq_refl)).
  - exact (proj2 (path_checks_ignore_other_tiers Example.host "/etc/passwd"
                    (Example.policy [Example.rmRecursive])
                    {| bashToolPatterns := [];
                       zeroAccessPaths := [".env"; "*.pem"; "~/.ssh/"];
                       readOnlyPaths := ["/etc/"; "*.lock"];
                       noDeletePaths := ["/srv/"] |} eq_refl) eq_refl).
Defined.

(** C10. The empty path specifier matches everything.  [matchPath] is
    true of every file path and the empty specifier, and a configuration
    with the empty string among its [zeroAccessPaths] blocks every path on
    both path surfaces and every command. *)
Theorem empty_specifier_matches_everything (host : Host) (config : Config) :
  In "" (zeroAccessPaths config) ->
  (forall filePath, matchPath host filePath "" = true)
  /\ (forall command, zeroAccessMatches host command "" = true)
  /\ (forall filePath,
         CheckResult.blocked (checkFilePath host filePath config) = true
         /\ CheckResult.blocked
              (checkFilePathZeroAccessOnly host filePath config) = true)
  /\ (forall command,
         BashCheckResult.blocked (checkBashCommand host command config) = true).
Proof.
  intros Hin.
  assert (Hm : forall filePath, matchPath host filePath "" = true).
  { intros filePath. unfold matchPath.
    change (isGlobPattern "") with false.
    change (JS.replaceLeadingTilde "" (homedir host)) with "".
    cbv iota. now rewrite startsWith_empty. }
  assert (Hz : forall command, zeroAccessMatches host command "" = true).
  { intros command. unfold zeroAccessMatches.
    change (isGlobPattern "") with false. cbv iota.
    rewrite (includes_empty command). apply orb_true_r. }
  split; [exact Hm|]. split; [exact Hz|]. split.
  - intros filePath.
    destruct (zero_access_file_blocks host filePath _ "" Hin (Hm filePath))
      as (r & Hr & Hb).
    unfold checkFilePath, checkFilePathZeroAccessOnly. now rewrite Hr.
  - intros command. exact (zero_access_entry_blocks host command config "" Hin
                             (Hz command)).
Qed.

(** An empty entry after the usual ones *)
Lemma empty_specifier_matches_everything_witness :
  CheckResult.blocked
    (checkFilePathZeroAccessOnly Example.host "/srv/app/main.ts"
       {| bashToolPatterns := []; zeroAccessPaths := ["*.pem"; ""];
          readOnlyPaths := []; noDeletePaths := [] |}) = true
  /\ BashCheckResult.blocked
       (checkBashCommand Example.host "ls"
          {| bashToolPatterns := []; zeroAccessPaths := ["*.pem"; ""];
             readOnlyPaths := []; noDeletePaths := [] |}) = true.
Proof.
  pose proof (empty_specifier_matches_everything Example.host
                {| bashToolPatterns := []; zeroAccessPaths := ["*.pem"; ""];
                   readOnlyPaths := []; noDeletePaths := [] |}
                (or_intror (or_introl eq_refl))) as (_ & _ & Hf & Hc).
  split; [exact (proj2 (Hf "/srv/app/main.ts"))|exact (Hc "ls")].
Defined.

(** C4. Glob basename matching.  On a host whose engine agrees with the
    reference engine, the specifier [*.pem] matches the path
    [/tmp/keys/server.pem] (its basename matches the anchored regex
    [^.*\.pem$], case-insensitively) and does not match
    [/tmp/keys/server.pem.bak]; so every configuration with [*.pem] among
    its [zeroAccessPaths] blocks the first path on both path surfaces,
    while for the second path the entry changes no verdict: removing it
    from the tier leaves the verdict as it is, and alone it blocks
    nothing. *)
Theorem pem_glob_matches_basename (host : Host) :
  Faithful host ->
  matchPath host "/tmp/keys/server.pem" "*.pem" = true
  /\ matchPath host "/tmp/keys/server.pem.bak" "*.pem" = false
  /\ (forall config,
         In "*.pem" (zeroAccessPaths config) ->
         CheckResult.blocked
           (checkFilePathZeroAccessOnly host "/tmp/keys/server.pem" config)
         = true
         /\ CheckResult.blocked
              (checkFilePath host "/tmp/keys/server.pem" config) = true)
  /\ checkFilePathZeroAccessOnly host "/tmp/keys/server.pem"
       {| bashToolPatterns := []; zeroAccessPaths := ["*.pem"];
          readOnlyPaths := []; noDeletePaths := [] |}
     = {| CheckResult.blocked := true;
          CheckResult.reason :=
            "zero-access path *.pem (no operations allowed)" |}
  /\ (forall bp pre post ro nd,
         checkFilePathZeroAccessOnly host "/tmp/keys/server.pem.bak"
           {| bashToolPatterns := bp; zeroAccessPaths := pre ++ "*.pem" :: post;
              readOnlyPaths := ro; noDeletePaths := nd |}
         = checkFilePathZeroAccessOnly host "/tmp/keys/server.pem.bak"
             {| bashToolPatterns := bp; zeroAccessPaths := pre ++ post;
                readOnlyPaths := ro; noDeletePaths := nd |}
         /\ checkFilePath host "/tmp/keys/server.pem.bak"
              {| bashToolPatterns := bp; zeroAccessPaths := pre ++ "*.pem" :: post;
                 readOnlyPaths := ro; noDeletePaths := nd |}
            = checkFilePath host "/tmp/keys/server.pem.bak"
                {| bashToolPatterns := bp; zeroAccessPaths := pre ++ post;
                   readOnlyPaths := ro; noDeletePaths := nd |})
  /\ checkFilePathZeroAccessOnly host "/tmp/keys/server.pem.bak"
       {| bashToolPatterns := []; zeroAccessPaths := ["*.pem"];
          readOnlyPaths := []; noDeletePaths := [] |}
     = {| CheckResult.blocked := false; CheckResult.reason := "" |}.
Proof.
  intros Hf. pose proof (faithful_withReference host Hf) as Heq.
  assert (Hpem : matchPath host "/tmp/keys/server.pem" "*.pem" = true).
  { rewrite (matchPath_equiv _ _ Heq). vm_compute. reflexivity. }
  assert (Hbak : matchPath host "/tmp/keys/server.pem.bak" "*.pem" = false).
  { rewrite (matchPath_equiv _ _ Heq). vm_compute. reflexivity. }
  split; [exact Hpem|]. split; [exact Hbak|]. split.
  { intros config Hin.
    destruct (zero_access_file_blocks host _ _ _ Hin Hpem) as (r & Hr & Hb).
    unfold checkFilePathZeroAccessOnly, checkFilePath. now rewrite Hr. }
  split.
  { unfold checkFilePathZeroAccessOnly.
    cbn [zeroAccessPaths checkZeroAccessFile]. now rewrite Hpem. }
  split.
  { intros bp pre post ro nd.
    unfold checkFilePathZeroAccessOnly, checkFilePath. cbn [zeroAccessPaths].
    now rewrite (remove_zero_access_file host _ pre post _ Hbak). }
  unfold checkFilePathZeroAccessOnly.
  cbn [zeroAccessPaths checkZeroAccessFile]. now rewrite Hbak.
Qed.

Lemma pem_glob_matches_basename_witness :
  Faithful Example.host
  /\ CheckResult.blocked
       (checkFilePathZeroAccessOnly Example.host "/tmp/keys/server.pem"
          (Example.policy [])) = true
  /\ checkFilePathZeroAccessOnly Example.host "/tmp/keys/server.pem.bak"
       {| bashToolPatterns := []; zeroAccessPaths := ["*.pem"];
          readOnlyPaths := []; noDeletePaths := [] |}
     = {| CheckResult.blocked := false; CheckResult.reason := "" |}.
Proof.
  pose proof (pem_glob_matches_basename Example.host
                (referenceHost_faithful "/home/dev"))
    as (_ & _ & Hin & _ & _ & Hbak).
  split; [apply referenceHost_faithful|].
  split; [|exact Hbak].
  exact (proj1 (Hin (Example.policy []) (or_intror (or_introl eq_refl)))).
Defined.

(** C5. Directory prefix literal.  On a host whose engine agrees with the
    reference engine, with [/etc/] among the [readOnlyPaths] the command
    [echo x > /etc/hosts] is blocked; the entry detects the operation
    [write], and that is the verdict whenever no earlier tier and no
    earlier read-only entry matches.  For [cat /etc/hosts] the entry
    detects no operation of the read-only template set: it changes no
    verdict, and alone it blocks nothing. *)
Theorem etc_read_only_blocks_write (host : Host) :
  Faithful host ->
  checkPathPatterns host "echo x > /etc/hosts" "/etc/"
    READ_ONLY_BLOCKED "read-only path"
  = {| CheckResult.blocked := true;
       CheckResult.reason :=
         "Blocked: write operation on read-only path /etc/" |}
  /\ (forall config,
         In "/etc/" (readOnlyPaths config) ->
         BashCheckResult.blocked
           (checkBashCommand host "echo x > /etc/hosts" config) = true)
  /\ (forall config,
         noneIn (bashPatternMatches host "echo x > /etc/hosts")
           (bashToolPatterns config) ->
         noneIn (zeroAccessMatches host "echo x > /etc/hosts")
           (zeroAccessPaths config) ->
         firstIn (operationDetected host "echo x > /etc/hosts"
                    READ_ONLY_BLOCKED "read-only path")
           (readOnlyPaths config) "/etc/" ->
         checkBashCommand host "echo x > /etc/hosts" config
         = {| BashCheckResult.blocked := true;
              BashCheckResult.reason :=
                "Blocked: write operation on read-only path /etc/";
              BashCheckResult.wasAskPattern := None |})
  /\ checkBashCommand host "echo x > /etc/hosts"
       {| bashToolPatterns := []; zeroAccessPaths := [];
          readOnlyPaths := ["/etc/"]; noDeletePaths := [] |}
     = {| BashCheckResult.blocked := true;
          BashCheckResult.reason :=
            "Blocked: write operation on read-only path /etc/";
          BashCheckResult.wasAskPattern := None |}
  /\ checkPathPatterns host "cat /etc/hosts" "/etc/"
       READ_ONLY_BLOCKED "read-only path"
     = {| CheckResult.blocked := false; CheckResult.reason := "" |}
  /\ (forall bp za pre post nd,
         checkBashCommand host "cat /etc/hosts"
           {| bashToolPatterns := bp; zeroAccessPaths := za;
              readOnlyPaths := pre ++ "/etc/" :: post; noDeletePaths := nd |}
         = checkBashCommand host "cat /etc/hosts"
             {| bashToolPatterns := bp; zeroAccessPaths := za;
                readOnlyPaths := pre ++ post; noDeletePaths := nd |})
  /\ checkBashCommand host "cat /etc/hosts"
       {| bashToolPatterns := []; zeroAccessPaths := [];
          readOnlyPaths := ["/etc/"]; noDeletePaths := [] |}
     = {| BashCheckResult.blocked := false;
          BashCheckResult.reason := "";
          BashCheckResult.wasAskPattern := None |}.
Proof.
  intros Hf. pose proof (faithful_withReference host Hf) as Heq.
  assert (Hw : checkPathPatterns host "echo x > /etc/hosts" "/etc/"
                 READ_ONLY_BLOCKED "read-only path"
               = {| CheckResult.blocked := true;
                    CheckResult.reason :=
                      "Blocked: write operation on read-only path /etc/" |}).
  { rewrite (checkPathPatterns_equiv _ _ Heq). vm_compute. reflexivity. }
  assert (Hr : checkPathPatterns host "cat /etc/hosts" "/etc/"
                 READ_ONLY_BLOCKED "read-only path"
               = {| CheckResult.blocked := false; CheckResult.reason := "" |}).
  { rewrite (checkPathPatterns_equiv _ _ Heq). vm_compute. reflexivity. }
  split; [exact Hw|]. split.
  { intros config Hin. apply (read_only_entry_blocks host _ config "/etc/" Hin).
    unfold operationDetected. now rewrite Hw. }
  split.
  { intros config N1 N2 H3. rewrite checkBashCommand_evaluateCommand.
    unfold Spec.evaluateCommand.
    rewrite (noneIn_find _ _ N1), (noneIn_find _ _ N2), (firstIn_find _ _ _ H3).
    now rewrite Hw. }
  split.
  { rewrite (checkBashCommand_equiv _ _ Heq). vm_compute. reflexivity. }
  split; [exact Hr|]. split.
  { intros bp za pre post nd. apply remove_read_only_path.
    unfold operationDetected. now rewrite Hr. }
  rewrite (checkBashCommand_equiv _ _ Heq). vm_compute. reflexivity.
Qed.

Lemma etc_read_only_blocks_write_witness :
  Faithful Example.host
  /\ BashCheckResult.blocked
       (checkBashCommand Example.host "echo x > /etc/hosts"
          (Example.policy [Example.rmRecursive])) = true
  /\ checkBashCommand Example.host "cat /etc/hosts"
       {| bashToolPatterns := []; zeroAccessPaths := [];
          readOnlyPaths := ["/etc/"]; noDeletePaths := [] |}
     = {| BashCheckResult.blocked := false;
          BashCheckResult.reason := "";
          BashCheckResult.wasAskPattern := None |}.
Proof.
  pose proof (etc_read_only_blocks_write Example.host
                (referenceHost_faithful "/home/dev"))
    as (_ & Hin & _ & _ & _ & _ & Hcat).
  split; [apply referenceHost_faithful|].
  split; [|exact Hcat].
  exact (Hin (Example.policy [Example.rmRecursive]) (or_introl eq_refl)).
Defined.

(** C6. Scope of the no-delete tier.  On a host whose engine agrees with
    the reference engine, with [LICENSE] among the [noDeletePaths] the
    command [rm LICENSE] is blocked; the entry detects the operation
    [delete], and that is the verdict whenever no earlier tier and no
    earlier no-delete entry matches.  For [echo x >> LICENSE] the entry
    detects nothing, the delete template set having no append template:
    it changes no verdict, and alone it blocks nothing. *)
Theorem license_no_delete_blocks_rm (host : Host) :
  Faithful host ->
  checkPathPatterns host "rm LICENSE" "LICENSE"
    NO_DELETE_BLOCKED "no-delete path"
  = {| CheckResult.blocked := true;
       CheckResult.reason :=
         "Blocked: delete operation on no-delete path LICENSE" |}
  /\ (forall config,
         In "LICENSE" (noDeletePaths config) ->
         BashCheckResult.blocked (checkBashCommand host "rm LICENSE" config)
         = true)
  /\ (forall config,
         noneIn (bashPatternMatches host "rm LICENSE")
           (bashToolPatterns config) ->
         noneIn (zeroAccessMatches host "rm LICENSE")
           (zeroAccessPaths config) ->
         noneIn (operationDetected host "rm LICENSE"
                   READ_ONLY_BLOCKED "read-only path")
           (readOnlyPaths config) ->
         firstIn (operationDetected host "rm LICENSE"
                    NO_DELETE_BLOCKED "no-delete path")
           (noDeletePaths config) "LICENSE" ->
         checkBashCommand host "rm LICENSE" config
         = {| BashCheckResult.blocked := true;
              BashCheckResult.reason :=
                "Blocked: delete operation on no-delete path LICENSE";
              BashCheckResult.wasAskPattern := None |})
  /\ checkBashCommand host "rm LICENSE"
       {| bashToolPatterns := []; zeroAccessPaths := [];
          readOnlyPaths := []; noDeletePaths := ["LICENSE"] |}
     = {| BashCheckResult.blocked := true;
          BashCheckResult.reason :=
            "Blocked: delete operation on no-delete path LICENSE";
          BashCheckResult.wasAskPattern := None |}
  /\ checkPathPatterns host "echo x >> LICENSE" "LICENSE"
       NO_DELETE_BLOCKED "no-delete path"
     = {| CheckResult.blocked := false; CheckResult.reason := "" |}
  /\ (forall bp za ro pre post,
         checkBashCommand host "echo x >> LICENSE"
           {| bashToolPatterns := bp; zeroAccessPaths := za;
              readOnlyPaths := ro; noDeletePaths := pre ++ "LICENSE" :: post |}
         = checkBashCommand host "echo x >> LICENSE"
             {| bashToolPatterns := bp; zeroAccessPaths := za;
                readOnlyPaths := ro; noDeletePaths := pre ++ post |})
  /\ checkBashCommand host "echo x >> LICENSE"
       {| bashToolPatterns := []; zeroAccessPaths := [];
          readOnlyPaths := []; noDeletePaths := ["LICENSE"] |}
     = {| BashCheckResult.blocked := false;
          BashCheckResult.reason := "";
          BashCheckResult.wasAskPattern := None |}
  /\ Forall (fun t => snd t = "delete") NO_DELETE_BLOCKED.
Proof.
  intros Hf. pose proof (faithful_withReference host Hf) as Heq.
  assert (Hd : checkPathPatterns host "rm LICENSE" "LICENSE"
                 NO_DELETE_BLOCKED "no-delete path"
               = {| CheckResult.blocked := true;
                    CheckResult.reason :=
                      "Blocked: delete operation on no-delete path LICENSE" |}).
  { rewrite (checkPathPatterns_equiv _ _ Heq). vm_compute. reflexivity. }
  assert (Ha : checkPathPatterns host "echo x >> LICENSE" "LICENSE"
                 NO_DELETE_BLOCKED "no-delete path"
               = {| CheckResult.blocked := false; CheckResult.reason := "" |}).
  { rewrite (checkPathPatterns_equiv _ _ Heq). vm_compute. reflexivity. }
  split; [exact Hd|]. split.
  { intros config Hin.
    apply (no_delete_entry_blocks host _ config "LICENSE" Hin).
    unfold operationDetected. now rewrite Hd. }
  split.
  { intros config N1 N2 N3 H4. rewrite checkBashCommand_evaluateCommand.
    unfold Spec.evaluateCommand.
    rewrite (noneIn_find _ _ N1), (noneIn_find _ _ N2), (noneIn_find _ _ N3),
      (firstIn_find _ _ _ H4).
    now rewrite Hd. }
  split.
  { rewrite (checkBashCommand_equiv _ _ Heq). vm_compute. reflexivity. }
  split; [exact Ha|]. split.
  { intros bp za ro pre post. apply remove_no_delete_path.
    unfold operationDetected. now rewrite Ha. }
  split.
  { rewrite (checkBashCommand_equiv _ _ Heq). vm_compute. reflexivity. }
  repeat constructor.
Qed.

Lemma license_no_delete_blocks_rm_witness :
  Faithful Example.host
  /\ BashCheckResult.blocked
       (checkBashCommand Example.host "rm LICENSE" (Example.policy [])) = true
  /\ checkBashCommand Example.host "echo x >> LICENSE"
       {| bashToolPatterns := []; zeroAccessPaths := [];
          readOnlyPaths := []; noDeletePaths := ["LICENSE"] |}
     = {| BashCheckResult.blocked := false;
          BashCheckResult.reason := "";
          BashCheckResult.wasAskPattern := None |}.
Proof.
  pose proof (license_no_delete_blocks_rm Example.host
                (referenceHost_faithful "/home/dev"))
    as (_ & Hin & _ & _ & _ & _ & Happend & _).
  split; [apply referenceHost_faithful|].
  split; [|exact Happend].
  exact (Hin (Example.policy []) (or_introl eq_refl)).
Defined.

(* ===================================================================== *)
(** ** Which queries are blocked *)
(* ===================================================================== *)

Lemma existsb_find {A : Type} (f : A -> bool) (l : list A) :
  existsb f l = match find f l with Some _ => true | None => false end.
Proof.
  induction l as [|a l IH]; simpl; [reflexivity|].
  destruct (f a); [reflexivity|exact IH].
Qed.

Lemma existsb_incl {A : Type} (f : A -> bool) (l1 l2 : list A) :
  incl l1 l2 -> existsb f l1 = true -> existsb f l2 = true.
Proof.
  intros Hi H. apply existsb_exists in H. destruct H as (x & Hx & Hf).
  apply existsb_exists. exists x. split; [apply Hi, Hx|exact Hf].
Qed.

Lemma blocked_anyTierMatches
  (host : Host) (command : string) (config : Config) :
  BashCheckResult.blocked (checkBashCommand host command config)
  = anyTierMatches host command config.
Proof.
  rewrite checkBashCommand_evaluateCommand.
  unfold Spec.evaluateCommand, anyTierMatches. rewrite !existsb_find.
  destruct (find (bashPatternMatches host command) (bashToolPatterns config));
    [reflexivity|].
  destruct (find (zeroAccessMatches host command) (zeroAccessPaths config));
    [reflexivity|].
  destruct (find (operationDetected host command READ_ONLY_BLOCKED
                    "read-only path") (readOnlyPaths config)) as [p|] eqn:Hro.
  { apply find_some in Hro. exact (proj2 Hro). }
  destruct (find (operationDetected host command NO_DELETE_BLOCKED
                    "no-delete path") (noDeletePaths config)) as [p|] eqn:Hnd.
  { apply find_some in Hnd. exact (proj2 Hnd). }
  reflexivity.
Qed.

(** X1. A command is blocked exactly when an entry of some tier matches
    it: the order of the tiers and of their entries decides the reason,
    never the [blocked] flag. *)
Theorem blocked_iff_some_entry_matches
  (host : Host) (command : string) (config : Config) :
  BashCheckResult.blocked (checkBashCommand host command config)
  = anyTierMatches host command config.
Proof.
  apply blocked_anyTierMatches.
Qed.

Lemma anyTierMatches_included (host : Host) (command : string)
  (c1 c2 : Config) :
  policyIncluded c1 c2 ->
  anyTierMatches host command c1 = true ->
  anyTierMatches host command c2 = true.
Proof.
  intros (H1 & H2 & H3 & H4). unfold anyTierMatches.
  rewrite !orb_true_iff. intros [[[H|H]|H]|H].
  - left; left; left. exact (existsb_incl _ _ _ H1 H).
  - left; left; right. exact (existsb_incl _ _ _ H2 H).
  - left; right. exact (existsb_incl _ _ _ H3 H).
  - right. exact (existsb_incl _ _ _ H4 H).
Qed.

(** X2. Adding entries never unblocks.  When every entry of a policy is
    also, in the same tier, an entry of a second policy, every command the
    first blocks is blocked by the second; so two policies with the same
    entries in each tier, in whatever order and with whatever repetitions,
    block the same commands. *)
Theorem larger_policy_blocks_more
  (host : Host) (command : string) (c1 c2 : Config) :
  policyIncluded c1 c2 ->
  (BashCheckResult.blocked (checkBashCommand host command c1) = true ->
   BashCheckResult.blocked (checkBashCommand host command c2) = true)
  /\ (policyIncluded c2 c1 ->
      BashCheckResult.blocked (checkBashCommand host command c1)
      = BashCheckResult.blocked (checkBashCommand host command c2)).
Proof.
  intros H12. rewrite !blocked_anyTierMatches. split.
  - apply anyTierMatches_included, H12.
  - intros H21.
    destruct (anyTierMatches host command c1) eqn:E1.
    + symmetry. exact (anyTierMatches_included host command c1 c2 H12 E1).
    + destruct (anyTierMatches host command c2) eqn:E2; [|reflexivity].
      rewrite (anyTierMatches_included host command c2 c1 H21 E2) in E1.
      discriminate.
Qed.

(** The sample policy with its no-delete entries in the other order and a
    command pattern more *)
Lemma larger_policy_blocks_more_witness :
  policyIncluded (Example.policy [])
    {| bashToolPatterns := [Example.rmRecursive];
       zeroAccessPaths := [".env"; "*.pem"; "~/.ssh/"];
       readOnlyPaths := ["/etc/"; "*.lock"];
       noDeletePaths := [".git/"; "LICENSE"] |}
  /\ BashCheckResult.blocked
       (checkBashCommand Example.host "rm LICENSE" (Example.policy [])) = true
  /\ BashCheckResult.blocked
       (checkBashCommand Example.host "rm LICENSE"
          {| bashToolPatterns := [Example.rmRecursive];
             zeroAccessPaths := [".env"; "*.pem"; "~/.ssh/"];
             readOnlyPaths := ["/etc/"; "*.lock"];
             noDeletePaths := [".git/"; "LICENSE"] |}) = true.
Proof.
  assert (Hincl : policyIncluded (Example.policy [])
                    {| bashToolPatterns := [Example.rmRecursive];
                       zeroAccessPaths := [".env"; "*.pem"; "~/.ssh/"];
                       readOnlyPaths := ["/etc/"; "*.lock"];
                       noDeletePaths := [".git/"; "LICENSE"] |}).
  { repeat split; intros x Hx; simpl in *; tauto. }
  split; [exact Hincl|].
  assert (Hb : BashCheckResult.blocked
                 (checkBashCommand Example.host "rm LICENSE" (Example.policy []))
               = true) by (vm_compute; reflexivity).
  split; [exact Hb|].
  exact (proj1 (larger_policy_blocks_more Example.host "rm LICENSE" _ _ Hincl)
           Hb).
Defined.

Section FileLoops.

Variable host : Host.
Variable filePath : string.

Lemma checkZeroAccessFile_find (paths : list string) :
  checkZeroAccessFile host filePath paths
  = option_map
      (fun z => {| CheckResult.blocked := true;
                   CheckResult.reason :=
                     "zero-access path " ++ z ++ " (no operations allowed)" |})
      (find (matchPath host filePath) paths).
Proof.
  induction paths as [|z rest IH]; [reflexivity|].
  cbn [checkZeroAccessFile find].
  destruct (matchPath host filePath z); [reflexivity|exact IH].
Qed.

Lemma checkReadOnlyFile_find (paths : list string) :
  checkReadOnlyFile host filePath paths
  = option_map
      (fun p => {| CheckResult.blocked := true;
                   CheckResult.reason := "read-only path " ++ p |})
      (find (matchPath host filePath) paths).
Proof.
  induction paths as [|z rest IH]; [reflexivity|].
  cbn [checkReadOnlyFile find].
  destruct (matchPath host filePath z); [reflexivity|exact IH].
Qed.

End FileLoops.

Lemma checkFilePath_blocked_existsb
  (host : Host) (filePath : string) (config : Config) :
  CheckResult.blocked (checkFilePath host filePath config)
  = existsb (matchPath host filePath) (zeroAccessPaths config)
    || existsb (matchPath host filePath) (readOnlyPaths config).
Proof.
  unfold checkFilePath.
  rewrite checkZeroAccessFile_find, checkReadOnlyFile_find, !existsb_find.
  destruct (find (matchPath host filePath) (zeroAccessPaths config));
    [reflexivity|].
  now destruct (find (matchPath host filePath) (readOnlyPaths config)).
Qed.

Lemma zero_only_blocked_same_verdict
  (host : Host) (filePath : string) (config : Config) :
  CheckResult.blocked (checkFilePathZeroAccessOnly host filePath config) = true ->
  checkFilePath host filePath config
  = checkFilePathZeroAccessOnly host filePath config.
Proof.
  unfold checkFilePath, checkFilePathZeroAccessOnly.
  destruct (checkZeroAccessFile host filePath (zeroAccessPaths config));
    [reflexivity|discriminate].
Qed.

(** X3. A path is blocked for writing exactly when a zero-access or a
    read-only entry matches it.  A blocked verdict names a matching entry:
    the first matching zero-access entry if there is one, else the first
    matching read-only entry; an allowed verdict has the empty reason. *)
Theorem file_blocked_iff_some_entry_matches
  (host : Host) (filePath : string) (config : Config) :
  CheckResult.blocked (checkFilePath host filePath config)
  = existsb (matchPath host filePath) (zeroAccessPaths config)
    || existsb (matchPath host filePath) (readOnlyPaths config)
  /\ ((exists z,
         firstIn (matchPath host filePath) (zeroAccessPaths config) z
         /\ checkFilePath host filePath config
            = {| CheckResult.blocked := true;
                 CheckResult.reason :=
                   "zero-access path " ++ z ++ " (no operations allowed)" |})
      \/ (exists p,
            noneIn (matchPath host filePath) (zeroAccessPaths config)
            /\ firstIn (matchPath host filePath) (readOnlyPaths config) p
            /\ checkFilePath host filePath config
               = {| CheckResult.blocked := true;
                    CheckResult.reason := "read-only path " ++ p |})
      \/ (noneIn (matchPath host filePath) (zeroAccessPaths config)
          /\ noneIn (matchPath host filePath) (readOnlyPaths config)
          /\ checkFilePath host filePath config
             = {| CheckResult.blocked := false; CheckResult.reason := "" |})).
Proof.
  unfold checkFilePath.
  rewrite checkZeroAccessFile_find, checkReadOnlyFile_find, !existsb_find.
  destruct (find (matchPath host filePath) (zeroAccessPaths config))
    as [z|] eqn:Hz.
  { split; [reflexivity|]. left. exists z.
    split; [now apply find_first_split|reflexivity]. }
  destruct (find (matchPath host filePath) (readOnlyPaths config))
    as [p|] eqn:Hp.
  { split; [reflexivity|]. right; left. exists p.
    split; [exact (find_none _ _ Hz)|].
    split; [now apply find_first_split|reflexivity]. }
  split; [reflexivity|]. right; right.
  split; [exact (find_none _ _ Hz)|].
  split; [exact (find_none _ _ Hp)|reflexivity].
Qed.

(** X4. Writing is at least as guarded as reading: a path that the read
    check blocks gets the very same verdict from the write check, and a
    path the write check allows is allowed by the read check. *)
Theorem read_blocked_implies_write_blocked
  (host : Host) (filePath : string) (config : Config) :
  (CheckResult.blocked (checkFilePathZeroAccessOnly host filePath config) = true ->
   checkFilePath host filePath config
   = checkFilePathZeroAccessOnly host filePath config)
  /\ (CheckResult.blocked (checkFilePath host filePath config) = false ->
      checkFilePathZeroAccessOnly host filePath config = notBlocked).
Proof.
  unfold checkFilePath, checkFilePathZeroAccessOnly.
  destruct (checkZeroAccessFile host filePath (zeroAccessPaths config))
    as [r|] eqn:Hz.
  - split; [reflexivity|].
    rewrite checkZeroAccessFile_find in Hz.
    destruct (find (matchPath host filePath) (zeroAccessPaths config));
      [|discriminate].
    injection Hz as <-. discriminate.
  - split; [discriminate|reflexivity].
Qed.

Lemma read_blocked_implies_write_blocked_witness :
  CheckResult.blocked
    (checkFilePathZeroAccessOnly Example.host "~/.ssh/id_rsa"
       (Example.policy [])) = true
  /\ checkFilePath Example.host "~/.ssh/id_rsa" (Example.policy [])
     = checkFilePathZeroAccessOnly Example.host "~/.ssh/id_rsa"
         (Example.policy []).
Proof.
  assert (Hb : CheckResult.blocked
                 (checkFilePathZeroAccessOnly Example.host "~/.ssh/id_rsa"
                    (Example.policy [])) = true) by (vm_compute; reflexivity).
  split; [exact Hb|].
  exact (proj1 (read_blocked_implies_write_blocked Example.host
                  "~/.ssh/id_rsa" (Example.policy [])) Hb).
Defined.

(* ===================================================================== *)
(** ** Strings: prefixes, substrings, the home directory *)
(* ===================================================================== *)

Lemma append_assoc (a b c : string) : (a ++ b) ++ c = a ++ (b ++ c).
Proof. induction a as [|x a IH]; simpl; [reflexivity|now rewrite IH]. Qed.

Lemma append_empty_r (a : string) : a ++ "" = a.
Proof. induction a as [|x a IH]; simpl; [reflexivity|now rewrite IH]. Qed.

Lemma startsWith_app (p s : string) : JS.startsWith (p ++ s) p = true.
Proof.
  induction p as [|c p IH]; simpl; [apply startsWith_empty|].
  now rewrite Ascii.eqb_refl, IH.
Qed.

Lemma startsWith_inv (s p : string) :
  JS.startsWith s p = true -> exists t, s = p ++ t.
Proof.
  revert s. induction p as [|c p IH]; intros s H.
  - exists s. reflexivity.
  - destruct s as [|d s]; simpl in H; [discriminate|].
    apply andb_true_iff in H. destruct H as [Hc Hs].
    apply Ascii.eqb_eq in Hc. subst d.
    destruct (IH s Hs) as [t ->]. exists t. reflexivity.
Qed.

Lemma includes_of_startsWith (s sub : string) :
  JS.startsWith s sub = true -> JS.includes s sub = true.
Proof.
  intros H. destruct s; cbn [JS.includes]; now rewrite H.
Qed.

Lemma includes_app (a z b : string) : JS.includes (a ++ z ++ b) z = true.
Proof.
  induction a as [|c a IH].
  - change ("" ++ z ++ b) with (z ++ b).
    apply includes_of_startsWith. apply startsWith_app.
  - change ((String c a) ++ z ++ b) with (String c (a ++ z ++ b)).
    cbn [JS.includes]. rewrite IH. apply orb_true_r.
Qed.

Lemma getSubstitution_noDollar (matched before after template : string) :
  noDollar template = true ->
  JS.getSubstitution matched before after template = template.
Proof.
  unfold noDollar. induction template as [|c t IH]; [reflexivity|].
  cbn [JS.includesChar JS.getSubstitution].
  rewrite negb_true_iff, orb_false_iff. intros [Hc Ht].
  rewrite Ascii.eqb_sym in Hc. rewrite Hc.
  rewrite IH; [reflexivity|now rewrite Ht].
Qed.

Lemma replaceLeadingTilde_tilde (rest home : string) :
  noDollar home = true ->
  JS.replaceLeadingTilde (String "~" rest) home = home ++ rest.
Proof.
  intros H. unfold JS.replaceLeadingTilde. rewrite Ascii.eqb_refl.
  now rewrite getSubstitution_noDollar.
Qed.

Lemma replaceLeadingTilde_noTilde (s home : string) :
  noTilde s = true -> JS.replaceLeadingTilde s home = s.
Proof.
  destruct s as [|c s]; [reflexivity|]. simpl.
  now destruct (Ascii.eqb c "~").
Qed.

Lemma stripTrailingSlash_app (d : string) : JS.stripTrailingSlash (d ++ "/") = d.
Proof.
  induction d as [|c d IH]; [reflexivity|].
  change (String c d ++ "/") with (String c (d ++ "/")).
  cbn [JS.stripTrailingSlash]. rewrite IH.
  destruct (d ++ "/") eqn:E; [|reflexivity].
  destruct d; discriminate.
Qed.

Lemma list_ascii_of_string_app (a b : string) :
  list_ascii_of_string (a ++ b)
  = (list_ascii_of_string a ++ list_ascii_of_string b)%list.
Proof. induction a as [|c a IH]; simpl; [reflexivity|now rewrite IH]. Qed.

Lemma includesChar_In (s : string) (c : ascii) :
  JS.includesChar s c = false -> ~ In c (list_ascii_of_string s).
Proof.
  induction s as [|d s IH]; simpl; [tauto|].
  rewrite orb_false_iff. intros [Hd Hs] [<-|Hin].
  - now rewrite Ascii.eqb_refl in Hd.
  - now apply IH.
Qed.

Lemma takeComponent_app (l tail : list ascii) :
  ~ In "/"%char l ->
  Path.takeComponent (l ++ "/"%char :: tail) = l.
Proof.
  induction l as [|c l IH]; simpl; intros H; [reflexivity|].
  destruct (Ascii.eqb c "/") eqn:E.
  - apply Ascii.eqb_eq in E. subst c. tauto.
  - rewrite IH; [reflexivity|tauto].
Qed.

(** The last component of [x/name] is [name]. *)
Lemma basename_app (x name : string) :
  name <> "" -> noSlash name = true ->
  Path.basename (x ++ "/" ++ name) = name.
Proof.
  intros Hne Hns. unfold Path.basename.
  assert (E : rev (list_ascii_of_string (x ++ "/" ++ name))
              = (rev (list_ascii_of_string name)
                 ++ "/"%char :: rev (list_ascii_of_string x))%list).
  { rewrite !list_ascii_of_string_app.
    change (list_ascii_of_string "/") with ["/"%char].
    rewrite rev_app_distr. cbn [app rev]. now rewrite <- app_assoc. }
  rewrite E. clear E.
  assert (Hno : ~ In "/"%char (rev (list_ascii_of_string name))).
  { intros Hin. apply in_rev in Hin. revert Hin. apply includesChar_In.
    unfold noSlash in Hns. now apply negb_true_iff in Hns. }
  assert (Hdrop : forall l tail,
             l <> [] -> ~ In "/"%char l ->
             Path.dropSlashes (l ++ tail) = (l ++ tail)%list).
  { intros [|c l] tail Hl Hin; [congruence|]. simpl.
    destruct (Ascii.eqb c "/") eqn:E; [|reflexivity].
    apply Ascii.eqb_eq in E. subst c. simpl in Hin. tauto. }
  rewrite Hdrop; [|intros E|exact Hno].
  - rewrite takeComponent_app by exact Hno.
    rewrite rev_involutive. apply string_of_list_ascii_of_string.
  - apply (f_equal (@rev ascii)) in E. rewrite rev_involutive in E.
    simpl in E. destruct name; [congruence|discriminate].
Qed.

(* ===================================================================== *)
(** ** What a path specifier covers *)
(* ===================================================================== *)

Lemma matchPath_literal_extension (host : Host) (p s : string) :
  isGlobPattern p = false ->
  noDollar (homedir host) = true ->
  matchPath host (p ++ s) p = true.
Proof.
  intros Hg Hd. unfold matchPath. rewrite Hg.
  destruct p as [|c r].
  - change (JS.replaceLeadingTilde "" (homedir host)) with "".
    now rewrite startsWith_empty.
  - change (String c r ++ s) with (String c (r ++ s)).
    destruct (Ascii.eqb c "~") eqn:E.
    + apply Ascii.eqb_eq in E. subst c.
      rewrite !replaceLeadingTilde_tilde by exact Hd.
      rewrite <- append_assoc. now rewrite startsWith_app.
    + rewrite !replaceLeadingTilde_noTilde by (simpl; now rewrite E).
      change (String c (r ++ s)) with (String c r ++ s).
      now rewrite startsWith_app.
Qed.

(** X5. A literal specifier covers every path that extends it.  For a
    specifier without wildcard (and a home directory without dollar sign),
    every path made of the specifier followed by anything matches, with or
    without a separator in between; so a policy that lists the specifier as
    zero-access blocks such a path for reading and writing, and one that
    lists it as read-only blocks it for writing. *)
Theorem literal_specifier_covers_extensions
  (host : Host) (p s : string) (config : Config) :
  isGlobPattern p = false ->
  noDollar (homedir host) = true ->
  matchPath host (p ++ s) p = true
  /\ (In p (zeroAccessPaths config) ->
      CheckResult.blocked
        (checkFilePathZeroAccessOnly host (p ++ s) config) = true)
  /\ (In p (zeroAccessPaths config) \/ In p (readOnlyPaths config) ->
      CheckResult.blocked (checkFilePath host (p ++ s) config) = true).
Proof.
  intros Hg Hd.
  pose proof (matchPath_literal_extension host p s Hg Hd) as Hm.
  split; [exact Hm|]. split.
  - intros Hin.
    destruct (zero_access_file_blocks host _ _ _ Hin Hm) as (r & Hr & Hb).
    unfold checkFilePathZeroAccessOnly. now rewrite Hr.
  - intros Hin.
    rewrite checkFilePath_blocked_existsb.
    apply orb_true_iff.
    destruct Hin as [Hin|Hin]; [left|right];
      apply existsb_exists; exists p; auto.
Qed.

(** The entry [/etc/] covers [/etc/ssh/sshd_config]; the entry [/etc]
    would cover [/etcetera] too. *)
Lemma literal_specifier_covers_extensions_witness :
  CheckResult.blocked
    (checkFilePath Example.host ("/etc/" ++ "ssh/sshd_config")
       (Example.policy [])) = true
  /\ matchPath Example.host ("/etc" ++ "etera") "/etc" = true.
Proof.
  split.
  - apply (literal_specifier_covers_extensions Example.host "/etc/"
             "ssh/sshd_config" (Example.policy []) eq_refl eq_refl).
    right. left. reflexivity.
  - exact (proj1 (literal_specifier_covers_extensions Example.host "/etc"
                    "etera" (Example.policy []) eq_refl eq_refl)).
Defined.

(** X6. A directory specifier.  A literal specifier that ends in a
    separator, [d/], matches a path (neither beginning with a tilde)
    exactly when the path is [d] itself or begins with [d/]. *)
Theorem directory_specifier_matches_subtree
  (host : Host) (filePath d : string) :
  isGlobPattern (d ++ "/") = false ->
  noTilde (d ++ "/") = true ->
  noTilde filePath = true ->
  matchPath host filePath (d ++ "/")
  = String.eqb filePath d || JS.startsWith filePath (d ++ "/").
Proof.
  intros Hg Hd Hf. unfold matchPath. rewrite Hg.
  rewrite !replaceLeadingTilde_noTilde by assumption.
  rewrite stripTrailingSlash_app.
  destruct (JS.startsWith filePath (d ++ "/")), (String.eqb filePath d);
    reflexivity.
Qed.

Lemma directory_specifier_matches_subtree_witness :
  matchPath Example.host "node_modules" ("node_modules" ++ "/") = true
  /\ matchPath Example.host "node_modules.bak" ("node_modules" ++ "/") = false.
Proof.
  split.
  - rewrite (directory_specifier_matches_subtree Example.host "node_modules"
               "node_modules" eq_refl eq_refl eq_refl).
    reflexivity.
  - rewrite (directory_specifier_matches_subtree Example.host
               "node_modules.bak" "node_modules" eq_refl eq_refl eq_refl).
    reflexivity.
Defined.

(** X7. A relative literal specifier never matches an absolute path.  A
    literal specifier that begins neither with a separator nor with a
    tilde matches by prefix only: no path that begins with a separator
    matches it, whatever its last component; listed alone, the specifier
    leaves every absolute path allowed on both path surfaces. *)
Theorem relative_literal_misses_absolute_paths
  (host : Host) (c : ascii) (rest filePath : string) :
  isGlobPattern (String c rest) = false ->
  Ascii.eqb c "/" = false ->
  Ascii.eqb c "~" = false ->
  matchPath host (String "/" filePath) (String c rest) = false
  /\ checkFilePath host (String "/" filePath)
       {| bashToolPatterns := []; zeroAccessPaths := [String c rest];
          readOnlyPaths := [String c rest]; noDeletePaths := [] |}
     = notBlocked
  /\ checkFilePathZeroAccessOnly host (String "/" filePath)
       {| bashToolPatterns := []; zeroAccessPaths := [String c rest];
          readOnlyPaths := []; noDeletePaths := [] |}
     = notBlocked.
Proof.
  intros Hg Hs Ht.
  assert (Hm : matchPath host (String "/" filePath) (String c rest) = false).
  { unfold matchPath. rewrite Hg.
    rewrite (replaceLeadingTilde_noTilde (String c rest))
      by (simpl; now rewrite Ht).
    rewrite (replaceLeadingTilde_noTilde (String "/" filePath)) by reflexivity.
    cbn [JS.startsWith]. rewrite Hs. cbn [andb orb].
    assert (Hstrip : exists t, JS.stripTrailingSlash (String c rest)
                               = String c t).
    { cbn [JS.stripTrailingSlash]. destruct rest as [|d rest'].
      - rewrite Hs. eauto.
      - eauto. }
    destruct Hstrip as [t ->]. cbn [String.eqb].
    rewrite Ascii.eqb_sym, Hs. reflexivity. }
  split; [exact Hm|].
  unfold checkFilePath, checkFilePathZeroAccessOnly.
  cbn [zeroAccessPaths readOnlyPaths checkZeroAccessFile checkReadOnlyFile].
  rewrite Hm. split; reflexivity.
Qed.

(** The entry [.env] does not cover [/srv/app/.env]. *)
Lemma relative_literal_misses_absolute_paths_witness :
  matchPath Example.host "/srv/app/.env" ".env" = false.
Proof.
  exact (proj1 (relative_literal_misses_absolute_paths Example.host
                  "." "env" "srv/app/.env" eq_refl eq_refl eq_refl)).
Defined.

Lemma matchPath_glob_name (host : Host) (glob name dir : string) :
  isGlobPattern glob = true ->
  name <> "" ->
  noSlash name = true ->
  matchGlob host name glob = true ->
  matchPath host (dir ++ "/" ++ name) glob = true.
Proof.
  intros Hg Hne Hns Hm. unfold matchPath. rewrite Hg.
  assert (Hx : exists x,
             JS.replaceLeadingTilde (dir ++ "/" ++ name) (homedir host)
             = x ++ "/" ++ name).
  { destruct dir as [|c r]; [exists ""; reflexivity|].
    change (String c r ++ "/" ++ name) with (String c (r ++ "/" ++ name)).
    unfold JS.replaceLeadingTilde.
    destruct (Ascii.eqb c "~").
    - eexists. rewrite <- append_assoc. reflexivity.
    - exists (String c r). reflexivity. }
  destruct Hx as [x ->].
  rewrite (basename_app x name Hne Hns), Hm.
  now rewrite orb_true_r.
Qed.



(** X9. A path under the home directory is judged alike in its two
    spellings.  With a home directory without dollar sign, and provided
    that the home directory followed by [r] does not itself begin with a
    tilde (as with every home directory that is an absolute path), the
    path [~r] and the path made of the home directory followed by [r]
    match the same specifiers and get the same verdicts on both path
    surfaces. *)
Theorem tilde_path_is_home_path
  (host : Host) (r : string) (config : Config) :
  noDollar (homedir host) = true ->
  noTilde (homedir host ++ r) = true ->
  (forall pattern,
      matchPath host (String "~" r) pattern
      = matchPath host (homedir host ++ r) pattern)
  /\ checkFilePath host (String "~" r) config
     = checkFilePath host (homedir host ++ r) config
  /\ checkFilePathZeroAccessOnly host (String "~" r) config
     = checkFilePathZeroAccessOnly host (homedir host ++ r) config.
Proof.
  intros Hd Ht.
  assert (Hm : forall pattern,
             matchPath host (String "~" r) pattern
             = matchPath host (homedir host ++ r) pattern).
  { intros pattern. unfold matchPath.
    rewrite (replaceLeadingTilde_tilde r _ Hd).
    now rewrite (replaceLeadingTilde_noTilde _ _ Ht). }
  split; [exact Hm|].
  unfold checkFilePath, checkFilePathZeroAccessOnly.
  rewrite !checkZeroAccessFile_find, !checkReadOnlyFile_find.
  rewrite (find_ext_all _ _ (zeroAccessPaths config) Hm).
  rewrite (find_ext_all _ _ (readOnlyPaths config) Hm).
  split; reflexivity.
Qed.

Lemma tilde_path_is_home_path_witness :
  checkFilePath Example.host "~/.ssh/id_rsa" (Example.policy [])
  = checkFilePath Example.host "/home/dev/.ssh/id_rsa" (Example.policy [])
  /\ CheckResult.blocked
       (checkFilePath Example.host "/home/dev/.ssh/id_rsa" (Example.policy []))
     = true.
Proof.
  split; [|vm_compute; reflexivity].
  exact (proj1 (proj2 (tilde_path_is_home_path Example.host "/.ssh/id_rsa"
                         (Example.policy []) eq_refl eq_refl))).
Defined.

(** X10. A literal zero-access entry blocks every command that mentions
    it.  For an entry without wildcard, every command that contains the
    entry as typed, or with its leading tilde replaced by the home
    directory, is blocked, whatever the command does and whatever stands
    around the entry. *)
Theorem literal_zero_access_blocks_any_mention
  (host : Host) (zeroPath before after : string) (config : Config) :
  isGlobPattern zeroPath = false ->
  In zeroPath (zeroAccessPaths config) ->
  BashCheckResult.blocked
    (checkBashCommand host (before ++ zeroPath ++ after) config) = true
  /\ BashCheckResult.blocked
       (checkBashCommand host
          (before ++ JS.replaceLeadingTilde zeroPath (homedir host) ++ after)
          config) = true.
Proof.
  intros Hg Hin. split.
  - apply (zero_access_entry_blocks host _ config zeroPath Hin).
    unfold zeroAccessMatches. rewrite Hg, includes_app. apply orb_true_r.
  - apply (zero_access_entry_blocks host _ config zeroPath Hin).
    unfold zeroAccessMatches. now rewrite Hg, includes_app.
Qed.

(** The entry [.env] blocks a command that only mentions [.environment]. *)
Lemma literal_zero_access_blocks_any_mention_witness :
  BashCheckResult.blocked
    (checkBashCommand Example.host ("echo docs/" ++ ".env" ++ "ironment.md")
       (Example.policy [])) = true
  /\ BashCheckResult.blocked
       (checkBashCommand Example.host
          ("ls " ++ JS.replaceLeadingTilde "~/.ssh/" (homedir Example.host)
           ++ "")
          (Example.policy [])) = true.
Proof.
  split.
  - apply (literal_zero_access_blocks_any_mention Example.host ".env"
             "echo docs/" "ironment.md" (Example.policy []) eq_refl).
    left. reflexivity.
  - apply (literal_zero_access_blocks_any_mention Example.host "~/.ssh/"
             "ls " "" (Example.policy []) eq_refl).
    right. right. left. reflexivity.
Defined.

(* ===================================================================== *)
(** ** The operation templates *)
(* ===================================================================== *)

Section Templates.

Variable host : Host.
Variable command : string.

Lemma checkGlobTemplates_find (path pathType globRegex : string)
  (patterns : list PatternTuple) :
  checkGlobTemplates host command path pathType globRegex patterns
  = option_map (fun t => blockedOperation (snd t) pathType path)
      (find (globTemplateFires host command globRegex) patterns).
Proof.
  induction patterns as [|[template operation] rest IH]; [reflexivity|].
  cbn [checkGlobTemplates find]. unfold globTemplateFires at 1.
  cbn [fst snd].
  destruct (JS.truthy (JS.replace template "{path}" ""));
    cbn [andb try_catch]; [|exact IH].
  destruct (RegExp_new host (JS.replace template "{path}" "" ++ globRegex) "i")
    as [regex|err]; cbn [bind try_catch]; [|exact IH].
  destruct (RegExp_test host regex command); [reflexivity|exact IH].
Qed.

Lemma checkLiteralTemplates_find
  (path pathType escapedExpanded escapedOriginal : string)
  (patterns : list PatternTuple) :
  checkLiteralTemplates host command path pathType
    escapedExpanded escapedOriginal patterns
  = option_map (fun t => blockedOperation (snd t) pathType path)
      (find (literalTemplateFires host command escapedExpanded escapedOriginal)
         patterns).
Proof.
  induction patterns as [|[template operation] rest IH]; [reflexivity|].
  cbn [checkLiteralTemplates find]. unfold literalTemplateFires at 1.
  cbn [fst snd].
  destruct (RegExp_new host (JS.replace template "{path}" escapedExpanded) "")
    as [re|err]; cbn [bind try_catch]; [|exact IH].
  destruct (RegExp_new host (JS.replace template "{path}" escapedOriginal) "")
    as [ro|err]; cbn [bind try_catch]; [|exact IH].
  destruct (RegExp_test host re command || RegExp_test host ro command);
    [reflexivity|exact IH].
Qed.

Lemma checkPathPatterns_find (path : string) (patterns : list PatternTuple)
  (pathType : string) :
  checkPathPatterns host command path patterns pathType
  = match find (templateFires host command path) patterns with
    | Some t => blockedOperation (snd t) pathType path
    | None => notBlocked
    end.
Proof.
  unfold checkPathPatterns.
  rewrite (find_ext_all (templateFires host command path)
             (if isGlobPattern path
              then globTemplateFires host command (globToRegex path)
              else literalTemplateFires host command
                     (JS.escapeChars ".*+?^${}()|[]\"
                        (JS.replaceLeadingTilde path (homedir host)))
                     (JS.escapeChars ".*+?^${}()|[]\" path)))
    by (intros t; unfold templateFires; now destruct (isGlobPattern path)).
  destruct (isGlobPattern path).
  - rewrite checkGlobTemplates_find.
    now destruct (find _ patterns).
  - rewrite checkLiteralTemplates_find.
    now destruct (find _ patterns).
Qed.

Lemma operationDetected_existsb (path : string)
  (patterns : list PatternTuple) (pathType : string) :
  operationDetected host command patterns pathType path
  = existsb (templateFires host command path) patterns.
Proof.
  unfold operationDetected. rewrite checkPathPatterns_find, existsb_find.
  now destruct (find _ patterns).
Qed.

End Templates.

(** X11. The verdict of [checkPathPatterns] names the first template that
    detects.  Either some template of the set detects its operation on the
    path, and the verdict is blocked with the reason built from the
    operation of the first such template in the order of the set; or none
    does, and the verdict is the allowed one with the empty reason.  Under
    the read-only set the operation is one of the ten operation names. *)
Theorem path_verdict_names_first_detecting_template
  (host : Host) (command path : string) (patterns : list PatternTuple)
  (pathType : string) :
  ((exists t,
       firstIn (templateFires host command path) patterns t
       /\ checkPathPatterns host command path patterns pathType
          = {| CheckResult.blocked := true;
               CheckResult.reason :=
                 "Blocked: " ++ snd t ++ " operation on " ++ pathType
                 ++ " " ++ path |})
   \/ (noneIn (templateFires host command path) patterns
       /\ checkPathPatterns host command path patterns pathType
          = {| CheckResult.blocked := false; CheckResult.reason := "" |}))
  /\ (CheckResult.blocked
        (checkPathPatterns host command path READ_ONLY_BLOCKED pathType) = true ->
      exists operation,
        In operation operationNames
        /\ CheckResult.reason
             (checkPathPatterns host command path READ_ONLY_BLOCKED pathType)
           = "Blocked: " ++ operation ++ " operation on " ++ pathType
             ++ " " ++ path).
Proof.
  split.
  - rewrite checkPathPatterns_find.
    destruct (find (templateFires host command path) patterns) as [t|] eqn:Hf.
    + left. exists t. split; [now apply find_first_split|reflexivity].
    + right. split; [exact (find_none _ _ Hf)|reflexivity].
  - rewrite checkPathPatterns_find.
    destruct (find (templateFires host command path) READ_ONLY_BLOCKED)
      as [t|] eqn:Hf; [|discriminate].
    intros _. exists (snd t). split; [|reflexivity].
    apply find_some in Hf. destruct Hf as [Hin _].
    unfold READ_ONLY_BLOCKED, WRITE_PATTERNS, APPEND_PATTERNS, EDIT_PATTERNS,
      MOVE_COPY_PATTERNS, DELETE_PATTERNS, PERMISSION_PATTERNS,
      TRUNCATE_PATTERNS in Hin.
    cbn [app In] in Hin. unfold operationNames. cbn [In].
    repeat (destruct Hin as [<-|Hin]; [cbn [snd]; tauto|]).
    destruct Hin.
Qed.

(** X12. The read-only tier is at least as strict as the no-delete tier.
    Whatever the delete templates detect on a path, the read-only
    templates detect too; so a command that would be blocked for a path
    listed as no-delete is blocked when the path is listed as read-only
    instead. *)
Theorem read_only_covers_no_delete
  (host : Host) (command path : string) (config : Config) :
  operationDetected host command NO_DELETE_BLOCKED "no-delete path" path
  = true ->
  operationDetected host command READ_ONLY_BLOCKED "read-only path" path
  = true
  /\ (In path (readOnlyPaths config) ->
      BashCheckResult.blocked (checkBashCommand host command config) = true).
Proof.
  rewrite !operationDetected_existsb. intros H.
  assert (Hro : existsb (templateFires host command path) READ_ONLY_BLOCKED
                = true).
  { revert H. apply existsb_incl. intros t Ht.
    unfold READ_ONLY_BLOCKED, NO_DELETE_BLOCKED in *.
    do 4 (apply in_or_app; right). apply in_or_app. left. exact Ht. }
  split; [exact Hro|]. intros Hin.
  apply (read_only_entry_blocks host command config path Hin).
  now rewrite operationDetected_existsb.
Qed.

Lemma read_only_covers_no_delete_witness :
  operationDetected Example.host "shred -u /etc/shadow" NO_DELETE_BLOCKED
    "no-delete path" "/etc/" = true
  /\ BashCheckResult.blocked
       (checkBashCommand Example.host "shred -u /etc/shadow"
          (Example.policy [])) = true.
Proof.
  assert (Hd : operationDetected Example.host "shred -u /etc/shadow"
                 NO_DELETE_BLOCKED "no-delete path" "/etc/" = true)
    by (vm_compute; reflexivity).
  split; [exact Hd|].
  apply (read_only_covers_no_delete Example.host "shred -u /etc/shadow"
           "/etc/" (Example.policy []) Hd).
  left. reflexivity.
Defined.

(* ===================================================================== *)
(** ** Loading the configuration *)
(* ===================================================================== *)

(** X13. The cache of [loadConfig] is sticky.  Once a call has read and
    parsed the file, every later call returns the configuration of that
    first read, for whatever plugin directory and whatever the file system
    holds by then, and writes nothing; only after [reloadConfig] does a
    call read the file system again. *)
Theorem loaded_configuration_is_cached
  (env : Env) (pluginDir content : string) (document : PartialConfig.t) :
  existsSync env (join env pluginDir "patterns.yaml") = true ->
  readFileSync env (join env pluginDir "patterns.yaml") = Normal content ->
  parseYaml env content = Normal (Some document) ->
  loadConfig env pluginDir None
  = {| returned := Normal (withDefaults document);
       cachedConfig := Some (withDefaults document);
       stderr := [] |}
  /\ (forall env' pluginDir',
         loadConfig env' pluginDir'
           (cachedConfig (loadConfig env pluginDir None))
         = {| returned := Normal (withDefaults document);
              cachedConfig := Some (withDefaults document);
              stderr := [] |})
  /\ (forall env' pluginDir',
         loadConfig env' pluginDir'
           (reloadConfig (cachedConfig (loadConfig env pluginDir None)))
         = loadConfig env' pluginDir' None).
Proof.
  intros He Hr Hp.
  assert (H : loadConfig env pluginDir None
              = {| returned := Normal (withDefaults document);
                   cachedConfig := Some (withDefaults document);
                   stderr := [] |}).
  { unfold loadConfig. now rewrite He, Hr, Hp. }
  rewrite H. repeat split.
Qed.

(** The file is read once; a second call for another directory, with the
    file gone, still returns its configuration. *)
Lemma loaded_configuration_is_cached_witness :
  returned (loadConfig (ExampleEnv.env false) "/elsewhere"
              (cachedConfig
                 (loadConfig (ExampleEnv.env true) "/plugins/damage-control"
                    None)))
  = Normal {| bashToolPatterns := [Example.rmRecursive];
              zeroAccessPaths := [".env"];
              readOnlyPaths := [];
              noDeletePaths := [] |}.
Proof.
  exact (f_equal returned
           (proj1 (proj2 (loaded_configuration_is_cached (ExampleEnv.env true)
                            "/plugins/damage-control"
                            "zeroAccessPaths: ['.env']" ExampleEnv.document
                            eq_refl eq_refl eq_refl))
              (ExampleEnv.env false) "/elsewhere")).
Defined.




(** X15. The cache holds what was returned.  After any call of
    [loadConfig], a filled cache holds exactly the configuration the call
    returned, and a call that throws (the file cannot be read, the parser
    throws, or the document is [null]) leaves the cache empty, so that the
    failure is not remembered. *)
Theorem cache_holds_returned_configuration
  (env : Env) (pluginDir : string) (cached : option Config) :
  (forall config,
      cachedConfig (loadConfig env pluginDir cached) = Some config ->
      returned (loadConfig env pluginDir cached) = Normal config)
  /\ (forall err,
         returned (loadConfig env pluginDir cached) = Throw err ->
         cached = None
         /\ cachedConfig (loadConfig env pluginDir cached) = None)
  /\ (forall content,
         cached = None ->
         existsSync env (join env pluginDir "patterns.yaml") = true ->
         readFileSync env (join env pluginDir "patterns.yaml")
         = Normal content ->
         parseYaml env content = Normal None ->
         returned (loadConfig env pluginDir cached) = Throw "TypeError").
Proof.
  split; [|split].
  - intros config. unfold loadConfig.
    destruct cached as [c|]; cbn; [now intros [= <-]|].
    destruct (existsSync env _); cbn; [|discriminate].
    destruct (readFileSync env _) as [content|]; cbn; [|discriminate].
    destruct (parseYaml env content) as [[d|]|]; cbn; try discriminate.
    now intros [= <-].
  - intros err. unfold loadConfig.
    destruct cached as [c|]; cbn; [discriminate|].
    destruct (existsSync env _); cbn; [|discriminate].
    destruct (readFileSync env _) as [content|]; cbn; [|now split].
    destruct (parseYaml env content) as [[d|]|]; cbn;
      try discriminate; now split.
  - intros content -> He Hr Hp. unfold loadConfig. now rewrite He, Hr, Hp.
Qed.

(* ===================================================================== *)
(** ** The hook *)
(* ===================================================================== *)

Lemma andThen_ret_r (e : Plugin.effect unit) :
  Plugin.andThen e (fun _ => Plugin.ret tt) = e.
Proof.
  destruct e as [logs [[]|err]]; cbn; [|reflexivity].
  now rewrite app_nil_r.
Qed.

Lemma andThen_ret_l {B : Type} (k : unit -> Plugin.effect B) :
  Plugin.andThen (Plugin.ret tt) k = k tt.
Proof.
  unfold Plugin.andThen, Plugin.ret. now destruct (k tt).
Qed.

Ltac tool_cases tool :=
  destruct (String.eqb_spec tool "bash") as [->|?];
  [|destruct (String.eqb_spec tool "write") as [->|?];
    [|destruct (String.eqb_spec tool "edit") as [->|?];
      [|destruct (String.eqb_spec tool "patch") as [->|?];
        [|destruct (String.eqb_spec tool "read") as [->|?];
          [|destruct (String.eqb_spec tool "glob") as [->|?];
            [|destruct (String.eqb_spec tool "grep") as [->|?];
              [|destruct (String.eqb_spec tool "list") as [->|?]]]]]]]].

(** At most one of the four blocks of the hook is entered. *)
Lemma hook_cases (host : Host) (config : Config) (tool : string)
  (args : Plugin.Args) :
  Plugin.tool_execute_before host config tool args
  = if String.eqb tool "bash" then Plugin.bashTool host config tool args
    else if isWriteTool tool then Plugin.writeTools host config tool args
    else if String.eqb tool "read" then Plugin.readTool host config tool args
    else if isListTool tool then Plugin.listTools host config tool args
    else Plugin.ret tt.
Proof.
  unfold Plugin.tool_execute_before, isWriteTool, isListTool.
  tool_cases tool.
  - change (Plugin.writeTools host config "bash" args) with (Plugin.ret tt).
    change (Plugin.readTool host config "bash" args) with (Plugin.ret tt).
    change (Plugin.listTools host config "bash" args) with (Plugin.ret tt).
    cbn [String.eqb Ascii.eqb Bool.eqb]. rewrite !andThen_ret_l.
    apply andThen_ret_r.
  - change (Plugin.bashTool host config "write" args) with (Plugin.ret tt).
    change (Plugin.readTool host config "write" args) with (Plugin.ret tt).
    change (Plugin.listTools host config "write" args) with (Plugin.ret tt).
    rewrite !andThen_ret_l. apply andThen_ret_r.
  - change (Plugin.bashTool host config "edit" args) with (Plugin.ret tt).
    change (Plugin.readTool host config "edit" args) with (Plugin.ret tt).
    change (Plugin.listTools host config "edit" args) with (Plugin.ret tt).
    rewrite !andThen_ret_l. apply andThen_ret_r.
  - change (Plugin.bashTool host config "patch" args) with (Plugin.ret tt).
    change (Plugin.readTool host config "patch" args) with (Plugin.ret tt).
    change (Plugin.listTools host config "patch" args) with (Plugin.ret tt).
    rewrite !andThen_ret_l. apply andThen_ret_r.
  - change (Plugin.bashTool host config "read" args) with (Plugin.ret tt).
    change (Plugin.writeTools host config "read" args) with (Plugin.ret tt).
    change (Plugin.listTools host config "read" args) with (Plugin.ret tt).
    rewrite !andThen_ret_l. apply andThen_ret_r.
  - change (Plugin.bashTool host config "glob" args) with (Plugin.ret tt).
    change (Plugin.writeTools host config "glob" args) with (Plugin.ret tt).
    change (Plugin.readTool host config "glob" args) with (Plugin.ret tt).
    now rewrite !andThen_ret_l.
  - change (Plugin.bashTool host config "grep" args) with (Plugin.ret tt).
    change (Plugin.writeTools host config "grep" args) with (Plugin.ret tt).
    change (Plugin.readTool host config "grep" args) with (Plugin.ret tt).
    now rewrite !andThen_ret_l.
  - change (Plugin.bashTool host config "list" args) with (Plugin.ret tt).
    change (Plugin.writeTools host config "list" args) with (Plugin.ret tt).
    change (Plugin.readTool host config "list" args) with (Plugin.ret tt).
    now rewrite !andThen_ret_l.
  - unfold Plugin.bashTool, Plugin.writeTools, Plugin.readTool,
      Plugin.listTools.
    repeat match goal with
           | H : ?t <> ?l |- _ =>
               apply String.eqb_neq in H; rewrite ?H; clear H
           end.
    reflexivity.
Qed.

Lemma hook_threw_decision
  (host : Host) (config : Config) (tool : string) (args : Plugin.Args) :
  Plugin.threw (Plugin.tool_execute_before host config tool args)
  = match checkedTarget tool args with
    | Some target => JS.truthy target && targetBlocked host config tool target
    | None => false
    end.
Proof.
  rewrite hook_cases. unfold checkedTarget, targetBlocked.
  destruct (String.eqb tool "bash") eqn:Hb.
  { unfold Plugin.bashTool. rewrite Hb.
    destruct (Plugin.property args "command") as [c|]; [|reflexivity].
    destruct (JS.truthy c); [|reflexivity].
    destruct (BashCheckResult.blocked (checkBashCommand host c config));
      reflexivity. }
  destruct (isWriteTool tool) eqn:Hw.
  { unfold Plugin.writeTools. unfold isWriteTool in Hw. rewrite Hw.
    cbn [orb]. unfold fileTarget.
    destruct (Plugin.orElse _ (Plugin.property args "path")) as [f|];
      [|reflexivity].
    destruct (JS.truthy f); [|reflexivity].
    destruct (CheckResult.blocked (checkFilePath host f config));
      reflexivity. }
  destruct (String.eqb tool "read") eqn:Hr.
  { unfold Plugin.readTool. rewrite Hr. cbn [orb]. unfold fileTarget.
    destruct (Plugin.orElse _ (Plugin.property args "path")) as [f|];
      [|reflexivity].
    destruct (JS.truthy f); [|reflexivity].
    destruct (CheckResult.blocked
                (checkFilePathZeroAccessOnly host f config)); reflexivity. }
  cbn [orb].
  destruct (isListTool tool) eqn:Hl; [|reflexivity].
  unfold Plugin.listTools. unfold isListTool in Hl. rewrite Hl.
  unfold listTarget.
  destruct (Plugin.orElse _ (Plugin.property args "dir")) as [f|];
    [|reflexivity].
  destruct (JS.truthy f); [|reflexivity].
  destruct (CheckResult.blocked (checkFilePathZeroAccessOnly host f config));
    reflexivity.
Qed.

(** X16. When the hook throws.  The hook throws exactly when the tool is
    one it guards, the argument it checks for that tool is present and not
    empty, and the checker of the tool's class blocks it: the command
    check for [bash], the write check for [write], [edit] and [patch], the
    zero-access check for [read], [glob], [grep] and [list]. *)
Theorem hook_throws_iff_checker_blocks
  (host : Host) (config : Config) (tool : string) (args : Plugin.Args) :
  Plugin.threw (Plugin.tool_execute_before host config tool args)
  = match checkedTarget tool args with
    | Some target => JS.truthy target && targetBlocked host config tool target
    | None => false
    end.
Proof.
  apply hook_threw_decision.
Qed.

(** X17. The hook logs when it throws, and only then.  A call of the hook
    either goes on without logging anything, or logs exactly one entry, of
    level [warn] for the service [damage-control], and throws an error
    whose message begins with [SECURITY: ]. *)
Theorem hook_logs_once_when_it_throws
  (host : Host) (config : Config) (tool : string) (args : Plugin.Args) :
  Plugin.tool_execute_before host config tool args = ([], Normal tt)
  \/ exists entry text,
       Plugin.tool_execute_before host config tool args
       = ([Plugin.warn entry], Throw ("SECURITY: " ++ text)).
Proof.
  rewrite hook_cases.
  destruct (String.eqb tool "bash") eqn:Hb.
  { unfold Plugin.bashTool. rewrite Hb.
    destruct (Plugin.property args "command") as [c|]; [|now left].
    destruct (JS.truthy c); [|now left].
    destruct (BashCheckResult.blocked (checkBashCommand host c config));
      [|now left].
    right. eexists. eexists. reflexivity. }
  destruct (isWriteTool tool) eqn:Hw.
  { unfold Plugin.writeTools. unfold isWriteTool in Hw. rewrite Hw.
    destruct (Plugin.orElse _ (Plugin.property args "path")) as [f|];
      [|now left].
    destruct (JS.truthy f); [|now left].
    destruct (CheckResult.blocked (checkFilePath host f config)); [|now left].
    right. eexists. eexists. reflexivity. }
  destruct (String.eqb tool "read") eqn:Hr.
  { unfold Plugin.readTool. rewrite Hr.
    destruct (Plugin.orElse _ (Plugin.property args "path")) as [f|];
      [|now left].
    destruct (JS.truthy f); [|now left].
    destruct (CheckResult.blocked
                (checkFilePathZeroAccessOnly host f config)); [|now left].
    right. eexists. eexists. reflexivity. }
  destruct (isListTool tool) eqn:Hl; [|now left].
  unfold Plugin.listTools. unfold isListTool in Hl. rewrite Hl.
  destruct (Plugin.orElse _ (Plugin.property args "dir")) as [f|];
    [|now left].
  destruct (JS.truthy f); [|now left].
  destruct (CheckResult.blocked (checkFilePathZeroAccessOnly host f config));
    [|now left].
  right. eexists. eexists. reflexivity.
Qed.

(** X18. A call that may not read may not write.  With the same
    arguments, whenever the hook throws for the [read] tool it throws for
    [write], [edit] and [patch]. *)
Theorem hook_read_refused_implies_write_refused
  (host : Host) (config : Config) (tool : string) (args : Plugin.Args) :
  isWriteTool tool = true ->
  Plugin.threw (Plugin.tool_execute_before host config "read" args) = true ->
  Plugin.threw (Plugin.tool_execute_before host config tool args) = true.
Proof.
  intros Hw. rewrite !hook_threw_decision.
  unfold checkedTarget, targetBlocked. rewrite Hw.
  assert (Hb : String.eqb tool "bash" = false).
  { unfold isWriteTool in Hw. destruct (String.eqb_spec tool "bash") as [->|];
      [discriminate Hw|reflexivity]. }
  rewrite Hb. cbn [String.eqb Ascii.eqb Bool.eqb isWriteTool orb andb].
  destruct (fileTarget args) as [f|]; [|discriminate].
  destruct (JS.truthy f); [|discriminate]. cbn [andb].
  intros Hz.
  rewrite (zero_only_blocked_same_verdict host f config Hz).
  exact Hz.
Qed.

Lemma hook_read_refused_implies_write_refused_witness :
  Plugin.threw
    (Plugin.tool_execute_before Example.host (Example.policy []) "read"
       (Some (ExampleEnv.object [("filePath", "~/.ssh/id_rsa")]))) = true
  /\ Plugin.threw
       (Plugin.tool_execute_before Example.host (Example.policy []) "patch"
          (Some (ExampleEnv.object [("filePath", "~/.ssh/id_rsa")]))) = true.
Proof.
  assert (Hr : Plugin.threw
                 (Plugin.tool_execute_before Example.host (Example.policy [])
                    "read"
                    (Some (ExampleEnv.object [("filePath", "~/.ssh/id_rsa")])))
               = true) by (vm_compute; reflexivity).
  split; [exact Hr|].
  exact (hook_read_refused_implies_write_refused Example.host
           (Example.policy []) "patch" _ eq_refl Hr).
Defined.

Lemma orElse_truthy (p : string) (b : option string) :
  JS.truthy p = true -> Plugin.orElse (Some p) b = Some p.
Proof. intros H. unfold Plugin.orElse. now rewrite H. Qed.

Lemma hook_file_target (host : Host) (config : Config) (tool : string)
  (args args' : Plugin.Args) :
  isWriteTool tool || String.eqb tool "read" = true ->
  fileTarget args = fileTarget args' ->
  Plugin.tool_execute_before host config tool args
  = Plugin.tool_execute_before host config tool args'.
Proof.
  intros Ht Hf. rewrite !hook_cases.
  assert (Hb : String.eqb tool "bash" = false).
  { destruct (String.eqb_spec tool "bash") as [->|]; [discriminate Ht|].
    reflexivity. }
  rewrite Hb. unfold fileTarget in Hf.
  destruct (isWriteTool tool) eqn:Hw.
  - unfold Plugin.writeTools. now rewrite Hf.
  - cbn [orb] in Ht. rewrite Ht. unfold Plugin.readTool. now rewrite Hf.
Qed.

Lemma hook_list_target (host : Host) (config : Config) (tool : string)
  (args args' : Plugin.Args) :
  isListTool tool = true ->
  listTarget args = listTarget args' ->
  Plugin.tool_execute_before host config tool args
  = Plugin.tool_execute_before host config tool args'.
Proof.
  intros Ht Hf. rewrite !hook_cases.
  assert (Hb : String.eqb tool "bash" = false
               /\ isWriteTool tool = false /\ String.eqb tool "read" = false).
  { unfold isListTool, isWriteTool in *. tool_cases tool;
      try discriminate Ht; repeat split; try reflexivity;
      repeat match goal with
             | H : ?t <> ?l |- _ =>
                 apply String.eqb_neq in H; rewrite ?H; clear H
             end; reflexivity. }
  destruct Hb as (-> & -> & ->). rewrite Ht.
  unfold Plugin.listTools, listTarget in *. now rewrite Hf.
Qed.

(** X19. The hook checks one argument, the first that is named.  For
    [write], [edit], [patch] and [read], when the call carries a non-empty
    [filePath], the outcome is that of the call with this [filePath] alone:
    [file_path] and [path] are not looked at.  For [glob], [grep] and
    [list] the same holds of [path] before [directory] and [dir]. *)
Theorem hook_checks_first_named_argument
  (host : Host) (config : Config) (tool target : string)
  (args : Plugin.Args) :
  JS.truthy target = true ->
  (isWriteTool tool || String.eqb tool "read" = true ->
   Plugin.property args "filePath" = Some target ->
   Plugin.tool_execute_before host config tool args
   = Plugin.tool_execute_before host config tool
       (Some (ExampleEnv.object [("filePath", target)])))
  /\ (isListTool tool = true ->
      Plugin.property args "path" = Some target ->
      Plugin.tool_execute_before host config tool args
      = Plugin.tool_execute_before host config tool
          (Some (ExampleEnv.object [("path", target)]))).
Proof.
  intros Ht. split.
  - intros Htool Hp. apply hook_file_target; [exact Htool|].
    unfold fileTarget. rewrite Hp. cbn [Plugin.property ExampleEnv.object].
    cbn [String.eqb Ascii.eqb Bool.eqb].
    now rewrite !orElse_truthy.
  - intros Htool Hp. apply hook_list_target; [exact Htool|].
    unfold listTarget. rewrite Hp. cbn [Plugin.property ExampleEnv.object].
    cbn [String.eqb Ascii.eqb Bool.eqb].
    now rewrite !orElse_truthy.
Qed.

(** A write whose [filePath] is harmless goes through, whatever its
    [path] names. *)
Lemma hook_checks_first_named_argument_witness :
  Plugin.tool_execute_before Example.host (Example.policy []) "write"
    (Some (ExampleEnv.object
             [("filePath", "notes.txt"); ("path", "~/.ssh/id_rsa")]))
  = ([], Normal tt).
Proof.
  rewrite (proj1 (hook_checks_first_named_argument Example.host
                    (Example.policy []) "write" "notes.txt"
                    (Some (ExampleEnv.object
                             [("filePath", "notes.txt");
                              ("path", "~/.ssh/id_rsa")]))
                    eq_refl) eq_refl eq_refl).
  vm_compute. reflexivity.
Defined.

Lemma string_length_append (a b : string) :
  String.length (a ++ b) = String.length a + String.length b.
Proof. induction a as [|c a IH]; simpl; [reflexivity|now rewrite IH]. Qed.

Lemma slice0_length (n : nat) (s : string) :
  String.length (Plugin.slice0 n s) <= n.
Proof.
  revert s. induction n as [|n IH]; intros [|c s]; simpl; try lia.
  specialize (IH s). lia.
Qed.

Lemma slice0_all (n : nat) (s : string) :
  String.length s <= n -> Plugin.slice0 n s = s.
Proof.
  revert s. induction n as [|n IH]; intros [|c s]; simpl; intros H;
    try reflexivity; try lia.
  rewrite IH; [reflexivity|lia].
Qed.

(** X20. The log entry of a blocked command is bounded.  When the hook
    blocks a [bash] call it logs the reason and the command cut to at most
    83 characters: the command itself if it has at most 80 characters,
    else its first 80 characters followed by three dots; the thrown error
    carries the reason and not the command. *)
Theorem bash_log_truncates_command
  (host : Host) (config : Config) (args : Plugin.Args) (command : string) :
  Plugin.property args "command" = Some command ->
  JS.truthy command = true ->
  BashCheckResult.blocked (checkBashCommand host command config) = true ->
  exists shown,
    Plugin.tool_execute_before host config "bash" args
    = ([Plugin.warn
          ("BLOCKED bash: "
           ++ BashCheckResult.reason (checkBashCommand host command config)
           ++ " | cmd: " ++ shown)],
       Throw ("SECURITY: "
              ++ BashCheckResult.reason (checkBashCommand host command config)))
    /\ String.length shown <= 83
    /\ (String.length command <= 80 -> shown = command)
    /\ (80 < String.length command ->
        shown = Plugin.slice0 80 command ++ "...").
Proof.
  intros Hp Ht Hb.
  exists (Plugin.slice0 80 command
          ++ (if Nat.ltb 80 (String.length command) then "..." else "")).
  split.
  { rewrite hook_cases. cbn [String.eqb Ascii.eqb Bool.eqb].
    unfold Plugin.bashTool. cbn [String.eqb Ascii.eqb Bool.eqb].
    rewrite Hp, Ht, Hb. reflexivity. }
  pose proof (slice0_length 80 command) as Hl.
  destruct (Nat.ltb_spec 80 (String.length command)) as [Hlong|Hshort].
  - rewrite string_length_append. cbn [String.length].
    split; [lia|]. split; [lia|reflexivity].
  - rewrite append_empty_r. split; [lia|].
    split; [intros _; now apply slice0_all|lia].
Qed.

Lemma bash_log_truncates_command_witness :
  exists shown,
    Plugin.tool_execute_before Example.host (Example.policy []) "bash"
      (Some (ExampleEnv.object [("command", "cat .env")]))
    = ([Plugin.warn
          ("BLOCKED bash: "
           ++ BashCheckResult.reason
                (checkBashCommand Example.host "cat .env" (Example.policy []))
           ++ " | cmd: " ++ shown)],
       Throw ("SECURITY: "
              ++ BashCheckResult.reason
                   (checkBashCommand Example.host "cat .env"
                      (Example.policy []))))
    /\ String.length shown <= 83.
Proof.
  destruct (bash_log_truncates_command Example.host (Example.policy [])
              (Some (ExampleEnv.object [("command", "cat .env")]))
              "cat .env" eq_refl eq_refl eq_refl)
    as (shown & H1 & H2 & _).
  exists shown. split; [exact H1|exact H2].
Defined.

(* ===================================================================== *)
(** ** The reference engine on escaped literals *)
(* ===================================================================== *)

Section Literals.

Import JsRegExp.

(** More fuel does not change what the parser returns. *)
Lemma parse_fuel_mono (n : nat) :
  (forall l r m, n <= m -> parseDisjunction n l = Some r ->
                 parseDisjunction m l = Some r)
  /\ (forall l r m, n <= m -> parseAlternative n l = Some r ->
                    parseAlternative m l = Some r)
  /\ (forall c l r m, n <= m -> parseTerm n c l = Some r ->
                      parseTerm m c l = Some r).
Proof.
  induction n as [|n (IHd & IHa & IHt)].
  - repeat split; intros; discriminate.
  - repeat split.
    + intros l r [|m] Hm H; [lia|]. assert (Hnm : n <= m) by lia.
      cbn [parseDisjunction] in *.
      destruct (parseAlternative n l) as [[a rest]|] eqn:Ea; [|discriminate].
      rewrite (IHa _ _ _ Hnm Ea).
      destruct rest as [|c l']; [exact H|].
      destruct (Ascii.eqb c "|"); [|exact H].
      destruct (parseDisjunction n l') as [[b l'']|] eqn:Ed; [|discriminate].
      now rewrite (IHd _ _ _ Hnm Ed).
    + intros l r [|m] Hm H; [lia|]. assert (Hnm : n <= m) by lia.
      cbn [parseAlternative] in *.
      destruct l as [|c l']; [exact H|].
      destruct (Ascii.eqb c "|" || Ascii.eqb c ")"); [exact H|].
      destruct (parseTerm n c l') as [[t l'']|] eqn:Et; [|discriminate].
      rewrite (IHt _ _ _ _ Hnm Et).
      destruct (parseAlternative n l'') as [[r' l3]|] eqn:Ea; [|discriminate].
      now rewrite (IHa _ _ _ Hnm Ea).
    + intros c l r [|m] Hm H; [lia|]. assert (Hnm : n <= m) by lia.
      cbn [parseTerm] in *.
      assert (Hg : forall wrap l0 r0,
                 match parseDisjunction n l0 with
                 | Some (a, d :: l') =>
                     if Ascii.eqb d ")" then quantified (wrap a) l' else None
                 | _ => None
                 end = Some r0 ->
                 match parseDisjunction m l0 with
                 | Some (a, d :: l') =>
                     if Ascii.eqb d ")" then quantified (wrap a) l' else None
                 | _ => None
                 end = Some r0).
      { intros wrap l0 r0 H0.
        destruct (parseDisjunction n l0) as [[a rest]|] eqn:Ed; [|discriminate].
        now rewrite (IHd _ _ _ Hnm Ed). }
      repeat match goal with
             | H : (if ?b then _ else _) = Some _
               |- (if ?b then _ else _) = Some _ =>
                 destruct b; [try exact H|]
             end; try exact H.
      destruct l as [|q l']; [exact H|].
      destruct (Ascii.eqb q "?").
      * destruct l' as [|k l'']; [exact H|].
        destruct (Ascii.eqb k "="); [exact (Hg (Lookahead false) _ _ H)|].
        destruct (Ascii.eqb k "!"); [exact (Hg (Lookahead true) _ _ H)|].
        destruct (Ascii.eqb k ":"); [exact (Hg (fun a => a) _ _ H)|exact H].
      * exact (Hg (fun a => a) _ _ H).
Qed.

Lemma quantified_plain (a : regex) (l : list ascii) :
  unquantifiedHead l = true -> quantified a l = Some (a, l).
Proof.
  destruct l as [|d l]; [reflexivity|]. cbn [unquantifiedHead].
  unfold isQuantifierStart, quantified.
  rewrite negb_true_iff, !orb_false_iff. intros [[[-> ->] ->] ->].
  reflexivity.
Qed.

Lemma lazy_plain (l : list ascii) :
  unquantifiedHead l = true ->
  match l with
  | c :: l' => if Ascii.eqb c "?" then l' else l
  | [] => l
  end = l.
Proof.
  destruct l as [|d l]; [reflexivity|]. cbn [unquantifiedHead].
  unfold isQuantifierStart.
  rewrite negb_true_iff, !orb_false_iff. intros [[[_ _] ->] _]. reflexivity.
Qed.

Lemma escaped_term (c : ascii) (f : nat) (l : list ascii) :
  JS.includesChar metaChars c = true ->
  unquantifiedHead l = true ->
  parseTerm (S f) "\" (c :: l) = Some (Char c, l).
Proof.
  intros Hc Hl. cbn [parseTerm]. cbn [Ascii.eqb Bool.eqb].
  unfold metaChars in Hc. cbn [JS.includesChar] in Hc.
  repeat rewrite orb_true_iff in Hc.
  repeat (destruct Hc as [Hc|Hc];
          [apply Ascii.eqb_eq in Hc; subst c; cbn;
           apply quantified_plain; exact Hl|]).
  discriminate.
Qed.

Lemma plain_term (c : ascii) (f : nat) (l : list ascii) :
  JS.includesChar metaChars c = false ->
  unquantifiedHead l = true ->
  parseTerm (S f) c l = Some (Char c, l)
  /\ Ascii.eqb c "|" || Ascii.eqb c ")" = false
  /\ isQuantifierStart c = false.
Proof.
  intros Hc Hl. unfold metaChars in Hc. cbn [JS.includesChar] in Hc.
  repeat rewrite orb_false_iff in Hc.
  destruct Hc as (Hdot & Hstar & Hplus & Hq & Hcaret & Hdollar & Hlb & Hrb
                  & Hlp & Hrp & Hbar & Hlk & Hrk & Hbs & _).
  cbn [parseTerm]. unfold isQuantifierStart.
  rewrite Hcaret, Hdollar, Hdot, Hlk, Hlp, Hbs, Hstar, Hplus, Hq, Hlb,
    Hbar, Hrp.
  cbn [orb]. split; [|split; reflexivity].
  apply quantified_plain; exact Hl.
Qed.

Lemma escaped_head (s : string) (tail : list ascii) :
  unquantifiedHead tail = true ->
  unquantifiedHead
    (list_ascii_of_string (JS.escapeChars metaChars s) ++ tail) = true.
Proof.
  intros Ht. destruct s as [|c s]; [exact Ht|].
  cbn [JS.escapeChars].
  destruct (JS.includesChar metaChars c) eqn:Hc; [reflexivity|].
  cbn [list_ascii_of_string app unquantifiedHead].
  destruct (plain_term c 0 [] Hc eq_refl) as (_ & _ & ->). reflexivity.
Qed.

Lemma parseAlternative_cons (f : nat) (c : ascii) (l : list ascii) :
  Ascii.eqb c "|" || Ascii.eqb c ")" = false ->
  parseAlternative (S f) (c :: l)
  = match parseTerm f c l with
    | Some (t, l'') =>
        match parseAlternative f l'' with
        | Some (r, l3) => Some (Seq t r, l3)
        | None => None
        end
    | None => None
    end.
Proof. intros H. cbn [parseAlternative]. now rewrite H. Qed.

(** An escaped literal parses as the sequence of its characters. *)
Lemma parseAlternative_escaped (s : string) :
  forall n tail r rest,
    1 <= n ->
    unquantifiedHead tail = true ->
    parseAlternative n tail = Some (r, rest) ->
    parseAlternative (String.length s + n)
      (list_ascii_of_string (JS.escapeChars metaChars s) ++ tail)
    = Some (literalRegex (list_ascii_of_string s) r, rest).
Proof.
  induction s as [|c s IH]; intros n tail r rest Hn Ht Hp; [exact Hp|].
  cbn [String.length plus JS.escapeChars list_ascii_of_string literalRegex
         fold_right].
  pose proof (escaped_head s tail Ht) as Hh.
  specialize (IH n tail r rest Hn Ht Hp).
  remember (String.length s + n) as f eqn:Ef.
  destruct f as [|f]; [lia|].
  destruct (JS.includesChar metaChars c) eqn:Hc.
  - cbn [list_ascii_of_string app].
    rewrite parseAlternative_cons by reflexivity.
    rewrite (escaped_term c f _ Hc Hh). now rewrite IH.
  - cbn [list_ascii_of_string app].
    destruct (plain_term c f _ Hc Hh) as (Hterm & Hstop & _).
    rewrite parseAlternative_cons by exact Hstop.
    now rewrite Hterm, IH.
Qed.

Lemma parseDisjunction_whole (f : nat) (l : list ascii) (r : regex) :
  parseAlternative f l = Some (r, []) ->
  parseDisjunction (S f) l = Some (r, []).
Proof. intros H. cbn [parseDisjunction]. now rewrite H. Qed.

Lemma escaped_length (s : string) :
  String.length s <= String.length (JS.escapeChars metaChars s).
Proof.
  induction s as [|c s IH]; [reflexivity|]. cbn [JS.escapeChars].
  destruct (JS.includesChar metaChars c); cbn [String.length]; lia.
Qed.

Lemma list_ascii_length (s : string) :
  List.length (list_ascii_of_string s) = String.length s.
Proof. induction s as [|c s IH]; simpl; [reflexivity|now rewrite IH]. Qed.

(** *** Matching *)

Lemma run_literal (ic : bool) (r : regex) (s : list ascii) :
  forall b t k,
    run ic (literalRegex s r) {| before := b; rest := s ++ t |} k
    = run ic r {| before := lastOr s b; rest := t |} k.
Proof.
  induction s as [|c s IH]; intros b t k; [reflexivity|].
  cbn [literalRegex fold_right app run rest].
  rewrite Ascii.eqb_refl. cbn [andb]. unfold advance.
  exact (IH (Some c) t k).
Qed.

Lemma run_star_zero (ic : bool) (a : regex) (p : position)
  (k : position -> bool) :
  k p = true -> run ic (Star a) p k = true.
Proof.
  intros H. cbn [run]. rewrite H. apply orb_true_r.
Qed.

Lemma run_star_any_step (ic : bool) (b : option ascii) (d : ascii)
  (l : list ascii) (k : position -> bool) :
  run ic (Star AnyChar) {| before := b; rest := d :: l |} k
  = negb (isLineTerminator d) && run ic (Star AnyChar) (advance d l) k
    || k {| before := b; rest := d :: l |}.
Proof.
  cbn [run rest advance List.length].
  assert (Hlt : Nat.ltb (List.length l) (S (List.length l)) = true)
    by (apply Nat.ltb_lt; lia).
  rewrite Hlt. reflexivity.
Qed.

Lemma run_star_any (ic : bool) (mid : string) :
  forall b t k,
    noLineTerminator mid = true ->
    k {| before := lastOr (list_ascii_of_string mid) b; rest := t |} = true ->
    run ic (Star AnyChar)
      {| before := b; rest := list_ascii_of_string mid ++ t |} k = true.
Proof.
  unfold noLineTerminator.
  induction mid as [|d mid IH]; intros b t k Hm Hk.
  - now apply run_star_zero.
  - cbn [list_ascii_of_string forallb] in Hm. apply andb_true_iff in Hm.
    destruct Hm as [Hd Hm].
    cbn [list_ascii_of_string app]. rewrite run_star_any_step, Hd.
    cbn [andb]. unfold advance. rewrite (IH (Some d) t k Hm Hk). reflexivity.
Qed.

Lemma run_star_space_step (ic : bool) (b : option ascii) (d : ascii)
  (l : list ascii) (k : position -> bool) :
  run ic spaceStar {| before := b; rest := d :: l |} k
  = isSpace d && run ic spaceStar (advance d l) k
    || k {| before := b; rest := d :: l |}.
Proof.
  unfold spaceStar, spaceClass. cbn [run rest advance List.length].
  assert (Hlt : Nat.ltb (List.length l) (S (List.length l)) = true)
    by (apply Nat.ltb_lt; lia).
  rewrite Hlt. cbn [existsb itemMatches inClass xorb orb].
  now destruct (isSpace d).
Qed.

Lemma run_star_space (ic : bool) (ws : string) :
  forall b t k,
    allSpace ws = true ->
    k {| before := lastOr (list_ascii_of_string ws) b; rest := t |} = true ->
    run ic spaceStar
      {| before := b; rest := list_ascii_of_string ws ++ t |} k = true.
Proof.
  unfold allSpace.
  induction ws as [|d ws IH]; intros b t k Hm Hk.
  - now apply run_star_zero.
  - cbn [list_ascii_of_string forallb] in Hm. apply andb_true_iff in Hm.
    destruct Hm as [Hd Hm].
    cbn [list_ascii_of_string app]. rewrite run_star_space_step, Hd.
    cbn [andb]. unfold advance. rewrite (IH (Some d) t k Hm Hk). reflexivity.
Qed.

Lemma run_seq (ic : bool) (a b : regex) (p : position)
  (k : position -> bool) :
  run ic (Seq a b) p k = run ic a p (fun q => run ic b q k).
Proof. reflexivity. Qed.

Lemma run_word_boundary (ic invert : bool) (p : position)
  (k : position -> bool) :
  run ic (WordBoundary invert) p k
  = xorb invert (xorb (wordBefore p) (wordAfter p)) && k p.
Proof. reflexivity. Qed.

Lemma run_space_class (ic : bool) (b : option ascii) (d : ascii)
  (l : list ascii) (k : position -> bool) :
  run ic spaceClass {| before := b; rest := d :: l |} k
  = isSpace d && k (advance d l).
Proof.
  unfold spaceClass. cbn [run rest existsb itemMatches inClass xorb orb].
  now destruct (isSpace d).
Qed.

(** A match at the position after [pre] is found by the search. *)
Lemma searchFrom_app (ic : bool) (r : regex) (pre : list ascii) :
  forall b l,
    run ic r {| before := lastOr pre b; rest := l |} (fun _ => true) = true ->
    searchFrom ic r b (pre ++ l) = true.
Proof.
  induction pre as [|c pre IH]; intros b l H.
  - cbn [app]. destruct l; cbn [searchFrom]; cbn [lastOr fold_left] in H;
      now rewrite H.
  - cbn [app searchFrom]. rewrite (IH (Some c) l H). apply orb_true_r.
Qed.

End Literals.

(* ===================================================================== *)
(** ** Literal paths in the operation templates *)
(* ===================================================================== *)

Lemma includesChar_app (a b : string) (c : ascii) :
  JS.includesChar (a ++ b) c = JS.includesChar a c || JS.includesChar b c.
Proof.
  induction a as [|d a IH]; simpl; [reflexivity|].
  now rewrite IH, orb_assoc.
Qed.

Lemma noDollar_escaped (s : string) :
  noDollar s = true -> noDollar (JS.escapeChars metaChars s) = true.
Proof.
  unfold noDollar. rewrite !negb_true_iff.
  induction s as [|c s IH]; [reflexivity|].
  cbn [JS.includesChar JS.escapeChars]. rewrite orb_false_iff.
  intros [Hc Hs].
  destruct (JS.includesChar metaChars c); cbn [JS.includesChar];
    rewrite Hc, (IH Hs); reflexivity.
Qed.

Lemma noDollar_expanded (p home : string) :
  noDollar p = true -> noDollar home = true ->
  noDollar (JS.replaceLeadingTilde p home) = true.
Proof.
  intros Hp Hh. destruct p as [|c r]; [reflexivity|].
  destruct (Ascii.eqb c "~") eqn:E.
  - apply Ascii.eqb_eq in E. subst c.
    rewrite (replaceLeadingTilde_tilde r home Hh).
    unfold noDollar in *. rewrite includesChar_app.
    rewrite negb_true_iff in *. cbn [JS.includesChar] in Hp.
    apply orb_false_iff in Hp. destruct Hp as [_ Hr]. now rewrite Hh, Hr.
  - rewrite replaceLeadingTilde_noTilde; [exact Hp|]. simpl. now rewrite E.
Qed.

(** A template made of [pre] and the placeholder, with an escaped literal
    in the place of the placeholder, compiles in the reference engine to
    the regex of [pre] followed by the characters of the literal. *)
Lemma create_escaped (pre flags : string) (ic : bool) (K : nat)
  (wrap : JsRegExp.regex -> JsRegExp.regex) :
  (forall f l r,
      unquantifiedHead l = true ->
      JsRegExp.parseAlternative (S f) l = Some (r, []) ->
      JsRegExp.parseDisjunction (K + S f) (list_ascii_of_string pre ++ l)
      = Some (wrap r, [])) ->
  K <= 4 * String.length pre + 3 ->
  JsRegExp.parseFlags flags = Some ic ->
  forall s,
    JsRegExp.create (pre ++ JS.escapeChars metaChars s) flags
    = Normal {| JsRegExp.ignoreCase := ic;
                JsRegExp.program :=
                  wrap (literalRegex (list_ascii_of_string s) JsRegExp.Empty) |}.
Proof.
  intros Hpre HK Hflags s. unfold JsRegExp.create, JsRegExp.parse.
  rewrite Hflags.
  pose proof (parseAlternative_escaped s 1 [] JsRegExp.Empty []
                (le_n 1) eq_refl eq_refl) as Hs.
  rewrite Nat.add_1_r, app_nil_r in Hs.
  pose proof (Hpre _ _ _ (eq_trans (f_equal unquantifiedHead
                                      (eq_sym (app_nil_r _)))
                            (escaped_head s [] eq_refl)) Hs) as Hd.
  rewrite list_ascii_of_string_app.
  assert (Hfuel : K + S (String.length s)
                  <= 4 * S (List.length
                              (list_ascii_of_string pre
                               ++ list_ascii_of_string
                                    (JS.escapeChars metaChars s)))).
  { rewrite length_app, !list_ascii_length.
    pose proof (escaped_length s). lia. }
  now rewrite (proj1 (parse_fuel_mono _) _ _ _ Hfuel Hd).
Qed.

Ltac parse_term :=
  rewrite parseAlternative_cons by reflexivity;
  cbn -[JsRegExp.parseAlternative JsRegExp.parseDisjunction].

Lemma parse_write_prefix (f : nat) (l : list ascii) (r : JsRegExp.regex) :
  unquantifiedHead l = true ->
  JsRegExp.parseAlternative (S f) l = Some (r, []) ->
  JsRegExp.parseDisjunction (3 + S f) (list_ascii_of_string ">\s*" ++ l)
  = Some (JsRegExp.Seq (JsRegExp.Char ">") (JsRegExp.Seq spaceStar r), []).
Proof.
  intros Hh Hp. apply parseDisjunction_whole.
  cbn [list_ascii_of_string app plus].
  parse_term. parse_term. rewrite (lazy_plain l Hh), Hp. reflexivity.
Qed.

Lemma replace_path_at_end (pre escaped : string) :
  JS.splitFirst (pre ++ "{path}") "{path}" = Some (pre, "") ->
  noDollar escaped = true ->
  JS.replace (pre ++ "{path}") "{path}" escaped = pre ++ escaped.
Proof.
  intros Hs Hd. unfold JS.replace. rewrite Hs.
  now rewrite getSubstitution_noDollar, append_empty_r.
Qed.

(** The write template detects a redirection onto a literal path. *)
Lemma write_template_fires (host : Host) (p before ws after : string) :
  Faithful host ->
  noDollar p = true ->
  noDollar (homedir host) = true ->
  allSpace ws = true ->
  literalTemplateFires host (before ++ ">" ++ ws ++ p ++ after)
    (JS.escapeChars metaChars (JS.replaceLeadingTilde p (homedir host)))
    (JS.escapeChars metaChars p) (">\s*{path}", "write") = true.
Proof.
  intros Hf Hp Hh Hws. unfold literalTemplateFires. cbn [fst].
  rewrite !(replace_path_at_end ">\s*") by
    (reflexivity || apply noDollar_escaped;
     (exact Hp || now apply noDollar_expanded)).
  destruct (Hf _ _ _ (create_escaped ">\s*" "" false 3 _
                        parse_write_prefix ltac:(cbn; lia) eq_refl
                        (JS.replaceLeadingTilde p (homedir host))))
    as (re & -> & _).
  destruct (Hf _ _ _ (create_escaped ">\s*" "" false 3 _
                        parse_write_prefix ltac:(cbn; lia) eq_refl p))
    as (ro & -> & Hro).
  cbn [bind try_catch]. rewrite Hro.
  unfold JsRegExp.test, JsRegExp.exec.
  cbn [JsRegExp.ignoreCase JsRegExp.program].
  rewrite !list_ascii_of_string_app.
  rewrite searchFrom_app; [apply orb_true_r|].
  cbn [list_ascii_of_string app JsRegExp.run JsRegExp.rest
         JsRegExp.canonicalize].
  rewrite Ascii.eqb_refl. cbn [andb]. unfold JsRegExp.advance.
  apply run_star_space; [exact Hws|].
  now rewrite run_literal.
Qed.

(** X21. A redirection onto a read-only literal path is blocked as a
    write.  On a host whose engine agrees with the reference engine, for
    a path specifier without wildcard and without dollar sign (the home
    directory having none either), every command that contains [>], then
    white space or nothing, then the path, is reported by
    [checkPathPatterns] under the read-only templates as a [write] on the
    path, whatever stands before and after; an appending redirection [>>]
    is such a command, so it is reported as [write] too.  A policy that
    lists the path as read-only blocks the command. *)
Theorem redirection_onto_read_only_literal
  (host : Host) (p before ws after : string) (config : Config) :
  Faithful host ->
  isGlobPattern p = false ->
  noDollar p = true ->
  noDollar (homedir host) = true ->
  allSpace ws = true ->
  (forall pathType,
      checkPathPatterns host (before ++ ">" ++ ws ++ p ++ after) p
        READ_ONLY_BLOCKED pathType
      = {| CheckResult.blocked := true;
           CheckResult.reason :=
             "Blocked: write operation on " ++ pathType ++ " " ++ p |})
  /\ (In p (readOnlyPaths config) ->
      BashCheckResult.blocked
        (checkBashCommand host (before ++ ">" ++ ws ++ p ++ after) config)
      = true).
Proof.
  intros Hf Hg Hp Hh Hws.
  assert (Hfire : templateFires host (before ++ ">" ++ ws ++ p ++ after) p
                    (">\s*{path}", "write") = true).
  { unfold templateFires. rewrite Hg.
    now apply write_template_fires. }
  assert (Hv : forall pathType,
             checkPathPatterns host (before ++ ">" ++ ws ++ p ++ after) p
               READ_ONLY_BLOCKED pathType
             = {| CheckResult.blocked := true;
                  CheckResult.reason :=
                    "Blocked: write operation on " ++ pathType ++ " " ++ p |}).
  { intros pathType. rewrite checkPathPatterns_find.
    unfold READ_ONLY_BLOCKED, WRITE_PATTERNS. cbn [app find].
    now rewrite Hfire. }
  split; [exact Hv|]. intros Hin.
  apply (read_only_entry_blocks host _ config p Hin).
  unfold operationDetected. now rewrite Hv.
Qed.

(** Appending to a file under [/etc/] is reported as a write. *)
Lemma redirection_onto_read_only_literal_witness :
  Faithful Example.host
  /\ checkPathPatterns Example.host
       ("echo x >" ++ ">" ++ " " ++ "/etc/" ++ "hosts") "/etc/"
       READ_ONLY_BLOCKED "read-only path"
     = {| CheckResult.blocked := true;
          CheckResult.reason :=
            "Blocked: write operation on read-only path /etc/" |}.
Proof.
  split; [apply referenceHost_faithful|].
  exact (proj1 (redirection_onto_read_only_literal Example.host "/etc/"
                  "echo x >" " " "hosts" (Example.policy [])
                  (referenceHost_faithful "/home/dev")
                  eq_refl eq_refl eq_refl eq_refl) "read-only path").
Defined.

Lemma unquantified_plain (a : JsRegExp.regex) (l : list ascii) :
  unquantifiedHead l = true -> JsRegExp.unquantified a l = Some (a, l).
Proof.
  destruct l as [|d l]; [reflexivity|]. cbn [unquantifiedHead].
  unfold JsRegExp.unquantified. rewrite negb_true_iff. now intros ->.
Qed.

Lemma parse_command_prefix (verb : string) (f : nat) (l : list ascii)
  (r : JsRegExp.regex) :
  JS.escapeChars metaChars verb = verb ->
  unquantifiedHead l = true ->
  JsRegExp.parseAlternative (S f) l = Some (r, []) ->
  JsRegExp.parseDisjunction (String.length verb + 4 + S f)
    (list_ascii_of_string ("\b" ++ verb ++ "\s+.*") ++ l)
  = Some (JsRegExp.Seq (JsRegExp.WordBoundary false)
            (literalRegex (list_ascii_of_string verb)
               (JsRegExp.Seq (JsRegExp.Seq spaceClass spaceStar)
                  (JsRegExp.Seq (JsRegExp.Star JsRegExp.AnyChar) r))), []).
Proof.
  intros Hv Hh Hp.
  replace (String.length verb + 4 + S f)
    with (S (S (String.length verb + S (S (S f))))) by lia.
  apply parseDisjunction_whole.
  assert (Htail : JsRegExp.parseAlternative (S (S (S f)))
                    (list_ascii_of_string "\s+.*" ++ l)
                  = Some (JsRegExp.Seq (JsRegExp.Seq spaceClass spaceStar)
                            (JsRegExp.Seq (JsRegExp.Star JsRegExp.AnyChar) r),
                          [])).
  { cbn [list_ascii_of_string app]. parse_term. parse_term.
    rewrite (lazy_plain l Hh), Hp. reflexivity. }
  pose proof (parseAlternative_escaped verb (S (S (S f)))
                (list_ascii_of_string "\s+.*" ++ l) _ []
                ltac:(lia) eq_refl Htail) as Hverb.
  pose proof (escaped_head verb (list_ascii_of_string "\s+.*" ++ l) eq_refl)
    as Hhead.
  rewrite Hv in Hverb, Hhead.
  rewrite !list_ascii_of_string_app, <- !app_assoc.
  change (list_ascii_of_string "\b") with ["\"%char; "b"%char].
  rewrite (Nat.add_succ_r (String.length verb) (S (S f))) in Hverb |- *.
  cbn [app]. rewrite parseAlternative_cons by reflexivity.
  cbn [JsRegExp.parseTerm Ascii.eqb Bool.eqb].
  rewrite (unquantified_plain _ _ Hhead). now rewrite Hverb.
Qed.

(** The template of a command detects the command applied to a literal
    path. *)
Lemma command_template_fires (host : Host)
  (verb operation p before mid after : string) :
  Faithful host ->
  JS.escapeChars metaChars verb = verb ->
  JS.splitFirst (commandTemplate verb) "{path}"
  = Some ("\b" ++ verb ++ "\s+.*", "") ->
  match verb with
  | String c _ => JsRegExp.isWordChar c
  | EmptyString => false
  end = true ->
  noDollar p = true ->
  noDollar (homedir host) = true ->
  endsOutsideWord before = true ->
  noLineTerminator mid = true ->
  literalTemplateFires host (before ++ verb ++ " " ++ mid ++ p ++ after)
    (JS.escapeChars metaChars (JS.replaceLeadingTilde p (homedir host)))
    (JS.escapeChars metaChars p) (commandTemplate verb, operation) = true.
Proof.
  intros Hf Hv Hsplit Hword Hp Hh Hb Hmid.
  unfold literalTemplateFires. cbn [fst].
  assert (Ht : commandTemplate verb = ("\b" ++ verb ++ "\s+.*") ++ "{path}").
  { unfold commandTemplate. now rewrite !append_assoc. }
  rewrite Ht in Hsplit |- *.
  rewrite !(replace_path_at_end _ _ Hsplit) by
    (apply noDollar_escaped; (exact Hp || now apply noDollar_expanded)).
  assert (HK : String.length verb + 4
               <= 4 * String.length ("\b" ++ verb ++ "\s+.*") + 3).
  { rewrite !string_length_append. cbn [String.length]. lia. }
  destruct (Hf _ _ _ (create_escaped _ "" false _ _
                        (fun f l r => parse_command_prefix verb f l r Hv)
                        HK eq_refl
                        (JS.replaceLeadingTilde p (homedir host))))
    as (re & -> & _).
  destruct (Hf _ _ _ (create_escaped _ "" false _ _
                        (fun f l r => parse_command_prefix verb f l r Hv)
                        HK eq_refl p))
    as (ro & -> & Hro).
  cbn [bind try_catch]. rewrite Hro.
  unfold JsRegExp.test, JsRegExp.exec.
  cbn [JsRegExp.ignoreCase JsRegExp.program].
  rewrite !list_ascii_of_string_app.
  rewrite searchFrom_app; [apply orb_true_r|].
  rewrite run_seq, run_word_boundary.
  assert (Hwb : xorb (JsRegExp.wordBefore
                        {| JsRegExp.before :=
                             lastOr (list_ascii_of_string before) None;
                           JsRegExp.rest :=
                             list_ascii_of_string verb
                             ++ list_ascii_of_string " "
                             ++ list_ascii_of_string mid
                             ++ list_ascii_of_string p
                             ++ list_ascii_of_string after |})
                     (JsRegExp.wordAfter
                        {| JsRegExp.before :=
                             lastOr (list_ascii_of_string before) None;
                           JsRegExp.rest :=
                             list_ascii_of_string verb
                             ++ list_ascii_of_string " "
                             ++ list_ascii_of_string mid
                             ++ list_ascii_of_string p
                             ++ list_ascii_of_string after |}) = true).
  { unfold JsRegExp.wordBefore, JsRegExp.wordAfter, endsOutsideWord in *.
    cbn [JsRegExp.before JsRegExp.rest].
    destruct verb as [|c v]; [discriminate|].
    cbn [list_ascii_of_string app]. rewrite Hword.
    destruct (lastOr (list_ascii_of_string before) None) as [d|].
    - apply negb_true_iff in Hb. now rewrite Hb.
    - reflexivity. }
  rewrite Hwb. cbn [xorb andb].
  rewrite run_literal.
  change (list_ascii_of_string " ") with [" "%char]. cbn [app].
  rewrite !run_seq, run_space_class.
  change (JsRegExp.isSpace " ") with true. cbn [andb].
  apply run_star_zero. rewrite run_seq.
  apply run_star_any; [exact Hmid|].
  now rewrite run_literal.
Qed.

Lemma firing_template_blocks (host : Host) (command p : string)
  (patterns : list PatternTuple) (pathType : string) (t : PatternTuple) :
  In t patterns ->
  templateFires host command p t = true ->
  operationDetected host command patterns pathType p = true.
Proof.
  intros Hin Hfire. rewrite operationDetected_existsb.
  apply existsb_exists. exists t. now split.
Qed.

Lemma command_operation (verb : string) :
  In verb deleteCommands \/ In verb permissionCommands ->
  exists operation,
    In (commandTemplate verb, operation) READ_ONLY_BLOCKED
    /\ (In verb deleteCommands ->
        In (commandTemplate verb, operation) NO_DELETE_BLOCKED)
    /\ JS.escapeChars metaChars verb = verb
    /\ JS.splitFirst (commandTemplate verb) "{path}"
       = Some ("\b" ++ verb ++ "\s+.*", "")
    /\ match verb with
       | String c _ => JsRegExp.isWordChar c
       | EmptyString => false
       end = true.
Proof.
  unfold deleteCommands, permissionCommands. cbn [In].
  intros [H|H];
    repeat (destruct H as [<-|H];
            [eexists; split; [cbn; tauto|];
             split; [intros Hd; cbn in Hd |- *; intuition discriminate|];
             repeat split|]);
    try destruct H.
Qed.

(** X22. Deleting or re-permissioning a protected literal path is
    blocked.  On a host whose engine agrees with the reference engine,
    with a home directory without dollar sign, for a path specifier
    without wildcard and without dollar sign: a command in which [rm], [unlink],
    [rmdir] or [shred], standing at a word boundary, is followed by a
    space, by any text without line break, and by the path, is reported
    under the no-delete templates as a [delete] on the path, and is blocked
    by every policy that lists the path as no-delete or as read-only; with
    [chmod], [chown], [chgrp] or [truncate] in the place of the command it
    is blocked by every policy that lists the path as read-only. *)
Theorem command_on_protected_literal_is_blocked
  (host : Host) (verb p before mid after : string) (config : Config) :
  Faithful host ->
  isGlobPattern p = false ->
  noDollar p = true ->
  noDollar (homedir host) = true ->
  endsOutsideWord before = true ->
  noLineTerminator mid = true ->
  (In verb deleteCommands ->
   (forall pathType,
       checkPathPatterns host (before ++ verb ++ " " ++ mid ++ p ++ after) p
         NO_DELETE_BLOCKED pathType
       = {| CheckResult.blocked := true;
            CheckResult.reason :=
              "Blocked: delete operation on " ++ pathType ++ " " ++ p |})
   /\ (In p (noDeletePaths config) ->
       BashCheckResult.blocked
         (checkBashCommand host
            (before ++ verb ++ " " ++ mid ++ p ++ after) config) = true))
  /\ (In verb deleteCommands \/ In verb permissionCommands ->
      In p (readOnlyPaths config) ->
      BashCheckResult.blocked
        (checkBashCommand host
           (before ++ verb ++ " " ++ mid ++ p ++ after) config) = true).
Proof.
  intros Hf Hg Hp Hh Hb Hmid.
  assert (Hfire : forall operation,
             In verb deleteCommands \/ In verb permissionCommands ->
             templateFires host (before ++ verb ++ " " ++ mid ++ p ++ after)
               p (commandTemplate verb, operation) = true).
  { intros operation Hverb.
    destruct (command_operation verb Hverb) as (_ & _ & _ & Hv & Hs & Hw).
    unfold templateFires. rewrite Hg.
    now apply command_template_fires. }
  split.
  - intros Hverb.
    destruct (command_operation verb (or_introl Hverb))
      as (operation & _ & Hnd & _).
    specialize (Hnd Hverb).
    pose proof (firing_template_blocks host _ p NO_DELETE_BLOCKED
                  "no-delete path" _ Hnd (Hfire operation (or_introl Hverb)))
      as Hdet.
    split.
    + intros pathType. rewrite checkPathPatterns_find.
      rewrite operationDetected_existsb, existsb_find in Hdet.
      destruct (find _ NO_DELETE_BLOCKED) as [t|] eqn:Hfind; [|discriminate].
      apply find_some in Hfind. destruct Hfind as [Hin _].
      unfold NO_DELETE_BLOCKED, DELETE_PATTERNS in Hin. cbn [In] in Hin.
      repeat (destruct Hin as [<-|Hin]; [reflexivity|]). destruct Hin.
    + intros Hin. exact (no_delete_entry_blocks host _ config p Hin Hdet).
  - intros Hverb Hin.
    destruct (command_operation verb Hverb) as (operation & Hro & _).
    apply (read_only_entry_blocks host _ config p Hin).
    exact (firing_template_blocks host _ p READ_ONLY_BLOCKED
             "read-only path" _ Hro (Hfire operation Hverb)).
Qed.

(** [sudo rm -rf ~/projects/.git/] against the no-delete entry [.git/] *)
Lemma command_on_protected_literal_is_blocked_witness :
  Faithful Example.host
  /\ BashCheckResult.blocked
       (checkBashCommand Example.host
          ("sudo " ++ "rm" ++ " " ++ "-rf ~/projects/" ++ ".git/" ++ "")
          (Example.policy [])) = true.
Proof.
  split; [apply referenceHost_faithful|].
  apply (proj1 (command_on_protected_literal_is_blocked Example.host "rm"
                  ".git/" "sudo " "-rf ~/projects/" "" (Example.policy [])
                  (referenceHost_faithful "/home/dev")
                  eq_refl eq_refl eq_refl eq_refl eq_refl)).
  - left. reflexivity.
  - right. left. reflexivity.
Defined.

(* ===================================================================== *)
(** ** Extension globs *)
(* ===================================================================== *)

Lemma lowerChar_facts (c : ascii) :
  Ascii.eqb "*" (JS.lowerChar c) = Ascii.eqb "*" c
  /\ Ascii.eqb "?" (JS.lowerChar c) = Ascii.eqb "?" c
  /\ JsRegExp.isLineTerminator (JS.lowerChar c) = JsRegExp.isLineTerminator c
  /\ JS.upperChar (JS.lowerChar c) = JS.upperChar c.
Proof.
  destruct c as [[] [] [] [] [] [] [] []]; vm_compute; repeat split.
Qed.

Lemma toLowerCase_app (a b : string) :
  JS.toLowerCase (a ++ b) = JS.toLowerCase a ++ JS.toLowerCase b.
Proof. induction a as [|c a IH]; simpl; [reflexivity|now rewrite IH]. Qed.

Lemma noWildcard_lower (s : string) :
  noWildcard s = true -> noWildcard (JS.toLowerCase s) = true.
Proof.
  unfold noWildcard. induction s as [|c s IH]; [reflexivity|].
  cbn [JS.toLowerCase JS.includesChar].
  destruct (lowerChar_facts c) as (-> & -> & _).
  rewrite !negb_orb, !andb_true_iff in *. intros [[H1 H2] [H3 H4]].
  destruct (IH (conj H2 H4)) as [-> ->]. now rewrite H1, H3.
Qed.

Lemma noLineTerminator_lower (s : string) :
  noLineTerminator s = true -> noLineTerminator (JS.toLowerCase s) = true.
Proof.
  unfold noLineTerminator. induction s as [|c s IH]; [reflexivity|].
  cbn [JS.toLowerCase list_ascii_of_string forallb].
  destruct (lowerChar_facts c) as (_ & _ & -> & _).
  rewrite !andb_true_iff. intros [H1 H2]. now rewrite H1, (IH H2).
Qed.

(** Without [*] and [?], the three escapings of the matchers agree. *)
Lemma escapes_agree (s : string) :
  noWildcard s = true ->
  JS.escapeChars ".+^${}()|[]\" s = JS.escapeChars metaChars s
  /\ globToRegex s = JS.escapeChars metaChars s
  /\ JS.replaceAllChar "*" ".*" (JS.escapeChars metaChars s)
     = JS.escapeChars metaChars s
  /\ JS.replaceAllChar "?" "." (JS.escapeChars metaChars s)
     = JS.escapeChars metaChars s.
Proof.
  unfold noWildcard. induction s as [|c s IH]; [repeat split|].
  cbn [JS.includesChar]. rewrite !negb_orb, !andb_true_iff.
  intros [[H1 H2] [H3 H4]].
  destruct (IH ltac:(now rewrite H2, H4)) as (E1 & E2 & E3 & E4).
  apply negb_true_iff in H1, H3.
  rewrite Ascii.eqb_sym in H1. rewrite Ascii.eqb_sym in H3.
  cbn [JS.escapeChars globToRegex]. rewrite H1, H3, E1, E2.
  assert (Hm : JS.includesChar metaChars c
               = JS.includesChar ".+^${}()|[]\" c).
  { unfold metaChars. cbn [JS.includesChar].
    rewrite H1, H3. cbn [orb]. reflexivity. }
  rewrite Hm.
  destruct (JS.includesChar ".+^${}()|[]\" c).
  - cbn [JS.replaceAllChar append Ascii.eqb Bool.eqb].
    rewrite H1, H3, E3, E4. repeat split.
  - cbn [JS.replaceAllChar append]. rewrite H1, H3, E3, E4. repeat split.
Qed.

Lemma isGlobPattern_star (ext : string) : isGlobPattern (String "*" ext) = true.
Proof.
  unfold isGlobPattern. cbn [JS.includes JS.startsWith].
  now rewrite Ascii.eqb_refl, startsWith_empty.
Qed.

(** As [create_escaped], with a text after the literal. *)
Lemma create_escaped_between (pre post flags : string) (ic : bool)
  (K n : nat) (wrap : JsRegExp.regex -> JsRegExp.regex)
  (after : JsRegExp.regex) :
  (forall f l r,
      unquantifiedHead l = true ->
      JsRegExp.parseAlternative (S f) l = Some (r, []) ->
      JsRegExp.parseDisjunction (K + S f) (list_ascii_of_string pre ++ l)
      = Some (wrap r, [])) ->
  unquantifiedHead (list_ascii_of_string post) = true ->
  JsRegExp.parseAlternative (S n) (list_ascii_of_string post)
  = Some (after, []) ->
  K + S n <= 4 * String.length pre + 4 ->
  JsRegExp.parseFlags flags = Some ic ->
  forall s,
    JsRegExp.create (pre ++ JS.escapeChars metaChars s ++ post) flags
    = Normal {| JsRegExp.ignoreCase := ic;
                JsRegExp.program :=
                  wrap (literalRegex (list_ascii_of_string s) after) |}.
Proof.
  intros Hpre Hhead Hpost HK Hflags s. unfold JsRegExp.create, JsRegExp.parse.
  rewrite Hflags.
  pose proof (parseAlternative_escaped s (S n) _ after []
                ltac:(lia) Hhead Hpost) as Hs.
  rewrite Nat.add_succ_r in Hs.
  pose proof (Hpre _ _ _ (escaped_head s _ Hhead) Hs) as Hd.
  rewrite !list_ascii_of_string_app.
  assert (Hfuel : K + S (String.length s + n)
                  <= 4 * S (List.length
                              (list_ascii_of_string pre
                               ++ list_ascii_of_string
                                    (JS.escapeChars metaChars s)
                               ++ list_ascii_of_string post))).
  { rewrite !length_app, !list_ascii_length.
    pose proof (escaped_length s). lia. }
  now rewrite (proj1 (parse_fuel_mono _) _ _ _ Hfuel Hd).
Qed.

Lemma parse_anchor_prefix (f : nat) (l : list ascii) (r : JsRegExp.regex) :
  unquantifiedHead l = true ->
  JsRegExp.parseAlternative (S f) l = Some (r, []) ->
  JsRegExp.parseDisjunction (3 + S f) (list_ascii_of_string "^.*" ++ l)
  = Some (JsRegExp.Seq JsRegExp.LineStart
            (JsRegExp.Seq (JsRegExp.Star JsRegExp.AnyChar) r), []).
Proof.
  intros Hh Hp. apply parseDisjunction_whole.
  cbn [list_ascii_of_string app plus].
  parse_term. parse_term. rewrite (lazy_plain l Hh), Hp. reflexivity.
Qed.

(** The regex of [[^\s/]*] *)
Lemma parse_segment_prefix (f : nat) (l : list ascii) (r : JsRegExp.regex) :
  unquantifiedHead l = true ->
  JsRegExp.parseAlternative (S f) l = Some (r, []) ->
  JsRegExp.parseDisjunction (2 + S f) (list_ascii_of_string "[^\s/]*" ++ l)
  = Some (JsRegExp.Seq
            (JsRegExp.Star
               (JsRegExp.CharSet true
                  [JsRegExp.ItemClass false JsRegExp.Space;
                   JsRegExp.ItemChar "/"])) r, []).
Proof.
  intros Hh Hp. apply parseDisjunction_whole.
  cbn [list_ascii_of_string app plus].
  parse_term. rewrite (lazy_plain l Hh), Hp. reflexivity.
Qed.

(** Under the [i] flag a literal matches a text equal to it up to case. *)
Lemma run_literal_ignoreCase (r : JsRegExp.regex) (s : string) :
  forall s' b t k,
    JS.toLowerCase s' = JS.toLowerCase s ->
    JsRegExp.run true (literalRegex (list_ascii_of_string s) r)
      {| JsRegExp.before := b;
         JsRegExp.rest := list_ascii_of_string s' ++ t |} k
    = JsRegExp.run true r
        {| JsRegExp.before := lastOr (list_ascii_of_string s') b;
           JsRegExp.rest := t |} k.
Proof.
  induction s as [|c s IH]; intros [|c' s'] b t k H; try discriminate;
    [reflexivity|].
  cbn [JS.toLowerCase] in H. injection H as Hc Hs.
  cbn [list_ascii_of_string literalRegex fold_right app JsRegExp.run
         JsRegExp.rest JsRegExp.canonicalize].
  assert (Hu : JS.upperChar c = JS.upperChar c').
  { destruct (lowerChar_facts c) as (_ & _ & _ & <-).
    destruct (lowerChar_facts c') as (_ & _ & _ & <-). now rewrite Hc. }
  rewrite Hu, Ascii.eqb_refl. cbn [andb]. unfold JsRegExp.advance.
  exact (IH s' (Some c') t k Hs).
Qed.

Lemma run_line_start (ic : bool) (l : list ascii)
  (k : JsRegExp.position -> bool) :
  JsRegExp.run ic JsRegExp.LineStart
    {| JsRegExp.before := None; JsRegExp.rest := l |} k
  = k {| JsRegExp.before := None; JsRegExp.rest := l |}.
Proof. reflexivity. Qed.

(** The glob of an extension matches every name that ends in the
    extension, up to case. *)
Lemma matchGlob_extension (host : Host) (ext stem ending : string) :
  Faithful host ->
  noWildcard ext = true ->
  JS.toLowerCase ending = JS.toLowerCase ext ->
  noLineTerminator stem = true ->
  matchGlob host (stem ++ ending) (String "*" ext) = true.
Proof.
  intros Hf Hw He Hs. unfold matchGlob.
  pose proof (noWildcard_lower ext Hw) as Hwl.
  destruct (escapes_agree _ Hwl) as (E1 & _ & E3 & E4).
  cbn [JS.toLowerCase]. change (JS.lowerChar "*") with "*"%char.
  cbn [JS.escapeChars JS.includesChar Ascii.eqb Bool.eqb orb].
  rewrite E1. cbn [JS.replaceAllChar Ascii.eqb Bool.eqb append].
  rewrite E3. cbn [JS.replaceAllChar Ascii.eqb Bool.eqb append].
  rewrite E4.
  change (String "^" (String "." (String "*"
            (JS.escapeChars metaChars (JS.toLowerCase ext) ++ "$"))))
    with ("^.*" ++ JS.escapeChars metaChars (JS.toLowerCase ext) ++ "$").
  destruct (Hf _ _ _ (create_escaped_between "^.*" "$" "i" true 3 1 _ _
                        parse_anchor_prefix eq_refl eq_refl
                        ltac:(cbn; lia) eq_refl (JS.toLowerCase ext)))
    as (rx & -> & Hrx).
  cbn [bind try_catch]. rewrite Hrx.
  unfold JsRegExp.test, JsRegExp.exec.
  cbn [JsRegExp.ignoreCase JsRegExp.program].
  rewrite toLowerCase_app, list_ascii_of_string_app.
  apply (searchFrom_app true _ [] None).
  cbn [lastOr fold_left]. rewrite run_seq.
  rewrite run_line_start, run_seq.
  rewrite <- (app_nil_r (list_ascii_of_string (JS.toLowerCase ending))).
  apply run_star_any; [now apply noLineTerminator_lower|].
  rewrite run_literal_ignoreCase.
  - reflexivity.
  - now rewrite He.
Qed.

(** X23. The glob of an extension protects the files with that
    extension in every directory.  On a host whose engine agrees with the
    reference engine, take the glob made of [*] and an ending without [*]
    and [?], and a file name that is not empty, has no [/], and is made of
    a stem without line break followed by the ending in whatever letter
    case.  The glob matches the name and every path whose last component
    is the name; a policy with the glob among its zero-access entries
    blocks each such path on both path surfaces.  (The stem must be free
    of line breaks because the [*] of a glob becomes [.*], which stops at
    a line break.) *)
Theorem extension_glob_protects_every_directory
  (host : Host) (ext stem ending dir : string) (config : Config) :
  Faithful host ->
  noWildcard ext = true ->
  JS.toLowerCase ending = JS.toLowerCase ext ->
  noLineTerminator stem = true ->
  noSlash (stem ++ ending) = true ->
  stem ++ ending <> "" ->
  matchGlob host (stem ++ ending) (String "*" ext) = true
  /\ matchPath host (dir ++ "/" ++ stem ++ ending) (String "*" ext) = true
  /\ (In (String "*" ext) (zeroAccessPaths config) ->
      CheckResult.blocked
        (checkFilePathZeroAccessOnly host (dir ++ "/" ++ stem ++ ending) config)
      = true
      /\ CheckResult.blocked
           (checkFilePath host (dir ++ "/" ++ stem ++ ending) config) = true).
Proof.
  intros Hf Hw He Hs Hns Hne.
  pose proof (matchGlob_extension host ext stem ending Hf Hw He Hs) as Hm.
  pose proof (matchPath_glob_name host (String "*" ext) (stem ++ ending) dir
                (isGlobPattern_star ext) Hne Hns Hm) as Hp.
  split; [exact Hm|]. split; [exact Hp|]. intros Hin.
  destruct (zero_access_file_blocks host _ _ _ Hin Hp) as (r & Hr & Hb).
  unfold checkFilePathZeroAccessOnly, checkFilePath. now rewrite Hr.
Qed.

(** [Server.PEM] under any directory, against the entry [*.pem] *)
Lemma extension_glob_protects_every_directory_witness :
  Faithful Example.host
  /\ CheckResult.blocked
       (checkFilePathZeroAccessOnly Example.host
          ("/srv/keys" ++ "/" ++ "Server" ++ ".PEM") (Example.policy []))
     = true.
Proof.
  split; [apply referenceHost_faithful|].
  assert (Hne : "Server" ++ ".PEM" <> "") by discriminate.
  apply (proj2 (proj2 (extension_glob_protects_every_directory Example.host
                         ".pem" "Server" ".PEM" "/srv/keys"
                         (Example.policy [])
                         (referenceHost_faithful "/home/dev")
                         eq_refl eq_refl eq_refl eq_refl Hne))).
  right. left. reflexivity.
Defined.

(** X24. A zero-access extension glob blocks every command that mentions
    the ending.  On a host whose engine agrees with the reference engine,
    with the glob made of [*] and an ending without [*] and [?] among the
    zero-access entries, every command that contains the ending, in
    whatever letter case and whatever stands around it, is blocked. *)
Theorem zero_access_glob_blocks_any_mention
  (host : Host) (ext before ending after : string) (config : Config) :
  Faithful host ->
  noWildcard ext = true ->
  JS.toLowerCase ending = JS.toLowerCase ext ->
  In (String "*" ext) (zeroAccessPaths config) ->
  zeroAccessMatches host (before ++ ending ++ after) (String "*" ext) = true
  /\ BashCheckResult.blocked
       (checkBashCommand host (before ++ ending ++ after) config) = true.
Proof.
  intros Hf Hw He Hin.
  assert (Hm : zeroAccessMatches host (before ++ ending ++ after)
                 (String "*" ext) = true).
  { unfold zeroAccessMatches. rewrite isGlobPattern_star.
    cbn [globToRegex Ascii.eqb Bool.eqb].
    destruct (escapes_agree _ Hw) as (_ & -> & _).
    destruct (Hf _ _ _ (create_escaped "[^\s/]*" "i" true 2 _
                          parse_segment_prefix ltac:(cbn; lia) eq_refl ext))
      as (rx & -> & Hrx).
    cbn [bind try_catch]. rewrite Hrx.
    unfold JsRegExp.test, JsRegExp.exec.
    cbn [JsRegExp.ignoreCase JsRegExp.program].
    rewrite !list_ascii_of_string_app.
    apply searchFrom_app. rewrite run_seq.
    apply run_star_zero.
    now rewrite (run_literal_ignoreCase _ ext ending). }
  split; [exact Hm|].
  exact (zero_access_entry_blocks host _ config _ Hin Hm).
Qed.

(** The entry [*.pem] blocks a command that mentions [.PEMBROKE]. *)
Lemma zero_access_glob_blocks_any_mention_witness :
  Faithful Example.host
  /\ BashCheckResult.blocked
       (checkBashCommand Example.host
          ("ls docs/towns" ++ ".PEM" ++ "BROKE") (Example.policy []))
     = true.
Proof.
  split; [apply referenceHost_faithful|].
  apply (zero_access_glob_blocks_any_mention Example.host ".pem"
           "ls docs/towns" ".PEM" "BROKE" (Example.policy [])
           (referenceHost_faithful "/home/dev") eq_refl eq_refl).
  right. left. reflexivity.
Defined.
